(** * Verification of the MLOps housing pipeline scripts

    The development embeds the Python scripts of the repository

    - [one/retrain_housing.py]       (module [Retrain]),
    - [generate_sample_data.py]      (module [Generator]),
    - [test_api.py]                  (module [SmokeTest]),
    - [troubleshoot_monitoring.py]   (module [Troubleshooter]),

    as Rocq programs and proves properties of them.

    Every script talks to collaborators that are not part of the repository
    (pandas, scikit-learn, MLflow, requests, docker-compose, the console).
    A script is therefore embedded as a finite tree of *requests* to its
    environment ([prog]): each request names the external call with its
    arguments, and the tree continues with the answer, which is either a
    value or a raised Python exception.  An environment is any state machine
    answering the requests; theorems quantify over all of them. *)

From Stdlib Require Import List String Ascii Bool Arith ZArith NArith QArith Qabs Lia Lqa.
Import ListNotations.
#[local] Close Scope Q_scope.
#[local] Open Scope list_scope.

(* ===================================================================== *)
(** * Python strings *)
(* ===================================================================== *)

(** A Python [str] is a sequence of Unicode code points. *)
Definition char := N.
Definition pystr := list char.

(** Decoding of UTF-8 bytes into code points. *)
Fixpoint utf8_decode (bs : list N) : pystr :=
  match bs with
  | [] => []
  | b0 :: r0 =>
      if (b0 <? 128)%N then b0 :: utf8_decode r0
      else match r0 with
      | [] => []
      | b1 :: r1 =>
          if (b0 <? 224)%N then
            ((b0 - 192) * 64 + (b1 - 128))%N :: utf8_decode r1
          else match r1 with
          | [] => []
          | b2 :: r2 =>
              if (b0 <? 240)%N then
                ((b0 - 224) * 4096 + (b1 - 128) * 64 + (b2 - 128))%N
                  :: utf8_decode r2
              else match r2 with
              | [] => []
              | b3 :: r3 =>
                  ((b0 - 240) * 262144 + (b1 - 128) * 4096 +
                   (b2 - 128) * 64 + (b3 - 128))%N :: utf8_decode r3
              end
          end
      end
  end.

(** String literals of the sources are written [py "..."]: the literal holds
    the UTF-8 bytes of the source file. *)
Definition py (s : string) : pystr :=
  utf8_decode (map N_of_ascii (list_ascii_of_string s)).

(** The line feed, written [\n] in the sources. *)
Definition nl : pystr := [10%N].

Definition char_eqb (a b : char) : bool := N.eqb a b.

Fixpoint str_eqb (a b : pystr) : bool :=
  match a, b with
  | [], [] => true
  | x :: a', y :: b' => char_eqb x y && str_eqb a' b'
  | _, _ => false
  end.

(** Truthiness of a string: [bool(s)]. *)
Definition str_truthy (s : pystr) : bool :=
  match s with [] => false | _ :: _ => true end.

(** [s.startswith(p)]. *)
Fixpoint startswith (s p : pystr) : bool :=
  match p, s with
  | [], _ => true
  | _ :: _, [] => false
  | c :: p', d :: s' => char_eqb c d && startswith s' p'
  end.

(** [sub in s] for strings. *)
Fixpoint str_in (sub s : pystr) : bool :=
  startswith s sub ||
  match s with
  | [] => false
  | _ :: s' => str_in sub s'
  end.

(** [s * n]. *)
Definition str_mul (s : pystr) (n : nat) : pystr := List.concat (repeat s n).

(** [sep.join(parts)]. *)
Fixpoint join (sep : pystr) (parts : list pystr) : pystr :=
  match parts with
  | [] => []
  | [p] => p
  | p :: rest => p ++ sep ++ join sep rest
  end.

(** Code points for which [str.isspace] holds; [str.strip()] and
    [str.split()] without arguments use this set. *)
Definition isspace (c : char) : bool :=
  ((9 <=? c) && (c <=? 13) || (28 <=? c) && (c <=? 32) ||
   (c =? 133) || (c =? 160) || (c =? 5760) ||
   (8192 <=? c) && (c <=? 8202) || (c =? 8232) || (c =? 8233) ||
   (c =? 8239) || (c =? 8287) || (c =? 12288))%N.

Fixpoint lstrip (s : pystr) : pystr :=
  match s with
  | c :: s' => if isspace c then lstrip s' else s
  | [] => []
  end.

Definition rstrip (s : pystr) : pystr := rev (lstrip (rev s)).

(** [s.strip()]. *)
Definition strip (s : pystr) : pystr := rstrip (lstrip s).

(** [s.split(sep)] for a one-character separator: always at least one
    piece, empty pieces kept. *)
Fixpoint split_on (sep : char) (s : pystr) : list pystr :=
  match s with
  | [] => [[]]
  | c :: s' =>
      if char_eqb c sep then [] :: split_on sep s'
      else match split_on sep s' with
           | [] => [[c]]
           | w :: ws => (c :: w) :: ws
           end
  end.

(** [s.split()]: runs of white space separate the fields, and no field is
    empty.  [cur] holds the field being read, reversed. *)
Fixpoint split_ws_aux (cur : pystr) (s : pystr) : list pystr :=
  match s with
  | [] => match cur with [] => [] | _ => [rev cur] end
  | c :: s' =>
      if isspace c then
        match cur with
        | [] => split_ws_aux [] s'
        | _ => rev cur :: split_ws_aux [] s'
        end
      else split_ws_aux (c :: cur) s'
  end.

Definition split_ws (s : pystr) : list pystr := split_ws_aux [] s.

(** Decimal digits of a natural number, [str(n)]. *)
Fixpoint digits_fuel (fuel : nat) (n : N) (acc : pystr) : pystr :=
  match fuel with
  | O => acc
  | S fuel' =>
      let acc' := (48 + (n mod 10))%N :: acc in
      if (n <? 10)%N then acc' else digits_fuel fuel' (n / 10)%N acc'
  end.

Definition str_of_N (n : N) : pystr := digits_fuel (S (N.to_nat (N.log2 n))) n [].

(** [str(i)] for an [int]. *)
Definition str_of_int (i : Z) : pystr :=
  match i with
  | Zneg p => py "-" ++ str_of_N (Npos p)
  | _ => str_of_N (Z.to_N i)
  end.

(** [repr(s)] for a string: single quotes, unless the string holds a single
    quote and no double quote; backslash, the chosen quote and the ASCII
    control characters are escaped.  Code points above 127 are taken as
    printable. *)
Definition hex_digit (n : N) : char :=
  if (n <? 10)%N then (48 + n)%N else (87 + n)%N.

Definition repr_char (quote : char) (c : char) : pystr :=
  if char_eqb c quote || char_eqb c 92%N then [92%N; c]
  else if char_eqb c 9%N then py "\t"
  else if char_eqb c 10%N then py "\n"
  else if char_eqb c 13%N then py "\r"
  else if (c <? 32)%N || char_eqb c 127%N then
    py "\x" ++ [hex_digit (c / 16)%N; hex_digit (c mod 16)%N]
  else [c].

Definition repr_str (s : pystr) : pystr :=
  let quote : char :=
    if existsb (char_eqb 39%N) s && negb (existsb (char_eqb 34%N) s)
    then 34%N else 39%N in
  quote :: flat_map (repr_char quote) s ++ [quote].

(** [str(l)] for a list of strings. *)
Definition str_of_list (l : list pystr) : pystr :=
  py "[" ++ join (py ", ") (map repr_str l) ++ py "]".

(* ===================================================================== *)
(** * Python floats *)
(* ===================================================================== *)

(** A [float] is a rational, an infinity or NaN.  Only comparison and
    formatting are used by the scripts, so the finite values are kept as
    exact rationals (the two zeros are one value); the arithmetic of the
    traffic generator is stated over [Q] as well. *)
Inductive pyfloat : Type :=
| FFinite (q : Q)
| FInf (negative : bool)
| FNaN.

Definition Qltb (a b : Q) : bool :=
  (Qnum a * Zpos (Qden b) <? Qnum b * Zpos (Qden a))%Z.

(** [a < b]. *)
Definition float_lt (a b : pyfloat) : bool :=
  match a, b with
  | FNaN, _ | _, FNaN => false
  | FInf true, FInf true => false
  | FInf true, _ => true
  | _, FInf true => false
  | FInf false, _ => false
  | _, FInf false => true
  | FFinite x, FFinite y => Qltb x y
  end.

(** [a == b]. *)
Definition float_eq (a b : pyfloat) : bool :=
  match a, b with
  | FFinite x, FFinite y => Qeq_bool x y
  | FInf s, FInf t => Bool.eqb s t
  | _, _ => false
  end.

(** [a <= b]. *)
Definition float_le (a b : pyfloat) : bool := float_lt a b || float_eq a b.

Definition float_isnan (a : pyfloat) : bool :=
  match a with FNaN => true | _ => false end.

(** Rounding of a non-negative rational to the nearest integer, ties to
    even. *)
Definition round_half_even (q : Q) : Z :=
  let n := Qnum q in
  let d := Zpos (Qden q) in
  let fl := (n / d)%Z in
  let twice := (2 * (n mod d))%Z in
  if (twice <? d)%Z then fl
  else if (d <? twice)%Z then (fl + 1)%Z
  else if Z.even fl then fl else (fl + 1)%Z.

(** [n] written with at least [width] digits. *)
Definition zero_padded (width : nat) (n : Z) : pystr :=
  let d := str_of_int n in
  repeat 48%N (width - List.length d) ++ d.

(** [f"{x:.<digits>f}"] for one digit or more: the nearest decimal with
    [digits] digits after the point, ties to even. *)
Definition format_fixed (digits : nat) (x : pyfloat) : pystr :=
  match x with
  | FNaN => py "nan"
  | FInf false => py "inf"
  | FInf true => py "-inf"
  | FFinite q =>
      let scale := (10 ^ Z.of_nat digits)%Z in
      let m := round_half_even (Qabs q * inject_Z scale)%Q in
      (if Qltb q 0%Q then py "-" else []) ++
      str_of_int (m / scale)%Z ++ py "." ++ zero_padded digits (m mod scale)%Z
  end.

(** [f"{x:.3f}"] and [f"{x:.2f}"]. *)
Definition format_3f (x : pyfloat) : pystr := format_fixed 3 x.
Definition format_2f (x : pyfloat) : pystr := format_fixed 2 x.

(* ===================================================================== *)
(** * Python dictionaries with string keys *)
(* ===================================================================== *)

(** A [dict] keeps its keys in insertion order; assigning to a key that is
    already present keeps the key's position. *)
Definition pydict (V : Type) : Type := list (pystr * V).

Fixpoint dict_set {V} (d : pydict V) (k : pystr) (v : V) : pydict V :=
  match d with
  | [] => [(k, v)]
  | (k', v') :: d' =>
      if str_eqb k' k then (k', v) :: d' else (k', v') :: dict_set d' k v
  end.

Fixpoint dict_get {V} (d : pydict V) (k : pystr) : option V :=
  match d with
  | [] => None
  | (k', v') :: d' => if str_eqb k' k then Some v' else dict_get d' k
  end.

Definition dict_keys {V} (d : pydict V) : list pystr := map fst d.

(* ===================================================================== *)
(** * Python exceptions *)
(* ===================================================================== *)

(** The exception classes the scripts tell apart in their [except]
    clauses.  [KeyboardInterrupt], [SystemExit] and [GeneratorExit] derive
    from [BaseException] but not from [Exception]. *)
Inductive exn_class : Type :=
| KeyboardInterrupt
| SystemExit
| GeneratorExit
| RequestsConnectionError   (* requests.exceptions.ConnectionError *)
| RequestsOther             (* any other requests.exceptions.RequestException *)
| TimeoutExpired            (* subprocess.TimeoutExpired *)
| FileNotFoundError
| OtherException.           (* any other subclass of Exception *)

(** An exception object: its class and [str(e)]. *)
Record exn : Type := Exn { exn_cls : exn_class; exn_str : pystr }.

(** [isinstance(e, Exception)]. *)
Definition is_Exception (e : exn) : bool :=
  match exn_cls e with
  | KeyboardInterrupt | SystemExit | GeneratorExit => false
  | _ => true
  end.

(** [isinstance(e, requests.exceptions.ConnectionError)]. *)
Definition is_ConnectionError (e : exn) : bool :=
  match exn_cls e with RequestsConnectionError => true | _ => false end.

(** [isinstance(e, requests.exceptions.RequestException)]. *)
Definition is_RequestException (e : exn) : bool :=
  match exn_cls e with
  | RequestsConnectionError | RequestsOther => true
  | _ => false
  end.

(** [isinstance(e, (subprocess.TimeoutExpired, FileNotFoundError))]. *)
Definition is_TimeoutExpired_or_FileNotFound (e : exn) : bool :=
  match exn_cls e with
  | TimeoutExpired | FileNotFoundError => true
  | _ => false
  end.

(** The outcome of a call: a value, or an exception on its way up. *)
Inductive outcome (A : Type) : Type :=
| Returns (a : A)
| Raises (e : exn).
Arguments Returns {A} a.
Arguments Raises {A} e.

(* ===================================================================== *)
(** * Programs over an environment *)
(* ===================================================================== *)

Section Prog.
(** [Op] names the external calls, [Resp o] is the type of the value call
    [o] returns. *)
Variable Op : Type.
Variable Resp : Op -> Type.

Inductive prog (A : Type) : Type :=
| Ret (a : A)
| Throw (e : exn)
| Do (o : Op) (k : outcome (Resp o) -> prog A).
Arguments Ret {A} a.
Arguments Throw {A} e.
Arguments Do {A} o k.

(** Run [m]; continue with [f] on a value and with [h] on an exception. *)
Fixpoint handle_with {A B} (m : prog A) (f : A -> prog B) (h : exn -> prog B)
  : prog B :=
  match m with
  | Ret a => f a
  | Throw e => h e
  | Do o k => Do o (fun r => handle_with (k r) f h)
  end.

Definition bind {A B} (m : prog A) (f : A -> prog B) : prog B :=
  handle_with m f Throw.

(** One external call; an exception it raises propagates. *)
Definition call (o : Op) : prog (Resp o) :=
  Do o (fun r => match r with Returns v => Ret v | Raises e => Throw e end).

(** Lifting of a pure computation that may raise. *)
Definition lift {A} (r : outcome A) : prog A :=
  match r with Returns a => Ret a | Raises e => Throw e end.

(** [try: m  except C as e: h e], where [catches] decides
    [isinstance(e, C)]. *)
Definition try_except {A} (m : prog A) (catches : exn -> bool)
    (h : exn -> prog A) : prog A :=
  handle_with m Ret (fun e => if catches e then h e else Throw e).

(** [with cm: m], for a context manager whose [__exit__] is [leave]: it
    runs on the way out whether [m] returned or raised, and it does not
    swallow the exception of [m]. *)
Definition with_exit {A} (m : prog A) (leave : option exn -> prog unit)
  : prog A :=
  handle_with m
    (fun a => bind (leave None) (fun _ => Ret a))
    (fun e => bind (leave (Some e)) (fun _ => Throw e)).

(** [for x in xs: body x]. *)
Fixpoint for_each {X} (xs : list X) (body : X -> prog unit) : prog unit :=
  match xs with
  | [] => Ret tt
  | x :: xs' => bind (body x) (fun _ => for_each xs' body)
  end.

(** [for x in xs: body], where the body updates local variables [s]. *)
Fixpoint for_fold {X S} (xs : list X) (s : S) (body : X -> S -> prog S)
  : prog S :=
  match xs with
  | [] => Ret s
  | x :: xs' => bind (body x s) (fun s' => for_fold xs' s' body)
  end.

(** ** Environments and runs *)

(** One answered request. *)
Record event : Type := Ev { ev_op : Op; ev_res : outcome (Resp ev_op) }.

(** An environment with states [W] answers every request and moves to a
    next state. *)
Definition env (W : Type) : Type := forall o : Op, W -> outcome (Resp o) * W.

Section Run.
Variable W : Type.
Variable E : env W.

(** The result of a run: how the program ended, the requests it made
    with their answers in order, and the final state. *)
Record result (A : Type) : Type :=
  Res { res_out : outcome A; res_trace : list event; res_world : W }.
Arguments Res {A} res_out res_trace res_world.
Arguments res_out {A} r.
Arguments res_trace {A} r.
Arguments res_world {A} r.

Definition after {A} (ev : event) (r : result A) : result A :=
  Res (res_out r) (ev :: res_trace r) (res_world r).

Fixpoint run {A} (m : prog A) (w : W) : result A :=
  match m with
  | Ret a => Res (Returns a) [] w
  | Throw e => Res (Raises e) [] w
  | Do o k =>
      let a := E o w in
      after (Ev o (fst a)) (run (k (fst a)) (snd a))
  end.

(** The requests made, without their answers. *)
Definition ops {A} (r : result A) : list Op := map ev_op (res_trace r).

(** Sequencing of runs. *)
Definition then_run {A B} (r : result A) (f : A -> prog B)
    (h : exn -> prog B) : result B :=
  let r' := match res_out r with
            | Returns a => run (f a) (res_world r)
            | Raises e => run (h e) (res_world r)
            end in
  Res (res_out r') (res_trace r ++ res_trace r') (res_world r').

(** [always Q m]: in this environment every request [m] makes satisfies
    [Q]. *)
Definition always {A} (Q : Op -> Prop) (m : prog A) : Prop :=
  forall w, Forall (fun ev => Q (ev_op ev)) (res_trace (run m w)).

(** [raises_only P m]: in this environment every exception [m] ends with
    satisfies [P]. *)
Definition raises_only {A} (P : exn -> Prop) (m : prog A) : Prop :=
  forall w e, res_out (run m w) = Raises e -> P e.

(** Every exception the environment raises satisfies [P]. *)
Definition env_raises_only (P : exn -> Prop) : Prop :=
  forall o w e, fst (E o w) = Raises e -> P e.

(** [quiet P m]: in this environment [m] never makes a request satisfying
    [P]. *)
Definition quiet {A} (P : Op -> bool) (m : prog A) : Prop :=
  forall w, Forall (fun ev => P (ev_op ev) = false) (res_trace (run m w)).

End Run.
End Prog.

Arguments Ret {Op Resp A} a.
Arguments Throw {Op Resp A} e.
Arguments Do {Op Resp A} o k.
Arguments call {Op Resp} o.
Arguments lift {Op Resp A} r.
Arguments Ev {Op Resp} ev_op ev_res.
Arguments ev_op {Op Resp} e.
Arguments ev_res {Op Resp} e.
Arguments Res {Op Resp W A} res_out res_trace res_world.
Arguments res_out {Op Resp W A} r.
Arguments res_trace {Op Resp W A} r.
Arguments res_world {Op Resp W A} r.
Arguments handle_with {Op Resp A B} m f h.
Arguments bind {Op Resp A B} m f.
Arguments try_except {Op Resp A} m catches h.
Arguments with_exit {Op Resp A} m leave.
Arguments for_each {Op Resp X} xs body.
Arguments run {Op Resp W} E {A} m w.
Arguments ops {Op Resp W A} r.
Arguments then_run {Op Resp W} E {A B} r f h.
Arguments after {Op Resp W A} ev r.
Arguments quiet {Op Resp W} E {A} P m.
Arguments always {Op Resp W} E {A} Q m.
Arguments raises_only {Op Resp W} E {A} P m.
Arguments env_raises_only {Op Resp W} E P.
Arguments for_fold {Op Resp X S} xs s body.

Declare Scope prog_scope.
Delimit Scope prog_scope with prog.
Notation "x <- m ;; k" := (bind m (fun x => k))
  (at level 100, m at next level, right associativity) : prog_scope.
Notation "m ;; k" := (bind m (fun _ => k))
  (at level 100, right associativity) : prog_scope.

(** [d[k]], which raises [KeyError] on a missing key. *)
Definition dict_getitem {V} (d : pydict V) (k : pystr) : outcome V :=
  match dict_get d k with
  | Some v => Returns v
  | None => Raises (Exn OtherException (repr_str k))
  end.

(** [min(xs, key=key)]: the first element whose key no later element is
    strictly below; [ValueError] on an empty sequence.  An exception of
    [key] propagates. *)
Fixpoint min_from {A} (key : A -> outcome pyfloat) (best : A) (kbest : pyfloat)
    (xs : list A) : outcome A :=
  match xs with
  | [] => Returns best
  | x :: xs' =>
      match key x with
      | Raises e => Raises e
      | Returns kx =>
          if float_lt kx kbest then min_from key x kx xs'
          else min_from key best kbest xs'
      end
  end.

Definition py_min {A} (xs : list A) (key : A -> outcome pyfloat) : outcome A :=
  match xs with
  | [] => Raises (Exn OtherException (py "min() arg is an empty sequence"))
  | x :: xs' =>
      match key x with
      | Raises e => Raises e
      | Returns kx => min_from key x kx xs'
      end
  end.


(* ===================================================================== *)
(** * HTTP responses and decoded JSON *)
(* ===================================================================== *)

(** What [response.json()] returns: the text [str] gives the value, the
    name of its type, and, when it is a dictionary, its items with each
    value as the text [str] gives it. *)
Record json : Type := Json {
  json_text : pystr;
  json_items : option (pydict pystr);
  json_type : pystr
}.

(** [result.get(key, default)]: only a dictionary has [get]. *)
Definition json_get (result : json) (key default : pystr) : outcome pystr :=
  match json_items result with
  | Some items =>
      Returns (match dict_get items key with Some v => v | None => default end)
  | None =>
      Raises (Exn OtherException
                (py "'" ++ json_type result ++ py "' object has no attribute 'get'"))
  end.

(* ===================================================================== *)
(** * Observations on traces *)
(* ===================================================================== *)

Section Observations.
Context {Op : Type} {Resp : Op -> Type}.

(** The request of the event was answered with a value. *)
Definition returned (ev : event Op Resp) : bool :=
  match ev_res ev with Returns _ => true | Raises _ => false end.

(** The number of events of a trace that satisfy [P]. *)
Definition count (P : event Op Resp -> bool) (t : list (event Op Resp)) : nat :=
  List.length (filter P t).

(** ** Resources held one at a time

    [acquire ev] is the resource event [ev] hands to the program (an opened
    file, a started run, a created socket), [release ev] the resource the
    program gives back with [ev].  [scan held t] follows the trace [t] from
    a moment at which [held] is the resource in hand: it fails when a
    resource is acquired while another one is held, or when a resource is
    released that is not the one held; otherwise it gives the resource in
    hand at the end. *)
Section Brackets.
Context {R : Type} (same : R -> R -> bool).
Context (acquire release : event Op Resp -> option R).

Fixpoint scan (held : option R) (t : list (event Op Resp))
  : option (option R) :=
  match t with
  | [] => Some held
  | ev :: t' =>
      match acquire ev, release ev, held with
      | Some r, _, None => scan (Some r) t'
      | Some _, _, Some _ => None
      | None, Some r, Some r' => if same r r' then scan None t' else None
      | None, Some _, None => None
      | None, None, _ => scan held t'
      end
  end.

(** Every resource acquired in [t] is released before the next one is
    acquired, and before the end of [t]. *)
Definition bracketed (t : list (event Op Resp)) : Prop :=
  scan None t = Some None.

End Brackets.

(** ** Properties of every trace of a program *)

(** [every_trace E P m]: the trace of every run of [m] in [E] satisfies
    [P]. *)
Definition every_trace {W} (E : env Op Resp W) {A}
    (P : list (event Op Resp) -> Prop) (m : prog Op Resp A) : Prop :=
  forall w, P (res_trace (run E m w)).

End Observations.

(* ===================================================================== *)
(** * one/retrain_housing.py *)
(* ===================================================================== *)

Module Retrain.

(** Values owned by the libraries are opaque to the script, which only
    passes them on: a table or column of pandas, an array of predictions
    ([frame]), an estimator of scikit-learn, a model signature, an open
    file.  Each is named by an abstract token; equal tokens are equal
    values. *)
Definition frame := N.
Definition estimator := N.
Definition signature := N.
Definition file := N.

(** The entry [{'mse': ..., 'r2': ..., 'run_id': ...}] kept per model. *)
Record metrics : Type :=
  Metrics { mse : pyfloat; r2 : pyfloat; run_id : pystr }.

(** The dictionary [retrain_results]. *)
Record retrain_results : Type := RetrainResults {
  retrain_timestamp : pystr;
  best_model : pystr;
  performance : metrics;
  all_models : pydict metrics;
  data_source : pystr
}.

(** What [retrain_housing_model] returns: [retrain_results], or the
    dictionary [{"error": str(e)}]. *)
Inductive summary : Type :=
| Results (r : retrain_results)
| ErrorDict (error : pystr).

(** The external calls of the script. *)
Inductive op : Type :=
| os_path_exists (path : pystr)
| print (msg : pystr)
| pd_read_csv (path : pystr)
| df_drop (df : frame) (label : pystr)               (* df.drop(label, axis=1) *)
| df_getitem (df : frame) (column : pystr)           (* df[column] *)
| train_test_split (X y : frame) (test_size : Q) (random_state : Z)
| os_makedirs (path : pystr) (exist_ok : bool)
| LinearRegression
| DecisionTreeRegressor (max_depth : Z)
| datetime_now_strftime (format : pystr)             (* datetime.now().strftime(format) *)
| datetime_now_isoformat                             (* datetime.now().isoformat() *)
| mlflow_start_run (run_name : pystr)
| mlflow_end_run (status : pystr)                    (* __exit__ of the active run *)
| model_fit (model : estimator) (X y : frame)
| model_predict (model : estimator) (X : frame)
| mean_squared_error (y_true y_pred : frame)
| r2_score (y_true y_pred : frame)
| mlflow_log_param (key value : pystr)
| mlflow_log_metric (key : pystr) (value : pyfloat)
| infer_signature (model_input model_output : frame)
| df_head (df : frame) (n : Z)
| mlflow_sklearn_log_model (sk_model : estimator) (artifact_path : pystr)
    (input_example : frame) (sig : signature)
| joblib_dump (model : estimator) (path : pystr)
| mlflow_register_model (model_uri name : pystr)
| open_w (path : pystr)                              (* open(path, "w") *)
| json_dump (obj : retrain_results) (fp : file) (indent : Z)
| file_close (fp : file).                            (* __exit__ of the file *)

(** The type of the value each call returns.  [mlflow.start_run] answers
    with the run, of which the script reads [run.info.run_id];
    [mlflow.register_model] with the model version, of which it prints
    [version]. *)
Definition resp (o : op) : Type :=
  match o with
  | os_path_exists _ => bool
  | pd_read_csv _ | df_drop _ _ | df_getitem _ _ | model_predict _ _
  | df_head _ _ => frame
  | train_test_split _ _ _ _ => (frame * frame * frame * frame)%type
  | LinearRegression | DecisionTreeRegressor _ => estimator
  | datetime_now_strftime _ | datetime_now_isoformat
  | mlflow_start_run _ | mlflow_register_model _ _ => pystr
  | mean_squared_error _ _ | r2_score _ _ => pyfloat
  | infer_signature _ _ => signature
  | open_w _ => file
  | print _ | os_makedirs _ _ | mlflow_end_run _ | model_fit _ _ _
  | mlflow_log_param _ _ | mlflow_log_metric _ _
  | mlflow_sklearn_log_model _ _ _ _ | joblib_dump _ _ | json_dump _ _ _
  | file_close _ => unit
  end.

Definition M := prog op resp.

(** A call to the environment. *)
Definition ext (o : op) : M (resp o) := call o.

#[local] Open Scope prog_scope.

(** [ActiveRun.__exit__]: the run ends as FINISHED, or as FAILED when the
    block raised. *)
Definition end_run (raised : option exn) : M unit :=
  ext (mlflow_end_run
          (match raised with None => py "FINISHED" | Some _ => py "FAILED" end)).

(** The nested function [train_and_log_model].  It reads the partitions
    and updates [model_performance] of the enclosing call; the updated
    dictionary is returned. *)
Definition train_and_log_model (X_train X_test y_train y_test : frame)
    (model_performance : pydict metrics) (model : estimator)
    (model_name : pystr) : M (pydict metrics) :=
  stamp <- ext (datetime_now_strftime (py "%Y%m%d_%H%M%S")) ;;
  run <- ext (mlflow_start_run (py "retrain_" ++ model_name ++ py "_" ++ stamp)) ;;
  with_exit
    (ext (model_fit model X_train y_train) ;;
     preds <- ext (model_predict model X_test) ;;
     mse <- ext (mean_squared_error y_test preds) ;;
     r2 <- ext (r2_score y_test preds) ;;
     ext (mlflow_log_param (py "model_name") model_name) ;;
     now <- ext datetime_now_isoformat ;;
     ext (mlflow_log_param (py "retrain_timestamp") now) ;;
     ext (mlflow_log_metric (py "mse") mse) ;;
     ext (mlflow_log_metric (py "r2_score") r2) ;;
     sig <- ext (infer_signature X_test preds) ;;
     input_example <- ext (df_head X_test 2) ;;
     ext (mlflow_sklearn_log_model model (py "model") input_example sig) ;;
     ext (joblib_dump model (py "../models/" ++ model_name ++ py ".pkl")) ;;
     ext (print (py "✅ " ++ model_name ++ py " | MSE: " ++ format_3f mse ++
                  py " | R2 Score: " ++ format_3f r2 ++
                  py " | Saved to ../models/" ++ model_name ++ py ".pkl")) ;;
     Ret (dict_set model_performance model_name (Metrics mse r2 run)))
    end_run.

(** [for model_name, metrics in model_performance.items(): print(...)]. *)
Definition print_comparison (model_performance : pydict metrics) : M unit :=
  for_each model_performance (fun item =>
    ext (print (fst item ++ py ": MSE=" ++ format_3f (mse (snd item)) ++
                 py ", R2=" ++ format_3f (r2 (snd item))))).

(** [min(model_performance.keys(), key=lambda x: model_performance[x]['mse'])]. *)
Definition select_best (model_performance : pydict metrics) : outcome pystr :=
  py_min (dict_keys model_performance)
    (fun x => match dict_getitem model_performance x with
              | Returns m => Returns (mse m)
              | Raises e => Raises e
              end).

(** The inner [try] around the registration of the best model. *)
Definition register_best (best_metrics : metrics) : M unit :=
  try_except
    (version <- ext (mlflow_register_model
                        (py "runs:/" ++ run_id best_metrics ++ py "/model")
                        (py "HousingPricePredictor")) ;;
     ext (print (py "✅ Successfully registered 'HousingPricePredictor' model (version "
                  ++ version ++ py ")")))
    is_Exception
    (fun e =>
       ext (print (py "⚠️  HousingPricePredictor already registered or error: "
                    ++ exn_str e))).

(** [new_data_path if new_data_path else "existing_data"]. *)
Definition data_source_of (new_data_path : option pystr) : pystr :=
  match new_data_path with
  | Some p => if str_truthy p then p else py "existing_data"
  | None => py "existing_data"
  end.

(** The processed dataset every run falls back to. *)
Definition canonical_path : pystr := py "../data/housing.csv".

Definition load_existing : M frame :=
  ext (print (py "🔄 Loading existing data")) ;;
  ext (pd_read_csv canonical_path).

(** Lines 24-29: the dataset is read from [new_data_path] when it is given
    and exists, and from the canonical path otherwise.  [and] evaluates
    [os.path.exists] only for a truthy [new_data_path]. *)
Definition load_data (new_data_path : option pystr) : M frame :=
  match new_data_path with
  | Some p =>
      if str_truthy p then
        found <- ext (os_path_exists p) ;;
        if found then
          ext (print (py "🔄 Loading new data from " ++ p)) ;;
          ext (pd_read_csv p)
        else load_existing
      else load_existing
  | None => load_existing
  end.

(** Lines 31-37: features, target and the train/test partition. *)
Definition split_data (df : frame) : M (frame * frame * frame * frame) :=
  X <- ext (df_drop df (py "MedHouseVal")) ;;
  y <- ext (df_getitem df (py "MedHouseVal")) ;;
  ext (train_test_split X y (2 # 10) 42).

(** Lines 43 and 81-82: both candidates, in this order. *)
Definition train_models (X_train X_test y_train y_test : frame)
    : M (pydict metrics) :=
  let model_performance : pydict metrics := [] in
  lr <- ext LinearRegression ;;
  model_performance <-
    train_and_log_model X_train X_test y_train y_test model_performance
      lr (py "LinearRegression") ;;
  dt <- ext (DecisionTreeRegressor 5) ;;
  train_and_log_model X_train X_test y_train y_test model_performance
    dt (py "DecisionTree").

(** Lines 85-96: the comparison table and the choice of the best model. *)
Definition report_best (model_performance : pydict metrics)
    : M (pystr * metrics) :=
  ext (print (nl ++ py "📊 Model Performance Comparison:")) ;;
  ext (print (str_mul (py "=") 40)) ;;
  print_comparison model_performance ;;
  best_model_name <- lift (select_best model_performance) ;;
  best_metrics <- lift (dict_getitem model_performance best_model_name) ;;
  ext (print (nl ++ py "🏆 Best Model: " ++ best_model_name)) ;;
  ext (print (py "   MSE: " ++ format_3f (mse best_metrics))) ;;
  ext (print (py "   R2 Score: " ++ format_3f (r2 best_metrics))) ;;
  Ret (best_model_name, best_metrics).

Definition results_path : pystr := py "../retrain_results.json".

(** Lines 108-121: the summary is built, written and returned. *)
Definition save_results (new_data_path : option pystr)
    (model_performance : pydict metrics) (best_model_name : pystr)
    (best_metrics : metrics) : M summary :=
  now <- ext datetime_now_isoformat ;;
  let retrain_results :=
    RetrainResults now best_model_name best_metrics model_performance
      (data_source_of new_data_path) in
  f <- ext (open_w results_path) ;;
  with_exit (ext (json_dump retrain_results f 2))
            (fun _ => ext (file_close f)) ;;
  ext (print (py "✅ Retraining completed successfully!")) ;;
  Ret (Results retrain_results).

(** Lines 98-121: registration of the best model, then the summary. *)
Definition register_and_save (new_data_path : option pystr)
    (model_performance : pydict metrics) (best_model_name : pystr)
    (best_metrics : metrics) : M summary :=
  register_best best_metrics ;;
  save_results new_data_path model_performance best_model_name best_metrics.

(** Lines 39-121: everything after the partition. *)
Definition fit_and_save (new_data_path : option pystr)
    (X_train X_test y_train y_test : frame) : M summary :=
  ext (os_makedirs (py "../models") true) ;;
  model_performance <- train_models X_train X_test y_train y_test ;;
  best <- report_best model_performance ;;
  let '(best_model_name, best_metrics) := best in
  register_and_save new_data_path model_performance best_model_name
    best_metrics.

(** Lines 31-121: everything after the dataset is loaded. *)
Definition train_and_save (new_data_path : option pystr) (df : frame)
    : M summary :=
  parts <- split_data df ;;
  let '(X_train, X_test, y_train, y_test) := parts in
  fit_and_save new_data_path X_train X_test y_train y_test.

(** The block under the outer [try]. *)
Definition retrain_body (new_data_path : option pystr) : M summary :=
  df <- load_data new_data_path ;;
  train_and_save new_data_path df.

(** The handler of the outer [try]. *)
Definition report_error (e : exn) : M summary :=
  ext (print (py "❌ Error during retraining: " ++ exn_str e)) ;;
  Ret (ErrorDict (exn_str e)).

(** [retrain_housing_model(new_data_path=None)]. *)
Definition retrain_housing_model (new_data_path : option pystr) : M summary :=
  try_except (retrain_body new_data_path) is_Exception report_error.

(** ** Observations on a run *)

Definition is_read_csv (o : op) : bool :=
  match o with pd_read_csv _ => true | _ => false end.

(** The paths given to [pd.read_csv], in order. *)
Definition csv_reads (t : list (event op resp)) : list pystr :=
  flat_map (fun ev => match ev_op ev with pd_read_csv p => [p] | _ => [] end) t.

(** The path line 24 selects, given what [os.path.exists] answers. *)
Definition selected_path {W} (E : env op resp W) (w : W)
    (new_data_path : option pystr) : pystr :=
  match new_data_path with
  | Some p =>
      if str_truthy p then
        match fst (E (os_path_exists p) w) with
        | Returns true => p
        | _ => canonical_path
        end
      else canonical_path
  | None => canonical_path
  end.

Definition is_register (o : op) : bool :=
  match o with mlflow_register_model _ _ => true | _ => false end.

Definition is_split (o : op) : bool :=
  match o with train_test_split _ _ _ _ => true | _ => false end.

(** A request to [train_test_split] with another test fraction than 0.2 or
    another seed than 42. *)
Definition is_other_split (o : op) : bool :=
  match o with
  | train_test_split _ _ test_size random_state =>
      negb (Qeq_bool test_size (2 # 10) && (random_state =? 42)%Z)
  | _ => false
  end.

(** The answers of [train_test_split] in a trace. *)
Definition split_answer (ev : event op resp)
    : option (outcome (frame * frame * frame * frame)) :=
  match ev with
  | Ev o r =>
      match o as o' return
        outcome (resp o') -> option (outcome (frame * frame * frame * frame))
      with
      | train_test_split _ _ _ _ => fun r => Some r
      | _ => fun _ => None
      end r
  end.

Definition split_answers (t : list (event op resp))
    : list (outcome (frame * frame * frame * frame)) :=
  flat_map (fun ev => match split_answer ev with Some r => [r] | None => [] end) t.

(** The answers of [pd.read_csv] in a trace. *)
Definition read_answer (ev : event op resp) : option (outcome frame) :=
  match ev with
  | Ev o r =>
      match o as o' return outcome (resp o') -> option (outcome frame) with
      | pd_read_csv _ => fun r => Some r
      | _ => fun _ => None
      end r
  end.

Definition read_answers (t : list (event op resp)) : list (outcome frame) :=
  flat_map (fun ev => match read_answer ev with Some r => [r] | None => [] end) t.

(** Two environments in which the libraries compute the same functions:
    what pandas answers for a column selection, and what scikit-learn
    answers for a split with a given seed, depends on the arguments only
    (not on the moment of the call, nor on the run). *)
Definition libraries_agree {W1 W2} (E1 : env op resp W1) (E2 : env op resp W2)
    : Prop :=
  (forall df c w1 w2,
     fst (E1 (df_drop df c) w1) = fst (E2 (df_drop df c) w2)) /\
  (forall df c w1 w2,
     fst (E1 (df_getitem df c) w1) = fst (E2 (df_getitem df c) w2)) /\
  (forall X y test_size seed w1 w2,
     fst (E1 (train_test_split X y test_size seed) w1) =
     fst (E2 (train_test_split X y test_size seed) w2)).

(** The run from the registration on, under the outer [try]. *)
Definition guarded_tail {W} (E : env op resp W)
    (new_data_path : option pystr) (model_performance : pydict metrics)
    (best_model_name : pystr) (best_metrics : metrics) (w : W)
    : result op resp W summary :=
  run E (try_except
           (register_and_save new_data_path model_performance
              best_model_name best_metrics)
           is_Exception report_error) w.

(** A run either never asks for a registration, or it consists of requests
    other than registrations followed by a guarded tail. *)
Definition via_registration {W} (E : env op resp W)
    (new_data_path : option pystr) (R : result op resp W summary) : Prop :=
  Forall (fun ev => is_register (ev_op ev) = false) (res_trace R) \/
  exists T w mp name bm,
    Forall (fun ev => is_register (ev_op ev) = false) T /\
    res_trace R = T ++ res_trace (guarded_tail E new_data_path mp name bm w) /\
    res_out R = res_out (guarded_tail E new_data_path mp name bm w).

(** The registration request of line 100 for the run of [best_metrics]. *)
Definition registration (best_metrics : metrics) : op :=
  mlflow_register_model (py "runs:/" ++ run_id best_metrics ++ py "/model")
    (py "HousingPricePredictor").

(** The requests that follow a registration that raised [e], when each of
    them is answered: the warning, then the summary is written. *)
Definition after_failed_registration (e : exn) (r : retrain_results)
    (f : file) : list op :=
  [ print (py "⚠️  HousingPricePredictor already registered or error: "
           ++ exn_str e);
    datetime_now_isoformat;
    open_w (py "../retrain_results.json");
    json_dump r f 2;
    file_close f;
    print (py "✅ Retraining completed successfully!") ].

(** The error recorded in [m] is what [mean_squared_error] answered for
    some predictions. *)
Definition evaluated {W} (E : env op resp W) (m : metrics) : Prop :=
  exists y_test preds w,
    fst (E (mean_squared_error y_test preds) w) = Returns (mse m).

(** The requests that write the summary file. *)
Definition is_write (o : op) : bool :=
  match o with open_w _ | json_dump _ _ _ => true | _ => false end.

(** The exception an event's request raised, if it did. *)
Definition raised (ev : event op resp) : option exn :=
  match ev_res ev with Raises e => Some e | Returns _ => None end.

Definition answered (ev : event op resp) : Prop :=
  exists v, ev_res ev = Returns v.

(** ** Concrete environments

    [scripted] answers every request with a fixed value, except where
    [fault] says that the request raises.  The predictions of a model carry
    the model's token, and [mse_of] gives the error of each. *)
Record script : Type := Script {
  path_exists : pystr -> bool;
  mse_of : frame -> pyfloat;
  fault : op -> option exn
}.

Definition answer (s : script) (o : op) : resp o :=
  match o return resp o with
  | os_path_exists p => path_exists s p
  | pd_read_csv _ => 1%N
  | df_drop _ _ => 2%N
  | df_getitem _ _ => 3%N
  | df_head _ _ => 4%N
  | model_predict m _ => m
  | train_test_split _ _ _ _ => (10, 11, 12, 13)%N
  | LinearRegression => 100%N
  | DecisionTreeRegressor _ => 101%N
  | datetime_now_strftime _ => py "20250101_120000"
  | datetime_now_isoformat => py "2025-01-01T12:00:00"
  | mlflow_start_run name => py "id-of-" ++ name
  | mlflow_register_model _ _ => py "1"
  | mean_squared_error _ preds => mse_of s preds
  | r2_score _ _ => FFinite (1 # 2)
  | infer_signature _ _ => 5%N
  | open_w _ => 6%N
  | print _ | os_makedirs _ _ | mlflow_end_run _ | model_fit _ _ _
  | mlflow_log_param _ _ | mlflow_log_metric _ _
  | mlflow_sklearn_log_model _ _ _ _ | joblib_dump _ _ | json_dump _ _ _
  | file_close _ => tt
  end.

Definition scripted (s : script) : env op resp unit :=
  fun o w =>
    match fault s o with
    | Some e => (Raises e, w)
    | None => (Returns (answer s o), w)
    end.

(** Nothing fails; the linear model has error [mse_lr], the tree
    [mse_dt]. *)
Definition nominal (mse_lr mse_dt : pyfloat) : script :=
  Script (fun _ => false)
         (fun preds => if (preds =? 100)%N then mse_lr else mse_dt)
         (fun _ => None).

(** Nothing fails, and the only file that exists apart from the canonical
    dataset is [new.csv]. *)
Definition new_csv_exists : script :=
  Script (fun p => str_eqb p (py "new.csv")) (fun _ => FFinite 1)
         (fun _ => None).

(** The dataset cannot be read. *)
Definition unreadable_dataset : script :=
  Script (fun _ => false) (fun _ => FFinite 1)
         (fun o => match o with
                   | pd_read_csv _ =>
                       Some (Exn FileNotFoundError (py "No such file"))
                   | _ => None
                   end).

(** The user interrupts the fit of a model. *)
Definition interrupted_fit : script :=
  Script (fun _ => false) (fun _ => FFinite 1)
         (fun o => match o with
                   | model_fit _ _ _ => Some (Exn KeyboardInterrupt [])
                   | _ => None
                   end).

(** The registry is interrupted while it registers the model. *)
Definition interrupted_registration : script :=
  Script (fun _ => false) (fun _ => FFinite 1)
         (fun o => match o with
                   | mlflow_register_model _ _ => Some (Exn KeyboardInterrupt [])
                   | _ => None
                   end).

(** The registry rejects the registration. *)
Definition rejected_registration : script :=
  Script (fun _ => false) (fun _ => FFinite 1)
         (fun o => match o with
                   | mlflow_register_model _ _ =>
                       Some (Exn OtherException (py "RESOURCE_ALREADY_EXISTS"))
                   | _ => None
                   end).

(** ** Runs and files held by the script *)

(** The run [mlflow.start_run] hands to the [with] statement, and the run
    its [__exit__] ends. *)
Definition run_started (ev : event op resp) : option unit :=
  match ev_op ev with
  | mlflow_start_run _ => if returned ev then Some tt else None
  | _ => None
  end.

Definition run_ended (ev : event op resp) : option unit :=
  match ev_op ev with mlflow_end_run _ => Some tt | _ => None end.

(** The statuses the runs were ended with, in order. *)
Definition end_statuses (t : list (event op resp)) : list pystr :=
  flat_map (fun ev => match ev_op ev with
                      | mlflow_end_run status => [status]
                      | _ => []
                      end) t.

(** The file [open] hands to the [with] statement, and the file its
    [__exit__] closes. *)
Definition file_opened (ev : event op resp) : option file :=
  match ev with
  | Ev o r =>
      match o as o' return outcome (resp o') -> option file with
      | open_w _ => fun r => match r with
                             | Returns f => Some f
                             | Raises _ => None
                             end
      | _ => fun _ => None
      end r
  end.

Definition file_closed (ev : event op resp) : option file :=
  match ev_op ev with file_close f => Some f | _ => None end.

(** ** The use of the partition *)

(** The requests that fit a model or score its predictions. *)
Definition is_fit_or_score (o : op) : bool :=
  match o with
  | model_fit _ _ _ | model_predict _ _ | mean_squared_error _ _
  | r2_score _ _ => true
  | _ => false
  end.

(** A request uses the partition as intended: a model is fitted on the
    training rows and their targets, it predicts for the test rows, and
    the predictions are scored against the test targets. *)
Definition on_partition (X_train X_test y_train y_test : frame) (o : op)
    : Prop :=
  match o with
  | model_fit _ X y => X = X_train /\ y = y_train
  | model_predict _ X => X = X_test
  | mean_squared_error y_true _ | r2_score y_true _ => y_true = y_test
  | _ => True
  end.

(** The requests to [joblib.dump], as pairs of model and path. *)
Definition dumps (t : list (event op resp)) : list (estimator * pystr) :=
  flat_map (fun ev => match ev_op ev with
                      | joblib_dump model path => [(model, path)]
                      | _ => []
                      end) t.

(** ** The shape of a run *)

(** What the outer handler adds to a trace. *)
Definition handled {W} (E : env op resp W) (e : exn) (w : W)
    : list (event op resp) :=
  if is_Exception e then res_trace (run E (report_error e) w) else [].

End Retrain.

(* ===================================================================== *)
(** * generate_sample_data.py *)
(* ===================================================================== *)

Module Generator.

(** A Record: the eight features of one prediction request.  The floats of
    the script are kept as exact rationals. *)
Record sample : Type := Sample {
  total_rooms : Q;
  total_bedrooms : Q;
  population : Q;
  households : Q;
  median_income : Q;
  housing_median_age : Q;
  latitude : Q;
  longitude : Q
}.

(** The list [sample_variations] of lines 16-67. *)
Definition sample_variations : list sample :=
  [ Sample 4500 900 3000 1000 (55 # 10) 26 (3786 # 100) (-12227 # 100);
    Sample 3200 650 2100 750 (42 # 10) 35 (3405 # 100) (-11824 # 100);
    Sample 6800 1200 4500 1500 (81 # 10) 15 (3777 # 100) (-12242 # 100);
    Sample 2800 580 1800 620 (38 # 10) 42 (3271 # 100) (-11716 # 100);
    Sample 5200 1050 3500 1200 (67 # 10) 28 (3739 # 100) (-12208 # 100) ]%Q.

(** Assignments to one key of the dictionary [sample]. *)
Definition set_total_rooms (v : Q) (s : sample) : sample :=
  Sample v (total_bedrooms s) (population s) (households s) (median_income s)
    (housing_median_age s) (latitude s) (longitude s).
Definition set_total_bedrooms (v : Q) (s : sample) : sample :=
  Sample (total_rooms s) v (population s) (households s) (median_income s)
    (housing_median_age s) (latitude s) (longitude s).
Definition set_population (v : Q) (s : sample) : sample :=
  Sample (total_rooms s) (total_bedrooms s) v (households s) (median_income s)
    (housing_median_age s) (latitude s) (longitude s).
Definition set_households (v : Q) (s : sample) : sample :=
  Sample (total_rooms s) (total_bedrooms s) (population s) v (median_income s)
    (housing_median_age s) (latitude s) (longitude s).
Definition set_median_income (v : Q) (s : sample) : sample :=
  Sample (total_rooms s) (total_bedrooms s) (population s) (households s) v
    (housing_median_age s) (latitude s) (longitude s).
Definition set_housing_median_age (v : Q) (s : sample) : sample :=
  Sample (total_rooms s) (total_bedrooms s) (population s) (households s)
    (median_income s) v (latitude s) (longitude s).
Definition set_latitude (v : Q) (s : sample) : sample :=
  Sample (total_rooms s) (total_bedrooms s) (population s) (households s)
    (median_income s) (housing_median_age s) v (longitude s).
Definition set_longitude (v : Q) (s : sample) : sample :=
  Sample (total_rooms s) (total_bedrooms s) (population s) (households s)
    (median_income s) (housing_median_age s) (latitude s) v.

(** An HTTP response: its status and a token for its body. *)
Record response : Type := Response { status_code : Z; body : N }.

(** The external calls of the script. *)
Inductive op : Type :=
| print (msg : pystr)
| random_choice (seq : list sample)
| random_uniform (a b : Q)
| requests_post (url : pystr) (json : sample) (timeout : Z)
| response_json (r : response)
| time_sleep (seconds : Q).

Definition resp (o : op) : Type :=
  match o with
  | print _ | time_sleep _ => unit
  | random_choice _ => sample
  | random_uniform _ _ => Q
  | requests_post _ _ _ => response
  | response_json _ => json
  end.

Definition M := prog op resp.

(** A call to the environment. *)
Definition ext (o : op) : M (resp o) := call o.

#[local] Open Scope prog_scope.

Definition base_url : pystr := py "http://127.0.0.1:8000".

(** Lines 77-88: a base sample is picked and copied, and the eight fields of
    the copy are varied in place. *)
Definition draw_sample : M sample :=
  base_sample <- ext (random_choice sample_variations) ;;
  let sample := base_sample in
  u <- ext (random_uniform (8 # 10) (12 # 10)) ;;
  let sample := set_total_rooms (total_rooms sample * u)%Q sample in
  u <- ext (random_uniform (8 # 10) (12 # 10)) ;;
  let sample := set_total_bedrooms (total_bedrooms sample * u)%Q sample in
  u <- ext (random_uniform (8 # 10) (12 # 10)) ;;
  let sample := set_population (population sample * u)%Q sample in
  u <- ext (random_uniform (8 # 10) (12 # 10)) ;;
  let sample := set_households (households sample * u)%Q sample in
  u <- ext (random_uniform (9 # 10) (11 # 10)) ;;
  let sample := set_median_income (median_income sample * u)%Q sample in
  u <- ext (random_uniform (9 # 10) (11 # 10)) ;;
  let sample :=
    set_housing_median_age (housing_median_age sample * u)%Q sample in
  u <- ext (random_uniform (- (1 # 10)) (1 # 10)) ;;
  let sample := set_latitude (latitude sample + u)%Q sample in
  u <- ext (random_uniform (- (1 # 10)) (1 # 10)) ;;
  let sample := set_longitude (longitude sample + u)%Q sample in
  Ret sample.

(** Lines 91-100: the request and the count of its result.  [counts] holds
    [successful_requests] and [failed_requests]. *)
Definition send_sample (i : nat) (counts : Z * Z) (sample : sample)
    : M (Z * Z) :=
  let '(successful_requests, failed_requests) := counts in
  response <- ext (requests_post (base_url ++ py "/predict") sample 10) ;;
  if (status_code response =? 200)%Z then
    result <- ext (response_json response) ;;
    predicted_price <- lift (json_get result (py "predicted_price") (py "N/A")) ;;
    ext (print (py "✅ Request " ++ str_of_int (Z.of_nat i + 1) ++
                py ": Predicted price = " ++ predicted_price)) ;;
    Ret (successful_requests + 1, failed_requests)%Z
  else
    ext (print (py "❌ Request " ++ str_of_int (Z.of_nat i + 1) ++
                py ": HTTP " ++ str_of_int (status_code response))) ;;
    Ret (successful_requests, failed_requests + 1)%Z.

(** Lines 105-107: the handler of the loop body. *)
Definition on_exception (i : nat) (counts : Z * Z) (e : exn) : M (Z * Z) :=
  ext (print (py "❌ Request " ++ str_of_int (Z.of_nat i + 1) ++ py ": " ++
              exn_str e)) ;;
  Ret (fst counts, snd counts + 1)%Z.

(** One turn of the loop.  The counters are local variables: when
    [time.sleep] raises, the handler adds to the counters as the request
    left them. *)
Definition iteration (i : nat) (counts : Z * Z) : M (Z * Z) :=
  handle_with
    (sample <- draw_sample ;; send_sample i counts sample)
    (fun counts' =>
       try_except (ext (time_sleep (5 # 10)) ;; Ret counts')
         is_Exception (on_exception i counts'))
    (fun e => if is_Exception e then on_exception i counts e else Throw e).

(** [generate_sample_requests()]. *)
Definition generate_sample_requests : M (Z * Z) :=
  ext (print (py "🚀 Generating sample prediction requests...")) ;;
  counts <- for_fold (seq 0 20) (0, 0)%Z iteration ;;
  let '(successful_requests, failed_requests) := counts in
  ext (print (nl ++ py "📊 Summary:")) ;;
  ext (print (py "- Successful requests: " ++ str_of_int successful_requests)) ;;
  ext (print (py "- Failed requests: " ++ str_of_int failed_requests)) ;;
  ext (print (py "- Total requests: " ++
              str_of_int (successful_requests + failed_requests))) ;;
  Ret (successful_requests, failed_requests).

(** ** The jitter bounds *)

(** [s] lies within the jitter bounds around [base]. *)
Definition within_bounds (base s : sample) : Prop :=
  ((8 # 10) * total_rooms base <= total_rooms s <= (12 # 10) * total_rooms base /\
   (8 # 10) * total_bedrooms base <= total_bedrooms s
     <= (12 # 10) * total_bedrooms base /\
   (8 # 10) * population base <= population s <= (12 # 10) * population base /\
   (8 # 10) * households base <= households s <= (12 # 10) * households base /\
   (9 # 10) * median_income base <= median_income s
     <= (11 # 10) * median_income base /\
   (9 # 10) * housing_median_age base <= housing_median_age s
     <= (11 # 10) * housing_median_age base /\
   latitude base - (1 # 10) <= latitude s <= latitude base + (1 # 10) /\
   longitude base - (1 # 10) <= longitude s <= longitude base + (1 # 10))%Q.

(** The requests of which the sample lies within the bounds around one of
    the base samples; every request that sends no sample counts. *)
Definition sends_jittered (o : op) : Prop :=
  match o with
  | requests_post _ s _ =>
      exists base, In base sample_variations /\ within_bounds base s
  | _ => True
  end.

(** What the module [random] promises: [random.choice(seq)] returns an
    element of [seq], and [random.uniform(a, b)] with [a <= b] a number
    between [a] and [b]. *)
Definition random_contract {W} (E : env op resp W) : Prop :=
  (forall seq w x, fst (E (random_choice seq) w) = Returns x -> In x seq) /\
  (forall a b w x,
     (a <= b)%Q ->
     fst (E (random_uniform a b) w) = Returns x -> (a <= x <= b)%Q).

(** ** A concrete environment *)

(** The first element is chosen, every variation is the lower end of its
    range, and the service answers 200 with a price. *)
Definition answer (o : op) : outcome (resp o) :=
  match o return outcome (resp o) with
  | print _ | time_sleep _ => Returns tt
  | random_choice seq =>
      match seq with
      | [] => Raises (Exn OtherException (py "Cannot choose from an empty sequence"))
      | x :: _ => Returns x
      end
  | random_uniform a _ => Returns a
  | requests_post _ _ _ => Returns (Response 200 0)
  | response_json _ =>
      Returns (Json (py "{'predicted_price': 2.5}")
                    (Some [(py "predicted_price", py "2.5")]) (py "dict"))
  end.

Definition scripted : env op resp unit := fun o w => (answer o, w).

(** ** Observations on a run *)

(** The prediction requests and the pauses of a trace. *)
Definition is_post (ev : event op resp) : bool :=
  match ev_op ev with requests_post _ _ _ => true | _ => false end.

Definition is_sleep (ev : event op resp) : bool :=
  match ev_op ev with time_sleep _ => true | _ => false end.

(** The arguments the script gives to its collaborators: a base sample is
    chosen among [sample_variations], a prediction is asked of [/predict]
    on the local service with a timeout of ten seconds, and a pause lasts
    half a second. *)
Definition as_written (o : op) : Prop :=
  match o with
  | random_choice seq => seq = sample_variations
  | requests_post url _ timeout =>
      url = py "http://127.0.0.1:8000/predict" /\ timeout = 10%Z
  | time_sleep seconds => seconds = (5 # 10)%Q
  | _ => True
  end.

(** An environment in which the console accepts every line and nothing
    raises an exception outside of [Exception]. *)
Definition polite {W} (E : env op resp W) : Prop :=
  (forall msg w, fst (E (print msg) w) = Returns tt) /\
  (forall o w e, fst (E o w) = Raises e -> is_Exception e = true).

(** [time.sleep] raises no instance of [Exception] (it may be
    interrupted). *)
Definition sleep_is_sound {W} (E : env op resp W) : Prop :=
  forall seconds w e,
    fst (E (time_sleep seconds) w) = Raises e -> is_Exception e = false.

(** The service answers 200 with a price and every pause fails with an
    [OSError]. *)
Definition restless : env op resp unit :=
  fun o w =>
    (match o return outcome (resp o) with
     | time_sleep _ => Raises (Exn OtherException (py "sleep failed"))
     | o' => answer o'
     end, w).

End Generator.

(* ===================================================================== *)
(** * test_api.py *)
(* ===================================================================== *)

Module SmokeTest.

(** An HTTP response: [status_code] and [text]. *)
Record response : Type := Response { status_code : Z; text : pystr }.

(** The external calls of the two endpoint checks. *)
Inductive op : Type :=
| print (msg : pystr)
| requests_get (url : pystr) (timeout : Z)
| requests_post (url : pystr) (json : Generator.sample) (timeout : Z)
| response_json (r : response).

Definition resp (o : op) : Type :=
  match o with
  | print _ => unit
  | requests_get _ _ | requests_post _ _ _ => response
  | response_json _ => json
  end.

Definition M := prog op resp.

(** A call to the environment. *)
Definition ext (o : op) : M (resp o) := call o.

#[local] Open Scope prog_scope.

Definition base_url : pystr := py "http://127.0.0.1:8000".

(** The list [endpoints_to_test]: endpoint, method, description. *)
Definition endpoints_to_test : list (pystr * pystr * pystr) :=
  [ (py "/", py "GET", py "Root endpoint");
    (py "/health", py "GET", py "Health check");
    (py "/app-metrics", py "GET", py "Application metrics");
    (py "/metrics", py "GET", py "Prometheus metrics") ].

(** The lines the checks print about an endpoint. *)
Definition ok_line (label : pystr) : pystr :=
  py "✅ " ++ label ++ py ": OK".
Definition http_line (label : pystr) (status : Z) : pystr :=
  py "❌ " ++ label ++ py ": HTTP " ++ str_of_int status.
Definition down_line (label : pystr) : pystr :=
  py "⚠️  " ++ label ++ py ": Server not running".
Definition error_line (label : pystr) (e : exn) : pystr :=
  py "❌ " ++ label ++ py ": " ++ exn_str e.

(** The label of an endpoint in its lines: [description (endpoint)]. *)
Definition label_of (endpoint description : pystr) : pystr :=
  description ++ py " (" ++ endpoint ++ py ")".

(** The two [except] clauses of a check: a connection error of requests is
    a warning, any other instance of [Exception] an error line, and what
    is not an instance of [Exception] propagates. *)
Definition on_exception (label : pystr) (e : exn) : M unit :=
  if is_ConnectionError e then ext (print (down_line label))
  else if is_Exception e then ext (print (error_line label e))
  else Throw e.

(** Lines 42-59: the body of the loop of [test_api_endpoints]. *)
Definition check_endpoint (item : pystr * pystr * pystr) : M unit :=
  let '(endpoint, method, description) := item in
  handle_with
    (let url := base_url ++ endpoint in
     response <- ext (requests_get url 5) ;;
     if (status_code response =? 200)%Z then
       ext (print (ok_line (label_of endpoint description))) ;;
       if str_eqb endpoint (py "/app-metrics") then
         document <- ext (response_json response) ;;
         ext (print (py "   Response: " ++ json_text document))
       else if str_eqb endpoint (py "/metrics") then
         let lines := firstn 5 (split_on 10%N (text response)) in
         ext (print (py "   Prometheus metrics preview: " ++ str_of_list lines))
       else Ret tt
     else
       ext (print (http_line (label_of endpoint description)
                     (status_code response))))
    Ret
    (on_exception (label_of endpoint description)).

(** [test_api_endpoints()]. *)
Definition test_api_endpoints : M unit :=
  ext (print (nl ++ py "🔍 Testing API endpoints...")) ;;
  for_each endpoints_to_test check_endpoint.

(** The dictionary [sample_data]. *)
Definition sample_data : Generator.sample :=
  Generator.Sample 4500 900 3000 1000 (55 # 10) 26 (3786 # 100)
    (-12227 # 100).

(** [test_prediction_endpoint()]. *)
Definition test_prediction_endpoint : M unit :=
  handle_with
    (let url := base_url ++ py "/predict" in
     response <- ext (requests_post url sample_data 10) ;;
     if (status_code response =? 200)%Z then
       result <- ext (response_json response) ;;
       ext (print (ok_line (py "Prediction endpoint"))) ;;
       price <- lift (json_get result (py "predicted_price") (py "N/A")) ;;
       ext (print (py "   Predicted price: " ++ price))
     else
       ext (print (http_line (py "Prediction endpoint") (status_code response))) ;;
       ext (print (py "   Response: " ++ text response)))
    Ret
    (on_exception (py "Prediction endpoint")).

(** ** The classification of the specification *)

(** What a check makes of the answer to its request. *)
Inductive verdict : Type :=
| Success
| Failure (status : Z)
| Unreachable
| Error (e : exn).

(** Status 200 is a success and any other status a failure; a refused
    connection is a warning; any other exception is an error. *)
Definition classify (answer : outcome response) : verdict :=
  match answer with
  | Returns r =>
      if (status_code r =? 200)%Z then Success else Failure (status_code r)
  | Raises e => if is_ConnectionError e then Unreachable else Error e
  end.

(** The line a verdict is printed as. *)
Definition verdict_line (label : pystr) (v : verdict) : pystr :=
  match v with
  | Success => ok_line label
  | Failure status => http_line label status
  | Unreachable => down_line label
  | Error e => error_line label e
  end.

(** The messages printed in a run, in order. *)
Definition printed (t : list (event op resp)) : list pystr :=
  flat_map (fun ev => match ev_op ev with print msg => [msg] | _ => [] end) t.

(** The first message printed in a run. *)
Definition first_line (t : list (event op resp)) : option pystr :=
  hd_error (printed t).

(** An environment in which the console accepts every line and nothing
    raises an exception outside of [Exception]. *)
Definition polite {W} (E : env op resp W) : Prop :=
  (forall msg w, fst (E (print msg) w) = Returns tt) /\
  (forall o w e, fst (E o w) = Raises e -> is_Exception e = true).

(** ** Concrete environments *)

(** Every GET is answered by [get], the POST by [post], and the decoding of
    a body by [decode]. *)
Definition scripted (get : pystr -> outcome response)
    (post : outcome response) (decode : response -> outcome json)
    : env op resp unit :=
  fun o w =>
    (match o return outcome (resp o) with
     | print _ => Returns tt
     | requests_get url _ => get url
     | requests_post _ _ _ => post
     | response_json r => decode r
     end, w).

(** The service answers 200 to the prediction request, with a body that is
    not JSON. *)
Definition not_json : env op resp unit :=
  scripted (fun _ => Returns (Response 200 (py "ok")))
    (Returns (Response 200 (py "<html>ok</html>")))
    (fun _ => Raises (Exn RequestsOther
                        (py "Expecting value: line 1 column 1 (char 0)"))).

(** The mocked service of the specification: 200 for every GET, 500 for
    the prediction. *)
Definition health_ok_predict_500 : env op resp unit :=
  scripted (fun _ => Returns (Response 200 (py "{}")))
    (Returns (Response 500 (py "Internal Server Error")))
    (fun _ => Returns (Json (py "{}") (Some []) (py "dict"))).

(** The service answers 200 to every request and predicts a price. *)
Definition all_ok : env op resp unit :=
  scripted (fun _ => Returns (Response 200 (py "{}")))
    (Returns (Response 200 (py "{}")))
    (fun _ => Returns (Json (py "{'predicted_price': 2.5}")
                         (Some [(py "predicted_price", py "2.5")]) (py "dict"))).

(** No server is listening. *)
Definition server_down : env op resp unit :=
  scripted (fun _ => Raises (Exn RequestsConnectionError (py "Connection refused")))
    (Raises (Exn RequestsConnectionError (py "Connection refused")))
    (fun _ => Returns (Json (py "{}") (Some []) (py "dict"))).

End SmokeTest.

(* ===================================================================== *)
(** * troubleshoot_monitoring.py *)
(* ===================================================================== *)

Module Troubleshooter.

(** An entry of [self.services]. *)
Record service_info : Type := ServiceInfo { url : pystr; port : Z }.

(** The dictionary [self.services] of lines 18-25. *)
Definition services : pydict service_info :=
  [ (py "grafana", ServiceInfo (py "http://localhost:3000") 3000);
    (py "prometheus", ServiceInfo (py "http://localhost:9090") 9090);
    (py "housing-api", ServiceInfo (py "http://localhost:8000") 8000);
    (py "iris-api", ServiceInfo (py "http://localhost:8001") 8001);
    (py "retraining", ServiceInfo (py "http://localhost:8002") 8002);
    (py "mlflow", ServiceInfo (py "http://localhost:5000") 5000) ].

(** What [subprocess.run] returns. *)
Record completed : Type :=
  Completed { returncode : Z; stdout : pystr; stderr : pystr }.

(** An HTTP response: [status_code] and [elapsed.total_seconds()]. *)
Record response : Type := Response { status_code : Z; elapsed : pyfloat }.

(** An entry of the mapping [check_container_status] returns. *)
Record container_info : Type :=
  ContainerInfo { status : pystr; running : bool }.

(** An entry of the mapping [check_service_health] returns: the service
    answered, or the request raised. *)
Inductive health : Type :=
| Answered (healthy : bool) (status_code : Z) (response_time : pyfloat)
| Unanswered (error : pystr).

(** [health.get('healthy', False)]. *)
Definition get_healthy (h : health) : bool :=
  match h with Answered healthy _ _ => healthy | Unanswered _ => false end.

(** [health.get('response_time', 0)], for an entry that answered. *)
Definition get_response_time (h : health) : pyfloat :=
  match h with Answered _ _ rt => rt | Unanswered _ => FFinite 0 end.

(** [health.get('error', 'Unknown error')]. *)
Definition get_error (h : health) : pystr :=
  match h with Answered _ _ _ => py "Unknown error" | Unanswered e => e end.

(** The external calls of the script. *)
Inductive op : Type :=
| print (msg : pystr)
| subprocess_run (args : list pystr) (timeout : Z)
| os_path_exists (path : pystr)
| socket_socket
| sock_settimeout (sock : N) (seconds : Z)
| sock_connect_ex (sock : N) (host : pystr) (port : Z)
| sock_close (sock : N)
| requests_get (url : pystr) (timeout : Z).

Definition resp (o : op) : Type :=
  match o with
  | print _ | sock_settimeout _ _ | sock_close _ => unit
  | subprocess_run _ _ => completed
  | os_path_exists _ => bool
  | socket_socket => N
  | sock_connect_ex _ _ _ => Z
  | requests_get _ _ => response
  end.

Definition M := prog op resp.

(** A call to the environment. *)
Definition ext (o : op) : M (resp o) := call o.

#[local] Open Scope prog_scope.

Definition compose_file : pystr := py "docker-compose.monitoring.yml".

(** [check_docker_status()]. *)
Definition check_docker_status : M (bool * pystr) :=
  try_except
    (result <- ext (subprocess_run [py "docker"; py "info"] 10) ;;
     if (returncode result =? 0)%Z then Ret (true, py "Docker is running")
     else Ret (false, py "Docker error: " ++ stderr result))
    is_TimeoutExpired_or_FileNotFound
    (fun _ => Ret (false, py "Docker is not installed or not running")).

(** [check_compose_file()]. *)
Definition check_compose_file : M (bool * pystr) :=
  found <- ext (os_path_exists compose_file) ;;
  if negb found then Ret (false, py "docker-compose.monitoring.yml not found")
  else
    try_except
      (result <- ext (subprocess_run
                        [py "docker-compose"; py "-f"; compose_file; py "config"]
                        30) ;;
       if (returncode result =? 0)%Z
       then Ret (true, py "Docker compose file is valid")
       else Ret (false, py "Docker compose file error: " ++ stderr result))
      is_TimeoutExpired_or_FileNotFound
      (fun _ => Ret (false, py "docker-compose not found or timeout")).

(** Lines 85-93: one line of the listing. *)
Definition record_line (container_status : pydict container_info)
    (line : pystr) : pydict container_info :=
  if str_truthy (strip line) then
    let parts := split_ws line in
    if (4 <=? List.length parts)%nat then
      let name := hd [] parts in
      let state := last parts [] in
      dict_set container_status name
        (ContainerInfo state (str_in (py "Up") state))
    else container_status
  else container_status.

(** Lines 81-95: the listing without its two header lines, line by line. *)
Definition parse_container_status (output : pystr) : pydict container_info :=
  let lines := skipn 2 (split_on 10%N (strip output)) in
  fold_left record_line lines [].

(** [check_container_status()]. *)
Definition check_container_status : M (pydict container_info) :=
  try_except
    (result <- ext (subprocess_run
                      [py "docker-compose"; py "-f"; compose_file; py "ps"] 30) ;;
     if negb (returncode result =? 0)%Z then Ret []
     else Ret (parse_container_status (stdout result)))
    is_TimeoutExpired_or_FileNotFound
    (fun _ => Ret []).

(** [check_port_availability()]. *)
Definition check_port_availability : M (pydict bool) :=
  for_fold services [] (fun item port_status =>
    let '(service, info) := item in
    sock <- ext socket_socket ;;
    ext (sock_settimeout sock 1) ;;
    result <- ext (sock_connect_ex sock (py "localhost") (port info)) ;;
    let port_status := dict_set port_status service (result =? 0)%Z in
    ext (sock_close sock) ;;
    Ret port_status).

(** The health endpoint of a service. *)
Definition health_url (service : pystr) (info : service_info) : pystr :=
  if str_eqb service (py "grafana") then url info ++ py "/api/health"
  else if str_eqb service (py "prometheus") then url info ++ py "/-/healthy"
  else url info ++ py "/health".

(** [check_service_health()]. *)
Definition check_service_health : M (pydict health) :=
  for_fold services [] (fun item health_status =>
    let '(service, info) := item in
    try_except
      (response <- ext (requests_get (health_url service info) 5) ;;
       Ret (dict_set health_status service
              (Answered (status_code response =? 200)%Z
                 (status_code response) (elapsed response))))
      is_RequestException
      (fun e => Ret (dict_set health_status service (Unanswered (exn_str e))))).

(** [check_metrics_availability()].  The bare [except] clauses catch every
    exception. *)
Definition check_metrics_availability : M (pydict bool) :=
  let metrics_status : pydict bool := [] in
  metrics_status <-
    try_except
      (response <- ext (requests_get
                          (py "http://localhost:9090/api/v1/query?query=up") 10) ;;
       Ret (dict_set metrics_status (py "prometheus")
              (status_code response =? 200)%Z))
      (fun _ => true)
      (fun _ => Ret (dict_set metrics_status (py "prometheus") false)) ;;
  for_fold [py "housing-api"; py "iris-api"] metrics_status
    (fun api metrics_status =>
       try_except
         (info <- lift (dict_getitem services api) ;;
          let url := py "http://localhost:" ++ str_of_int (port info) ++
                     py "/mlops-metrics" in
          response <- ext (requests_get url 10) ;;
          Ret (dict_set metrics_status api (status_code response =? 200)%Z))
         (fun _ => true)
         (fun _ => Ret (dict_set metrics_status api false))).

(** ** The issues and the hints *)

(** The issue strings of lines 229, 243 and 255. *)
Definition container_issue (name : pystr) : pystr :=
  py "Container " ++ name ++ py " not running".
Definition port_issue (port : Z) : pystr :=
  py "Port " ++ str_of_int port ++ py " not accessible".
Definition health_issue (service : pystr) : pystr :=
  py "Service " ++ service ++ py " unhealthy".

(** [suggest_fixes(issues)]: each test looks for a text in [str(issues)]. *)
Definition suggest_fixes (issues : list pystr) : list pystr :=
  let fixes : list pystr := [] in
  let fixes :=
    if str_in (py "Docker is not running") (str_of_list issues) then
      fixes ++ [ py "🔧 Start Docker Desktop or Docker daemon";
                 py "   Windows: Start Docker Desktop application";
                 py "   Linux: sudo systemctl start docker" ]
    else fixes in
  let fixes :=
    if str_in (py "docker-compose.monitoring.yml not found") (str_of_list issues)
    then
      fixes ++ [ py "🔧 Make sure you're in the project root directory";
                 py "   cd /path/to/mlops-housing-pipeline" ]
    else fixes in
  let fixes :=
    if str_in (py "containers not running") (str_of_list issues) then
      fixes ++ [ py "🔧 Start the services:";
                 py "   docker-compose -f docker-compose.monitoring.yml up -d" ]
    else fixes in
  let fixes :=
    if str_in (py "port conflicts") (str_of_list issues) then
      fixes ++ [ py "🔧 Stop conflicting services or change ports";
                 py "   Check what's using the ports: netstat -an | findstr :3000" ]
    else fixes in
  let fixes :=
    if str_in (py "services not healthy") (str_of_list issues) then
      fixes ++ [ py "🔧 Wait a few minutes for services to start";
                 py "🔧 Check logs: docker-compose -f docker-compose.monitoring.yml logs";
                 py "🔧 Restart services: docker-compose -f docker-compose.monitoring.yml restart" ]
    else fixes in
  let fixes :=
    if str_in (py "no metrics") (str_of_list issues) then
      fixes ++ [ py "🔧 Generate some data: python test_api_samples.py";
                 py "🔧 Check Prometheus targets: http://localhost:9090/targets" ]
    else fixes in
  fixes.

(** ** [run_diagnostics], phase by phase *)

(** Lines 204-218: a check that returns a flag and a message. *)
Definition report_check (check : M (bool * pystr)) (issues : list pystr)
    : M (list pystr) :=
  result <- check ;;
  let '(ok, msg) := result in
  if ok then ext (print (py "✅ " ++ msg)) ;; Ret issues
  else ext (print (py "❌ " ++ msg)) ;; Ret (issues ++ [msg]).

(** Lines 220-232. *)
Definition container_phase (issues : list pystr) : M (list pystr) :=
  ext (print (nl ++ py "📦 Container Status:")) ;;
  container_status <- check_container_status ;;
  match container_status with
  | _ :: _ =>
      for_fold container_status issues (fun item issues =>
        let '(name, status) := item in
        if running status then
          ext (print (py "✅ " ++ name ++ py ": " ++ Troubleshooter.status status)) ;;
          Ret issues
        else
          ext (print (py "❌ " ++ name ++ py ": " ++ Troubleshooter.status status)) ;;
          Ret (issues ++ [container_issue name]))
  | [] =>
      ext (print (py "❌ Could not get container status")) ;;
      Ret (issues ++ [py "containers not running"])
  end.

(** Lines 234-243. *)
Definition port_phase (issues : list pystr) : M (list pystr) :=
  ext (print (nl ++ py "🔌 Port Availability:")) ;;
  port_status <- check_port_availability ;;
  for_fold port_status issues (fun item issues =>
    let '(service, available) := item in
    info <- lift (dict_getitem services service) ;;
    let port := port info in
    if available then
      ext (print (py "✅ " ++ service ++ py ": Port " ++ str_of_int port ++
                  py " is accessible")) ;;
      Ret issues
    else
      ext (print (py "❌ " ++ service ++ py ": Port " ++ str_of_int port ++
                  py " is not accessible")) ;;
      Ret (issues ++ [port_issue port])).

(** Lines 245-255. *)
Definition health_phase (issues : list pystr) : M (list pystr) :=
  ext (print (nl ++ py "🏥 Service Health:")) ;;
  health_status <- check_service_health ;;
  for_fold health_status issues (fun item issues =>
    let '(service, health) := item in
    if get_healthy health then
      let rt := get_response_time health in
      ext (print (py "✅ " ++ service ++ py ": Healthy (response: " ++
                  format_2f rt ++ py "s)")) ;;
      Ret issues
    else
      let error := get_error health in
      ext (print (py "❌ " ++ service ++ py ": Unhealthy - " ++ error)) ;;
      Ret (issues ++ [health_issue service])).

(** Lines 257-265. *)
Definition metrics_phase (issues : list pystr) : M (list pystr) :=
  ext (print (nl ++ py "📊 Metrics Availability:")) ;;
  metrics_status <- check_metrics_availability ;;
  for_fold metrics_status issues (fun item issues =>
    let '(service, available) := item in
    if available then
      ext (print (py "✅ " ++ service ++ py ": Metrics available")) ;;
      Ret issues
    else
      ext (print (py "❌ " ++ service ++ py ": Metrics not available")) ;;
      Ret (issues ++ [py "no metrics"])).

(** Lines 202-265: the issues of one pass over the checks. *)
Definition collect_issues : M (list pystr) :=
  let issues : list pystr := [] in
  issues <- report_check check_docker_status issues ;;
  issues <- report_check check_compose_file issues ;;
  issues <- container_phase issues ;;
  issues <- port_phase issues ;;
  issues <- health_phase issues ;;
  metrics_phase issues.

(** [run_diagnostics()]. *)
Definition run_diagnostics : M bool :=
  ext (print (nl ++ py "🔍 Running diagnostics..." ++ nl)) ;;
  issues <- collect_issues ;;
  match issues with
  | _ :: _ =>
      ext (print (nl ++ py "🔧 Suggested Fixes:")) ;;
      let fixes := suggest_fixes issues in
      for_each fixes (fun hint => ext (print hint))
  | [] =>
      ext (print (nl ++ py "🎉 All checks passed! Your monitoring stack looks healthy."))
  end ;;
  Ret (match issues with [] => true | _ :: _ => false end).

(** ** The listing of containers, in the words of the specification *)

(** A line counts when it is not blank and has at least four fields. *)
Definition qualifies (line : pystr) : bool :=
  str_truthy (strip line) && (4 <=? List.length (split_ws line))%nat.

(** Its first field is the name of the container, its last field the
    state, and the container runs when the state contains [Up]. *)
Definition name_of (line : pystr) : pystr := hd [] (split_ws line).
Definition state_of (line : pystr) : pystr := last (split_ws line) [].
Definition entry_of (line : pystr) : container_info :=
  ContainerInfo (state_of line) (str_in (py "Up") (state_of line)).

(** The line that decides the entry of [name] is the last one that
    qualifies and bears the name. *)
Definition decides (name : pystr) (line : pystr) : bool :=
  qualifies line && str_eqb (name_of line) name.

(** The lines after the two header lines. *)
Definition listed_lines (output : pystr) : list pystr :=
  skipn 2 (split_on 10%N (strip output)).

(** The parsing as the specification words it: every line that is not blank
    yields an entry. *)
Definition spec_record_line (container_status : pydict container_info)
    (line : pystr) : pydict container_info :=
  if str_truthy (strip line)
  then dict_set container_status (name_of line) (entry_of line)
  else container_status.

Definition spec_parse_container_status (output : pystr)
    : pydict container_info :=
  fold_left spec_record_line (listed_lines output) [].

(** ** The issues of the port and health checks *)

(** The issue strings the port check and the health check can add, for the
    services of the registry. *)
Definition port_issues_all : list pystr :=
  map (fun item => port_issue (port (snd item))) services.
Definition health_issues_all : list pystr :=
  map (fun item => health_issue (fst item)) services.

(** [s] does not contain the character [a] followed by [b]. *)
Fixpoint no_bigram (a b : char) (s : pystr) : bool :=
  match s with
  | x :: ((y :: _) as t) => negb (char_eqb x a && char_eqb y b) && no_bigram a b t
  | _ => true
  end.

(** [s] does not start with [b]. *)
Definition starts_clear (b : char) (s : pystr) : bool :=
  match s with y :: _ => negb (char_eqb y b) | [] => true end.

(** [s] neither contains [a] followed by [b] nor starts with [b]. *)
Definition clean (a b : char) (s : pystr) : bool :=
  no_bigram a b s && starts_clear b s.

(** ** Concrete environments *)

(** Every command succeeds, [docker-compose ps] prints [listing], every
    port is open and every service answers 200. *)
Definition scripted (listing : pystr) : env op resp unit :=
  fun o w =>
    (match o return outcome (resp o) with
     | print _ | sock_settimeout _ _ | sock_close _ => Returns tt
     | subprocess_run _ _ => Returns (Completed 0 listing [])
     | os_path_exists _ => Returns true
     | socket_socket => Returns 3%N
     | sock_connect_ex _ _ _ => Returns 0%Z
     | requests_get _ _ => Returns (Response 200 (FFinite (1 # 100)))
     end, w).

(** A listing of the older docker-compose: a container without published
    ports has three fields. *)
Definition three_field_listing : pystr :=
  py "Name   Command   State   Ports" ++ nl ++
  py "------------------------------" ++ nl ++
  py "web   nginx   Up".

(** A listing in which every line has four fields. *)
Definition four_field_listing : pystr :=
  py "NAME   IMAGE   SERVICE   STATUS" ++ nl ++
  py "------------------------------" ++ nl ++
  py "web   nginx   web   Up" ++ nl ++
  py "db   postgres   db   Exit".

(** Nothing listens and no service answers; the commands succeed. *)
Definition ports_closed : env op resp unit :=
  fun o w =>
    (match o return outcome (resp o) with
     | print _ | sock_settimeout _ _ | sock_close _ => Returns tt
     | subprocess_run _ _ => Returns (Completed 0 four_field_listing [])
     | os_path_exists _ => Returns true
     | socket_socket => Returns 3%N
     | sock_connect_ex _ _ _ => Returns 111%Z
     | requests_get _ _ =>
         Raises (Exn RequestsConnectionError (py "Connection refused"))
     end, w).

(** A listing in which every container is up. *)
Definition all_up_listing : pystr :=
  py "NAME   IMAGE   SERVICE   STATUS" ++ nl ++
  py "------------------------------" ++ nl ++
  py "grafana   grafana/grafana   grafana   Up" ++ nl ++
  py "prometheus   prom/prometheus   prometheus   Up".

(** Docker, the compose file, the containers and the metrics endpoints are
    fine; no port accepts a connection and no health endpoint answers. *)
Definition only_ports_and_health_fail : env op resp unit :=
  fun o w =>
    (match o return outcome (resp o) with
     | print _ | sock_settimeout _ _ | sock_close _ => Returns tt
     | subprocess_run _ _ => Returns (Completed 0 all_up_listing [])
     | os_path_exists _ => Returns true
     | socket_socket => Returns 3%N
     | sock_connect_ex _ _ _ => Returns 111%Z
     | requests_get url _ =>
         if str_in (py "/mlops-metrics") url || str_in (py "query=up") url
         then Returns (Response 200 (FFinite (1 # 100)))
         else Raises (Exn RequestsConnectionError (py "Connection refused"))
     end, w).

(** ** What the checks make of the answers *)

(** The answer to a request for a metrics endpoint counts when it is a
    response with status 200. *)
Definition answered_200 (answer : outcome response) : bool :=
  match answer with
  | Returns r => (status_code r =? 200)%Z
  | Raises _ => false
  end.

(** The entry [check_service_health] records for an answer. *)
Definition health_of (answer : outcome response) : health :=
  match answer with
  | Returns r =>
      Answered (status_code r =? 200)%Z (status_code r) (elapsed r)
  | Raises e => Unanswered (exn_str e)
  end.

(** The health endpoints, in the order of the registry. *)
Definition health_urls : list pystr :=
  [ py "http://localhost:3000/api/health";
    py "http://localhost:9090/-/healthy";
    py "http://localhost:8000/health";
    py "http://localhost:8001/health";
    py "http://localhost:8002/health";
    py "http://localhost:5000/health" ].

(** The requests of the health check, given their answers. *)
Definition health_requests (answers : list (outcome response))
    : list (event op resp) :=
  map (fun item => Ev (requests_get (fst item) 5) (snd item))
      (combine health_urls answers).

(** The metrics endpoints, in the order they are asked. *)
Definition metrics_urls : list pystr :=
  [ py "http://localhost:9090/api/v1/query?query=up";
    py "http://localhost:8000/mlops-metrics";
    py "http://localhost:8001/mlops-metrics" ].

(** The requests to [requests.get] with their answers, in order. *)
Definition get_answer (ev : event op resp)
    : option (pystr * Z * outcome response) :=
  match ev with
  | Ev o r =>
      match o as o' return
        outcome (resp o') -> option (pystr * Z * outcome response)
      with
      | requests_get url timeout => fun r => Some (url, timeout, r)
      | _ => fun _ => None
      end r
  end.

Definition gets (t : list (event op resp))
    : list (pystr * Z * outcome response) :=
  flat_map (fun ev => match get_answer ev with Some g => [g] | None => [] end) t.

(** ** Sockets *)

(** The socket [socket.socket] hands to the port check, and the socket
    the check closes. *)
Definition sock_opened (ev : event op resp) : option N :=
  match ev with
  | Ev o r =>
      match o as o' return outcome (resp o') -> option N with
      | socket_socket => fun r => match r with
                                  | Returns s => Some s
                                  | Raises _ => None
                                  end
      | _ => fun _ => None
      end r
  end.

Definition sock_closed (ev : event op resp) : option N :=
  match ev_op ev with sock_close s => Some s | _ => None end.

(** The ports of the registry, in its order. *)
Definition service_ports : list Z := map (fun item => port (snd item)) services.

(** The requests of a port check in which every request is answered: for
    each port, with the socket created for it and the result of the
    connection attempt, a socket is created, its timeout is set to one
    second, the connection to the port on [localhost] is tried, and the
    socket is closed. *)
Definition port_requests (probes : list (Z * N * Z)) : list (event op resp) :=
  flat_map (fun probe : Z * N * Z =>
              let '(port, sock, result) := probe in
              [ @Ev op resp socket_socket (Returns sock);
                @Ev op resp (sock_settimeout sock 1) (Returns tt);
                @Ev op resp (sock_connect_ex sock (py "localhost") port)
                  (Returns result);
                @Ev op resp (sock_close sock) (Returns tt) ]) probes.

(** The connection attempts with their answers, in order. *)
Definition connect_answer (ev : event op resp)
    : option (pystr * Z * outcome Z) :=
  match ev with
  | Ev o r =>
      match o as o' return
        outcome (resp o') -> option (pystr * Z * outcome Z)
      with
      | sock_connect_ex _ host port => fun r => Some (host, port, r)
      | _ => fun _ => None
      end r
  end.

Definition connects (t : list (event op resp))
    : list (pystr * Z * outcome Z) :=
  flat_map (fun ev => match connect_answer ev with
                      | Some c => [c]
                      | None => []
                      end) t.

(** The connection attempt raises for the port of Grafana; everything else
    is as in [scripted]. *)
Definition unresolvable_host : env op resp unit :=
  fun o w =>
    (match o return outcome (resp o) with
     | sock_connect_ex _ _ _ =>
         Raises (Exn OtherException (py "Name or service not known"))
     | o' => fst (scripted [] o' w)
     end, w).

(** ** A passed probe *)

(** An event of a diagnostic pass in which nothing is wrong: a command
    ended with exit code 0, a file exists, a connection was accepted, a
    service answered with status 200, and any other request was
    answered. *)
Definition passed (ev : event op resp) : Prop :=
  match ev with
  | Ev o r =>
      match o as o' return outcome (resp o') -> Prop with
      | subprocess_run _ _ =>
          fun r => exists c, r = Returns c /\ returncode c = 0%Z
      | os_path_exists _ => fun r => r = Returns true
      | sock_connect_ex _ _ _ => fun r => r = Returns 0%Z
      | requests_get _ _ =>
          fun r => exists x, r = Returns x /\ status_code x = 200%Z
      | _ => fun r => exists v, r = Returns v
      end r
  end.

(** ** Failures without a hint *)

(** The messages of the checks for a missing Docker and a missing or slow
    docker-compose. *)
Definition docker_missing : pystr :=
  py "Docker is not installed or not running".
Definition compose_missing : pystr :=
  py "docker-compose not found or timeout".

(** The failures [run_diagnostics] reports with fixed texts other than the
    three for which it has a hint. *)
Definition unhinted : list pystr :=
  docker_missing :: compose_missing :: port_issues_all ++ health_issues_all.

(** An issue that [repr] shows as it is, between single quotes: printable
    ASCII without single quote and backslash. *)
Definition plain_char (c : char) : bool :=
  ((32 <=? c) && (c <? 127) && negb (c =? 39) && negb (c =? 92))%N.

Definition plain (issue : pystr) : bool := forallb plain_char issue.

(** The hints [suggest_fixes] gives for an issue that contains [key]. *)
Definition hint_block (key : pystr) (hints : list pystr) (issues : list pystr)
    : list pystr :=
  if existsb (str_in key) issues then hints else [].

(** The six texts [suggest_fixes] looks for. *)
Definition hint_keys : list pystr :=
  [ py "Docker is not running";
    py "docker-compose.monitoring.yml not found";
    py "containers not running";
    py "port conflicts";
    py "services not healthy";
    py "no metrics" ].

End Troubleshooter.
(* ===================================================================== *)
(** * Facts about strings and dictionaries *)
(* ===================================================================== *)

Lemma char_eqb_eq (a b : char) : char_eqb a b = true <-> a = b.
Proof. apply N.eqb_eq. Qed.

Lemma str_eqb_eq (a b : pystr) : str_eqb a b = true <-> a = b.
Proof.
  revert b. induction a as [| x a IH]; intros [| y b]; simpl;
    try (split; [discriminate | discriminate]); [tauto|].
  rewrite andb_true_iff, char_eqb_eq, IH. split.
  - now intros [-> ->].
  - intros [= -> ->]. auto.
Qed.

Lemma str_eqb_refl (a : pystr) : str_eqb a a = true.
Proof. now apply str_eqb_eq. Qed.

Lemma str_eqb_sym (a b : pystr) : str_eqb a b = str_eqb b a.
Proof.
  destruct (str_eqb a b) eqn:H.
  - apply str_eqb_eq in H as ->. symmetry. apply str_eqb_refl.
  - destruct (str_eqb b a) eqn:H'; [|reflexivity].
    apply str_eqb_eq in H' as ->. now rewrite str_eqb_refl in H.
Qed.

(** Reading a dictionary after an assignment. *)
Lemma dict_get_set {V} (d : pydict V) k v k' :
  dict_get (dict_set d k v) k' =
  if str_eqb k k' then Some v else dict_get d k'.
Proof.
  induction d as [| [k0 v0] d IH]; simpl; [reflexivity|].
  destruct (str_eqb k0 k) eqn:K; simpl.
  - apply str_eqb_eq in K as ->. now destruct (str_eqb k k').
  - rewrite IH. destruct (str_eqb k0 k') eqn:K'; [|reflexivity].
    apply str_eqb_eq in K' as ->. rewrite str_eqb_sym. now rewrite K.
Qed.

Lemma dict_get_In {V} (d : pydict V) k v :
  dict_get d k = Some v -> In (k, v) d.
Proof.
  induction d as [| [k0 v0] d IH]; simpl; [discriminate|].
  destruct (str_eqb k0 k) eqn:K.
  - apply str_eqb_eq in K as ->. intros [= ->]. now left.
  - auto.
Qed.

Lemma dict_keys_set {V} (d : pydict V) k v k' :
  In k' (dict_keys (dict_set d k v)) -> k' = k \/ In k' (dict_keys d).
Proof.
  unfold dict_keys. induction d as [| [k0 v0] d IH]; simpl.
  - intros [<- | []]. now left.
  - destruct (str_eqb k0 k); simpl; intros [<- | H]; auto.
    destruct (IH H); auto.
Qed.

Lemma find_app {X} (p : X -> bool) (a b : list X) :
  find p (a ++ b) = match find p a with Some x => Some x | None => find p b end.
Proof.
  induction a as [| x a IH]; simpl; [reflexivity|]. now destruct (p x).
Qed.

(** A string that starts with [p] is [p] followed by something. *)
Lemma startswith_app (s p : pystr) :
  startswith s p = true -> exists post, s = p ++ post.
Proof.
  revert s. induction p as [| c p IH]; intros s H; simpl in *.
  - now exists s.
  - destruct s as [| d s]; [discriminate|].
    apply andb_prop in H as [C H]. apply char_eqb_eq in C as ->.
    destruct (IH s H) as [post ->]. now exists post.
Qed.

(** [d[k]] raises a [KeyError] only, and [min] what its key function raises
    or a [ValueError]: instances of [Exception]. *)
Lemma dict_getitem_raises {V} (d : pydict V) k e :
  dict_getitem d k = Raises e -> is_Exception e = true.
Proof.
  unfold dict_getitem. destruct (dict_get d k); [discriminate|].
  now intros [= <-].
Qed.

Lemma min_from_raises {A} (key : A -> outcome pyfloat) best kbest xs e :
  (forall x e, key x = Raises e -> is_Exception e = true) ->
  min_from key best kbest xs = Raises e -> is_Exception e = true.
Proof.
  intros Hk. revert best kbest.
  induction xs as [| x xs IH]; intros best kbest; simpl; [discriminate|].
  destruct (key x) as [kx | e'] eqn:K.
  - destruct (float_lt kx kbest); apply IH.
  - intros [= <-]. now apply (Hk x).
Qed.

Lemma py_min_raises {A} (xs : list A) (key : A -> outcome pyfloat) e :
  (forall x e, key x = Raises e -> is_Exception e = true) ->
  py_min xs key = Raises e -> is_Exception e = true.
Proof.
  intros Hk. destruct xs as [| x xs]; simpl; [now intros [= <-]|].
  destruct (key x) as [kx | e'] eqn:K.
  - now apply min_from_raises.
  - intros [= <-]. now apply (Hk x).
Qed.

(* ===================================================================== *)
(** * Facts about runs *)
(* ===================================================================== *)

Section RunFacts.
Context {Op : Type} {Resp : Op -> Type} {W : Type} (E : env Op Resp W).

Let prog := prog Op Resp.

Lemma run_handle_with {A B} (m : prog A) (f : A -> prog B) (h : exn -> prog B) w :
  run E (handle_with m f h) w = then_run E (run E m w) f h.
Proof.
  revert w. induction m as [a | e | o k IH]; intros w; simpl.
  - unfold then_run; simpl. now destruct (run E (f a) w).
  - unfold then_run; simpl. now destruct (run E (h e) w).
  - rewrite IH. unfold then_run, after; simpl. reflexivity.
Qed.

Lemma run_bind {A B} (m : prog A) (f : A -> prog B) w :
  run E (bind m f) w = then_run E (run E m w) f Throw.
Proof. apply run_handle_with. Qed.

Lemma run_call (o : Op) w :
  run E (call o) w = Res (fst (E o w)) [Ev o (fst (E o w))] (snd (E o w)).
Proof.
  unfold call; simpl. unfold after. now destruct (fst (E o w)).
Qed.

Lemma call_returns (o : Op) w v :
  res_out (run E (call o) w) = Returns v -> fst (E o w) = Returns v.
Proof. now rewrite run_call. Qed.

Lemma run_lift {A} (r : outcome A) w : run E (lift r) w = Res r [] w.
Proof. now destruct r. Qed.

(** A sequence returns only if its first part returned. *)
Lemma bind_returns {A B} (m : prog A) (f : A -> prog B) w b :
  res_out (run E (bind m f) w) = Returns b ->
  exists a, res_out (run E m w) = Returns a /\
            res_out (run E (f a) (res_world (run E m w))) = Returns b.
Proof.
  rewrite run_bind. unfold then_run; simpl.
  destruct (res_out (run E m w)) as [a | e]; simpl; intros H.
  - now exists a.
  - discriminate.
Qed.

Lemma bind_trace {A B} (m : prog A) (f : A -> prog B) w a :
  res_out (run E m w) = Returns a ->
  res_trace (run E (bind m f) w) =
  res_trace (run E m w) ++ res_trace (run E (f a) (res_world (run E m w))).
Proof.
  intros H. rewrite run_bind. unfold then_run; simpl. now rewrite H.
Qed.

Lemma bind_trace_raises {A B} (m : prog A) (f : A -> prog B) w e :
  res_out (run E m w) = Raises e ->
  res_trace (run E (bind m f) w) = res_trace (run E m w) /\
  res_out (run E (bind m f) w) = Raises e.
Proof.
  intros H. rewrite run_bind. unfold then_run; simpl. rewrite H; simpl.
  split; [apply app_nil_r | reflexivity].
Qed.

(** ** Requests a program never makes *)

Lemma quiet_ret {A} P (a : A) : quiet E P (Ret a).
Proof. intros w; constructor. Qed.

Lemma quiet_throw {A} P e : quiet E P (@Throw Op Resp A e).
Proof. intros w; constructor. Qed.

Lemma quiet_lift {A} P (r : outcome A) : quiet E P (lift r).
Proof. intros w; rewrite run_lift; constructor. Qed.

Lemma quiet_call P o : P o = false -> quiet E P (call o).
Proof. intros H w. rewrite run_call; simpl. now repeat constructor. Qed.

Lemma quiet_handle_with {A B} P (m : prog A) (f : A -> prog B) h :
  quiet E P m -> (forall a, quiet E P (f a)) -> (forall e, quiet E P (h e)) ->
  quiet E P (handle_with m f h).
Proof.
  intros Hm Hf Hh w. rewrite run_handle_with. unfold then_run; simpl.
  apply Forall_app; split; [apply Hm|].
  destruct (res_out (run E m w)); [apply Hf | apply Hh].
Qed.

Lemma quiet_bind {A B} P (m : prog A) (f : A -> prog B) :
  quiet E P m -> (forall a, quiet E P (f a)) -> quiet E P (bind m f).
Proof. intros; apply quiet_handle_with; auto using quiet_throw. Qed.

Lemma quiet_try_except {A} P (m : prog A) c h :
  quiet E P m -> (forall e, quiet E P (h e)) -> quiet E P (try_except m c h).
Proof.
  intros Hm Hh. apply quiet_handle_with; auto using quiet_ret.
  intros e; destruct (c e); auto using quiet_throw.
Qed.

Lemma quiet_with_exit {A} P (m : prog A) leave :
  quiet E P m -> (forall r, quiet E P (leave r)) -> quiet E P (with_exit m leave).
Proof.
  intros Hm Hl. apply quiet_handle_with; auto; intros;
    apply quiet_bind; auto using quiet_ret, quiet_throw.
Qed.

Lemma quiet_for_each {X} P (xs : list X) body :
  (forall x, quiet E P (body x)) -> quiet E P (for_each xs body).
Proof.
  intros Hb. induction xs as [| x xs IH]; simpl.
  - apply quiet_ret.
  - apply quiet_bind; auto.
Qed.

(** ** Requests a program always makes in a given form *)

Lemma always_ret {A} Q (a : A) : always E Q (Ret a : prog A).
Proof. intros w; constructor. Qed.

Lemma always_throw {A} Q e : always E Q (Throw e : prog A).
Proof. intros w; constructor. Qed.

Lemma always_lift {A} Q (r : outcome A) : always E Q (lift r : prog A).
Proof. intros w; rewrite run_lift; constructor. Qed.

Lemma always_call Q o : Q o -> always E Q (call o : prog (Resp o)).
Proof. intros H w. rewrite run_call; simpl. now repeat constructor. Qed.

Lemma always_handle_with {A B} Q (m : prog A) (f : A -> prog B) h :
  always E Q m -> (forall a, always E Q (f a)) ->
  (forall e, always E Q (h e)) -> always E Q (handle_with m f h).
Proof.
  intros Hm Hf Hh w. rewrite run_handle_with. unfold then_run; simpl.
  apply Forall_app; split; [apply Hm|].
  destruct (res_out (run E m w)); [apply Hf | apply Hh].
Qed.

Lemma always_bind {A B} Q (m : prog A) (f : A -> prog B) :
  always E Q m -> (forall a, always E Q (f a)) -> always E Q (bind m f).
Proof. intros; apply always_handle_with; auto using always_throw. Qed.

(** After a call, only the values the environment answers matter. *)
Lemma always_bind_call {B} Q o (f : Resp o -> prog B) :
  Q o ->
  (forall w v, fst (E o w) = Returns v -> always E Q (f v)) ->
  always E Q (bind (call o) f).
Proof.
  intros Ho Hf w. rewrite run_bind, run_call. unfold then_run; simpl.
  constructor; [exact Ho|].
  destruct (fst (E o w)) as [v | e] eqn:A; [| constructor].
  now apply (Hf w v).
Qed.

Lemma always_try_except {A} Q (m : prog A) c h :
  always E Q m -> (forall e, always E Q (h e)) -> always E Q (try_except m c h).
Proof.
  intros Hm Hh. apply always_handle_with; auto using always_ret.
  intros e; destruct (c e); auto using always_throw.
Qed.

Lemma always_for_fold {X S} Q (xs : list X) (s : S) body :
  (forall x s, always E Q (body x s)) -> always E Q (for_fold xs s body).
Proof.
  intros Hb. revert s. induction xs as [| x xs IH]; intros s; simpl.
  - apply always_ret.
  - apply always_bind; auto.
Qed.

(** After a part that returned, only what it can return matters. *)
Lemma always_handle_post {A B} Q (m : prog A) (f : A -> prog B) h :
  always E Q m ->
  (forall w a, res_out (run E m w) = Returns a -> always E Q (f a)) ->
  (forall e, always E Q (h e)) ->
  always E Q (handle_with m f h).
Proof.
  intros Hm Hf Hh w. rewrite run_handle_with. unfold then_run; simpl.
  apply Forall_app; split; [apply Hm|].
  destruct (res_out (run E m w)) eqn:R; [now apply (Hf w a) | apply Hh].
Qed.

Lemma always_bind_post {A B} Q (m : prog A) (f : A -> prog B) :
  always E Q m ->
  (forall w a, res_out (run E m w) = Returns a -> always E Q (f a)) ->
  always E Q (bind m f).
Proof. intros; apply always_handle_post; auto using always_throw. Qed.

(** A [try] returns because its body returned, or because its handler
    did. *)
Lemma try_except_returns_inv {A} (m : prog A) c h w a :
  res_out (run E (try_except m c h) w) = Returns a ->
  res_out (run E m w) = Returns a \/
  exists e, res_out (run E m w) = Raises e /\ c e = true /\
            res_out (run E (h e) (res_world (run E m w))) = Returns a.
Proof.
  unfold try_except. rewrite run_handle_with. unfold then_run; simpl.
  destruct (res_out (run E m w)) as [a' | e]; simpl; [auto|].
  destruct (c e) eqn:C; simpl; [|discriminate]. intros H. right. eauto.
Qed.

(** An invariant of the local variables of a loop that returned. *)
Lemma for_fold_returns_inv {X S} (Inv : S -> Prop) (xs : list X)
    (body : X -> S -> prog S) :
  (forall x s w s', In x xs -> Inv s ->
     res_out (run E (body x s) w) = Returns s' -> Inv s') ->
  forall s w s', Inv s ->
    res_out (run E (for_fold xs s body) w) = Returns s' -> Inv s'.
Proof.
  induction xs as [| x xs IH]; intros Hb s w s' Hs H; simpl in H.
  - now injection H as <-.
  - apply bind_returns in H as (s1 & H1 & H).
    eapply (IH (fun x0 s0 w0 s0' I => Hb x0 s0 w0 s0' (or_intror I)) s1);
      [| exact H].
    apply (Hb x s w s1); auto. now left.
Qed.

(** A loop returns when each of its turns returns. *)
Lemma for_each_returns {X} (xs : list X) (body : X -> prog unit) :
  (forall x w, res_out (run E (body x) w) = Returns tt) ->
  forall w, res_out (run E (for_each xs body) w) = Returns tt.
Proof.
  intros Hb. induction xs as [| x xs IH]; intros w; simpl; [reflexivity|].
  rewrite run_bind. unfold then_run; simpl. rewrite Hb. apply IH.
Qed.

(** ** Exceptions a program can end with *)

Lemma raises_only_ret {A} P (a : A) : raises_only E P (Ret a : prog A).
Proof. intros w e H. discriminate H. Qed.

Lemma raises_only_throw {A} (P : exn -> Prop) e :
  P e -> raises_only E P (Throw e : prog A).
Proof. intros H w e' [= <-]. exact H. Qed.

Lemma raises_only_lift {A} (P : exn -> Prop) (r : outcome A) :
  (forall e, r = Raises e -> P e) -> raises_only E P (lift r : prog A).
Proof. intros H w e. rewrite run_lift. simpl. apply H. Qed.

Lemma raises_only_call P o :
  env_raises_only E P -> raises_only E P (call o : prog (Resp o)).
Proof. intros H w e. rewrite run_call. simpl. apply H. Qed.

Lemma raises_only_handle_with {A B} P (m : prog A) (f : A -> prog B) h :
  (forall a, raises_only E P (f a)) -> (forall e, raises_only E P (h e)) ->
  raises_only E P (handle_with m f h).
Proof.
  intros Hf Hh w e. rewrite run_handle_with. unfold then_run; simpl.
  destruct (res_out (run E m w)); [apply Hf | apply Hh].
Qed.

Lemma raises_only_bind {A B} P (m : prog A) (f : A -> prog B) :
  raises_only E P m -> (forall a, raises_only E P (f a)) ->
  raises_only E P (bind m f).
Proof.
  intros Hm Hf w e. rewrite run_bind. unfold then_run; simpl.
  destruct (res_out (run E m w)) as [a | e'] eqn:R; [apply Hf|].
  simpl. intros [= <-]. now apply (Hm w).
Qed.

Lemma raises_only_try_except {A} P (m : prog A) c h :
  raises_only E P m -> (forall e, raises_only E P (h e)) ->
  raises_only E P (try_except m c h).
Proof.
  intros Hm Hh w e. unfold try_except. rewrite run_handle_with.
  unfold then_run; simpl.
  destruct (res_out (run E m w)) as [a | e'] eqn:R; [discriminate|].
  destruct (c e'); [apply Hh|]. simpl. intros [= <-]. now apply (Hm w).
Qed.

Lemma raises_only_with_exit {A} P (m : prog A) leave :
  raises_only E P m -> (forall r, raises_only E P (leave r)) ->
  raises_only E P (with_exit m leave).
Proof.
  intros Hm Hl w e. unfold with_exit. rewrite run_handle_with.
  unfold then_run; simpl.
  destruct (res_out (run E m w)) as [a | e'] eqn:R.
  - apply raises_only_bind; [apply Hl | intros; apply raises_only_ret].
  - apply raises_only_bind; [apply Hl |].
    intros _. apply raises_only_throw. now apply (Hm w).
Qed.

Lemma raises_only_for_each {X} P (xs : list X) body :
  (forall x, raises_only E P (body x)) -> raises_only E P (for_each xs body).
Proof.
  intros Hb. induction xs as [| x xs IH]; simpl.
  - apply raises_only_ret.
  - apply raises_only_bind; auto.
Qed.

(** What is observed on a trace ignores the requests of a quiet program. *)
Lemma flat_map_quiet {A X} (obs : event Op Resp -> list X) P (m : prog A) w :
  quiet E P m ->
  (forall ev, P (ev_op ev) = false -> obs ev = []) ->
  flat_map obs (res_trace (run E m w)) = [].
Proof.
  intros Q H. specialize (Q w).
  induction Q as [| ev t Hev _ IH]; simpl; [reflexivity|].
  now rewrite (H ev Hev), IH.
Qed.

Lemma trace_handle_with {A B} (m : prog A) (f : A -> prog B) h w :
  res_trace (run E (handle_with m f h) w) =
  res_trace (run E m w) ++
  res_trace (match res_out (run E m w) with
             | Returns a => run E (f a) (res_world (run E m w))
             | Raises e => run E (h e) (res_world (run E m w))
             end).
Proof. rewrite run_handle_with. reflexivity. Qed.

Lemma out_handle_with {A B} (m : prog A) (f : A -> prog B) h w :
  res_out (run E (handle_with m f h) w) =
  res_out (match res_out (run E m w) with
           | Returns a => run E (f a) (res_world (run E m w))
           | Raises e => run E (h e) (res_world (run E m w))
           end).
Proof. rewrite run_handle_with. reflexivity. Qed.

(** Handlers nest: handling [m] and then handling the result is handling
    [m] with the composed continuations. *)
Lemma run_handle_assoc {A B C} (m : prog A) (f : A -> prog B) g
    (f' : B -> prog C) g' w :
  run E (handle_with (handle_with m f g) f' g') w =
  run E (handle_with m (fun a => handle_with (f a) f' g')
                       (fun e => handle_with (g e) f' g')) w.
Proof.
  rewrite !run_handle_with. unfold then_run; simpl.
  destruct (res_out (run E m w)); rewrite run_handle_with;
    unfold then_run; simpl; now rewrite app_assoc.
Qed.

(** A [try] around a sequence: the handler also guards the first part. *)
Lemma run_try_bind {A B} (m : prog A) (f : A -> prog B) c h w :
  run E (try_except (bind m f) c h) w =
  then_run E (run E m w) (fun a => try_except (f a) c h)
    (fun e => if c e then h e else Throw e).
Proof.
  unfold try_except, bind. rewrite run_handle_assoc.
  now rewrite run_handle_with.
Qed.

End RunFacts.

(** A list is cut at its only element satisfying [P] in one way. *)
Lemma cut_unique {X} (P : X -> bool) (a : list X) x b a' x' b' :
  Forall (fun y => P y = false) a -> P x = true ->
  Forall (fun y => P y = false) b -> P x' = true ->
  a ++ x :: b = a' ++ x' :: b' ->
  a' = a /\ x' = x /\ b' = b.
Proof.
  intros Ha Hx Hb Hx'. revert a'.
  induction Ha as [| y a Hy Ha IH]; intros [| y' a'] H; simpl in *.
  - injection H as -> ->. auto.
  - injection H as <- H. exfalso.
    assert (I : In x' b) by (rewrite H; apply in_elt).
    rewrite Forall_forall in Hb. specialize (Hb x' I). congruence.
  - injection H as -> H. congruence.
  - injection H as -> H.
    destruct (IH a' H) as (-> & -> & ->). auto.
Qed.

(** [quiet_tac] walks through a program and shows that none of its requests
    satisfies the predicate. *)
Ltac quiet_step :=
  match goal with
  | |- quiet _ _ (bind _ _) => apply quiet_bind; [| intros ?]
  | |- quiet _ _ (try_except _ _ _) => apply quiet_try_except; [| intros ?]
  | |- quiet _ _ (with_exit _ _) => apply quiet_with_exit; [| intros ?]
  | |- quiet _ _ (for_each _ _) => apply quiet_for_each; intros ?
  | |- quiet _ _ (Ret _) => apply quiet_ret
  | |- quiet _ _ (Throw _) => apply quiet_throw
  | |- quiet _ _ (lift _) => apply quiet_lift
  | |- quiet ?E ?P (call ?o) => exact (quiet_call E P o eq_refl)
  | |- quiet _ _ (match ?x with _ => _ end) => destruct x
  | |- quiet _ _ (let (_, _) := ?x in _) => destruct x
  end.

(* ===================================================================== *)
(** * Facts about the order of floats *)
(* ===================================================================== *)

Lemma Qltb_lt (a b : Q) : Qltb a b = true <-> (a < b)%Q.
Proof. unfold Qltb, Qlt. apply Z.ltb_lt. Qed.

Lemma Qltb_ge (a b : Q) : Qltb a b = false <-> (b <= a)%Q.
Proof. unfold Qltb, Qle. apply Z.ltb_ge. Qed.

Lemma float_lt_irrefl (a : pyfloat) : float_lt a a = false.
Proof.
  destruct a as [q | [|] |]; simpl; try reflexivity.
  apply Qltb_ge. apply Qle_refl.
Qed.

Lemma float_lt_asym (a b : pyfloat) :
  float_lt a b = true -> float_lt b a = false.
Proof.
  destruct a as [x | [|] |], b as [y | [|] |]; simpl; try congruence.
  intros H. apply Qltb_lt in H. apply Qltb_ge. now apply Qlt_le_weak.
Qed.

Lemma float_eq_not_lt (a b : pyfloat) :
  float_eq a b = true -> float_lt b a = false.
Proof.
  destruct a as [x | [|] |], b as [y | [|] |]; simpl; try congruence.
  intros H. apply Qeq_bool_iff in H. apply Qltb_ge. rewrite H. apply Qle_refl.
Qed.

Lemma float_le_refl (a : pyfloat) : float_isnan a = false -> float_le a a = true.
Proof.
  unfold float_le. destruct a as [q | [|] |]; simpl; try congruence.
  intros _. replace (Qeq_bool q q) with true; [apply orb_true_r|].
  symmetry. apply Qeq_bool_iff. reflexivity.
Qed.

Lemma float_lt_le (a b : pyfloat) : float_lt a b = true -> float_le a b = true.
Proof. unfold float_le. now intros ->. Qed.

(** Numbers are totally ordered: what is not above is at most. *)
Lemma float_not_lt_le (a b : pyfloat) :
  float_isnan a = false -> float_isnan b = false ->
  float_lt b a = false -> float_le a b = true.
Proof.
  unfold float_le.
  destruct a as [x | [|] |], b as [y | [|] |]; simpl; try congruence.
  intros _ _ H. apply Qltb_ge in H.
  destruct (Qltb x y) eqn:L; [reflexivity|]. simpl.
  apply Qltb_ge in L. apply Qeq_bool_iff. now apply Qle_antisym.
Qed.

(** [raises_step] walks through a program in an environment that raises
    only exceptions satisfying the property. *)
Ltac raises_step H :=
  match goal with
  | |- raises_only _ _ (bind _ _) => apply raises_only_bind; [| intros ?]
  | |- raises_only _ _ (try_except _ _ _) =>
      apply raises_only_try_except; [| intros ?]
  | |- raises_only _ _ (with_exit _ _) =>
      apply raises_only_with_exit; [| intros ?]
  | |- raises_only _ _ (for_each _ _) => apply raises_only_for_each; intros ?
  | |- raises_only _ _ (Ret _) => apply raises_only_ret
  | |- raises_only ?E ?P (call ?o) => exact (raises_only_call E P o H)
  | |- raises_only _ _ (match ?x with _ => _ end) => destruct x
  end.

(** [always_step] does the same for a property that holds of every request
    by computation. *)
Ltac always_step :=
  match goal with
  | |- always _ _ (bind _ _) => apply always_bind; [| intros ?]
  | |- always _ _ (try_except _ _ _) => apply always_try_except; [| intros ?]
  | |- always _ _ (handle_with _ _ _) =>
      apply always_handle_with; [| intros ? | intros ?]
  | |- always _ _ (Ret _) => apply always_ret
  | |- always _ _ (Throw _) => apply always_throw
  | |- always _ _ (lift _) => apply always_lift
  | |- always ?E ?Q (call ?o) => exact (always_call E Q o I)
  | |- always _ _ (match ?x with _ => _ end) => destruct x
  end.

(** Case analysis on the answer the run is waiting for. *)
Tactic Notation "case_answer" "as" simple_intropattern(pat) :=
  match goal with
  | |- context [match fst (?E ?o ?w) with _ => _ end] =>
      let w' := fresh "w" in
      destruct (E o w) as [pat w']; cbn [fst snd]
  end.

(** Inversion of a sequence that returned: its first part returned [a]. *)
Ltac inv_bind_as H a Ha :=
  apply bind_returns in H; destruct H as (a & Ha & H).

Ltac inv_bind H :=
  let a := fresh "a" in
  let Ha := fresh "Ha" in
  inv_bind_as H a Ha.

(* ===================================================================== *)
(** * Facts about traces *)
(* ===================================================================== *)

Section TraceFacts.
Context {Op : Type} {Resp : Op -> Type} {W : Type} (E : env Op Resp W).

Let prog := prog Op Resp.
Let event := event Op Resp.

Lemma count_app (P : event -> bool) (a b : list event) :
  count P (a ++ b) = count P a + count P b.
Proof. unfold count. now rewrite filter_app, length_app. Qed.

Lemma count_none (P : event -> bool) (t : list event) :
  Forall (fun ev => P ev = false) t -> count P t = 0.
Proof.
  unfold count. induction 1 as [| ev t H _ IH]; simpl; [reflexivity|].
  now rewrite H.
Qed.

(** The trace of a sequence. *)
Lemma trace_bind {A B} (m : prog A) (f : A -> prog B) w :
  res_trace (run E (bind m f) w) =
  res_trace (run E m w) ++
  match res_out (run E m w) with
  | Returns a => res_trace (run E (f a) (res_world (run E m w)))
  | Raises _ => []
  end.
Proof.
  unfold bind. rewrite trace_handle_with.
  now destruct (res_out (run E m w)).
Qed.

(** A [try] whose body returned made the requests of its body. *)
Lemma try_except_returned {A} (m : prog A) c h w a :
  res_out (run E m w) = Returns a ->
  run E (try_except m c h) w = run E m w.
Proof.
  intros H. unfold try_except. rewrite run_handle_with. unfold then_run.
  rewrite H. cbn. rewrite app_nil_r. destruct (run E m w); cbn in *.
  now subst.
Qed.

(** When a sequence returned, both parts did, and its trace and final state
    are those of the second part after the first. *)
Lemma bind_returned {A B} (m : prog A) (f : A -> prog B) w b :
  res_out (run E (bind m f) w) = Returns b ->
  exists a,
    res_out (run E m w) = Returns a /\
    res_out (run E (f a) (res_world (run E m w))) = Returns b /\
    res_trace (run E (bind m f) w) =
      res_trace (run E m w) ++
      res_trace (run E (f a) (res_world (run E m w))) /\
    res_world (run E (bind m f) w) =
      res_world (run E (f a) (res_world (run E m w))).
Proof.
  intros H. destruct (bind_returns E m f w b H) as (a & Ha & Hb).
  exists a. repeat split; trivial.
  - now apply bind_trace.
  - rewrite run_bind. unfold then_run. now rewrite Ha.
Qed.

(** How a sequence and a [try] end. *)
Lemma out_bind {A B} (m : prog A) (f : A -> prog B) w :
  res_out (run E (bind m f) w) =
  match res_out (run E m w) with
  | Returns a => res_out (run E (f a) (res_world (run E m w)))
  | Raises e => Raises e
  end.
Proof.
  unfold bind. rewrite out_handle_with. now destruct (res_out (run E m w)).
Qed.

Lemma out_try_except {A} (m : prog A) c h w :
  res_out (run E (try_except m c h) w) =
  match res_out (run E m w) with
  | Returns a => Returns a
  | Raises e =>
      if c e then res_out (run E (h e) (res_world (run E m w))) else Raises e
  end.
Proof.
  unfold try_except. rewrite out_handle_with.
  destruct (res_out (run E m w)) as [a | e]; [reflexivity|].
  now destruct (c e).
Qed.

(** ** Properties of traces that sequencing keeps *)

Section Closed.
Variable P : list event -> Prop.
Hypothesis P_nil : P [].
Hypothesis P_app : forall a b, P a -> P b -> P (a ++ b).

Lemma every_trace_ret {A} (a : A) : every_trace E P (Ret a : prog A).
Proof. intros w. exact P_nil. Qed.

Lemma every_trace_throw {A} e : every_trace E P (Throw e : prog A).
Proof. intros w. exact P_nil. Qed.

Lemma every_trace_lift {A} (r : outcome A) : every_trace E P (lift r : prog A).
Proof. intros w. rewrite run_lift. exact P_nil. Qed.

Lemma every_trace_call o :
  (forall r, P [Ev o r]) -> every_trace E P (call o : prog (Resp o)).
Proof. intros H w. rewrite run_call. apply H. Qed.

Lemma every_trace_handle_with {A B} (m : prog A) (f : A -> prog B) h :
  every_trace E P m -> (forall a, every_trace E P (f a)) ->
  (forall e, every_trace E P (h e)) -> every_trace E P (handle_with m f h).
Proof.
  intros Hm Hf Hh w. rewrite trace_handle_with. apply P_app; [apply Hm|].
  destruct (res_out (run E m w)); [apply Hf | apply Hh].
Qed.

Lemma every_trace_bind {A B} (m : prog A) (f : A -> prog B) :
  every_trace E P m -> (forall a, every_trace E P (f a)) ->
  every_trace E P (bind m f).
Proof. intros; apply every_trace_handle_with; auto using every_trace_throw. Qed.

Lemma every_trace_try_except {A} (m : prog A) c h :
  every_trace E P m -> (forall e, every_trace E P (h e)) ->
  every_trace E P (try_except m c h).
Proof.
  intros Hm Hh. apply every_trace_handle_with; auto using every_trace_ret.
  intros e; destruct (c e); auto using every_trace_throw.
Qed.

Lemma every_trace_with_exit {A} (m : prog A) leave :
  every_trace E P m -> (forall r, every_trace E P (leave r)) ->
  every_trace E P (with_exit m leave).
Proof.
  intros Hm Hl. apply every_trace_handle_with; auto; intros;
    apply every_trace_bind; auto using every_trace_ret, every_trace_throw.
Qed.

Lemma every_trace_for_each {X} (xs : list X) body :
  (forall x, every_trace E P (body x)) -> every_trace E P (for_each xs body).
Proof.
  intros Hb. induction xs as [| x xs IH]; simpl.
  - apply every_trace_ret.
  - apply every_trace_bind; auto.
Qed.

Lemma every_trace_for_fold {X S} (xs : list X) (s : S) body :
  (forall x s, every_trace E P (body x s)) ->
  every_trace E P (for_fold xs s body).
Proof.
  intros Hb. revert s. induction xs as [| x xs IH]; intros s; simpl.
  - apply every_trace_ret.
  - apply every_trace_bind; auto.
Qed.

End Closed.

(** ** Resources held one at a time *)

Section BracketFacts.
Context {R : Type} (same : R -> R -> bool).
Context (acquire release : event -> option R).

Lemma scan_app held (a b : list event) :
  scan same acquire release held (a ++ b) =
  match scan same acquire release held a with
  | Some h => scan same acquire release h b
  | None => None
  end.
Proof.
  revert held. induction a as [| ev a IH]; intros held; simpl; [reflexivity|].
  destruct (acquire ev), (release ev), held; try rewrite IH; try reflexivity;
    destruct (same _ _); auto.
Qed.

Lemma bracketed_nil : bracketed same acquire release [].
Proof. reflexivity. Qed.

Lemma bracketed_app (a b : list event) :
  bracketed same acquire release a -> bracketed same acquire release b ->
  bracketed same acquire release (a ++ b).
Proof. unfold bracketed. intros Ha Hb. now rewrite scan_app, Ha. Qed.

(** Events that neither acquire nor release leave what is held. *)
Lemma scan_neutral held (t : list event) :
  Forall (fun ev => acquire ev = None /\ release ev = None) t ->
  scan same acquire release held t = Some held.
Proof.
  induction 1 as [| ev t [Ha Hr] _ IH]; simpl; [reflexivity|].
  now rewrite Ha, Hr.
Qed.

End BracketFacts.

(** ** Loops *)

(** An invariant of the local variables that counts the turns. *)
Lemma for_fold_returns_steps {X S} (Inv : nat -> S -> Prop) (xs : list X)
    (body : X -> S -> prog S) :
  (forall x s w s' n, In x xs -> Inv n s ->
     res_out (run E (body x s) w) = Returns s' -> Inv (Datatypes.S n) s') ->
  forall n s w s', Inv n s ->
    res_out (run E (for_fold xs s body) w) = Returns s' ->
    Inv (n + List.length xs) s'.
Proof.
  induction xs as [| x xs IH]; intros Hb n s w s' Hs H; simpl in H.
  - injection H as <-. simpl. now rewrite Nat.add_0_r.
  - apply bind_returns in H as (s1 & H1 & H). simpl.
    rewrite Nat.add_succ_r.
    refine (IH (fun x0 s0 w0 s0' n0 I => Hb x0 s0 w0 s0' n0 (or_intror I))
              (Datatypes.S n) s1 _ s' _ H).
    apply (Hb x s w s1 n); auto. now left.
Qed.

(** A loop returns when each of its turns does. *)
Lemma for_fold_returns {X S} (xs : list X) (body : X -> S -> prog S) :
  (forall x s w, exists s', res_out (run E (body x s) w) = Returns s') ->
  forall s w, exists s', res_out (run E (for_fold xs s body) w) = Returns s'.
Proof.
  intros Hb. induction xs as [| x xs IH]; intros s w; simpl; [eauto|].
  rewrite run_bind. unfold then_run; simpl.
  destruct (Hb x s w) as [s1 H1]. rewrite H1. apply IH.
Qed.

(** The requests of a loop are counted turn by turn. *)
Lemma for_fold_count_le {X S} (P : event -> bool) (n : nat) (xs : list X)
    (body : X -> S -> prog S) :
  (forall x s w, count P (res_trace (run E (body x s) w)) <= n) ->
  forall s w,
    count P (res_trace (run E (for_fold xs s body) w)) <= n * List.length xs.
Proof.
  intros Hb. induction xs as [| x xs IH]; intros s w; simpl.
  - unfold count; simpl. lia.
  - rewrite trace_bind, count_app.
    specialize (Hb x s w).
    destruct (res_out (run E (body x s) w)) as [s1 | e].
    + specialize (IH s1 (res_world (run E (body x s) w))). lia.
    + unfold count at 2; simpl. lia.
Qed.

End TraceFacts.

(** [trace_step] walks through a program for a property of traces that
    sequencing keeps ([Hnil] and [Happ]) and that holds of each single
    request by computation. *)
Ltac trace_step Hnil Happ :=
  match goal with
  | |- every_trace _ _ (bind _ _) =>
      apply (every_trace_bind _ _ Hnil Happ); [| intros ?]
  | |- every_trace _ _ (try_except _ _ _) =>
      apply (every_trace_try_except _ _ Hnil Happ); [| intros ?]
  | |- every_trace _ _ (with_exit _ _) =>
      apply (every_trace_with_exit _ _ Hnil Happ); [| intros ?]
  | |- every_trace _ _ (for_each _ _) =>
      apply (every_trace_for_each _ _ Hnil Happ); intros ?
  | |- every_trace _ _ (for_fold _ _ _) =>
      apply (every_trace_for_fold _ _ Hnil Happ); intros ? ?
  | |- every_trace _ _ (Ret _) => apply (every_trace_ret _ _ Hnil)
  | |- every_trace _ _ (Throw _) => apply (every_trace_throw _ _ Hnil)
  | |- every_trace _ _ (lift _) => apply (every_trace_lift _ _ Hnil)
  | |- every_trace ?E ?P (call ?o) =>
      refine (every_trace_call E P o _); intros [? | ?];
      first [reflexivity | now repeat constructor]
  | |- every_trace _ _ (match ?x with _ => _ end) => destruct x
  | |- every_trace _ _ (let (_, _) := ?x in _) => destruct x
  end.


(* ===================================================================== *)
(** * Properties of one/retrain_housing.py *)
(* ===================================================================== *)

Module RetrainFacts.
Import Retrain.
#[local] Open Scope prog_scope.

(** The blocks are unfolded by name only. *)
#[local] Arguments load_data : simpl never.
#[local] Arguments load_existing : simpl never.
#[local] Arguments split_data : simpl never.
#[local] Arguments train_models : simpl never.
#[local] Arguments train_and_log_model : simpl never.
#[local] Arguments report_best : simpl never.
#[local] Arguments register_best : simpl never.
#[local] Arguments save_results : simpl never.
#[local] Arguments register_and_save : simpl never.
#[local] Arguments fit_and_save : simpl never.
#[local] Arguments train_and_save : simpl never.
#[local] Arguments report_error : simpl never.
#[local] Arguments ext : simpl never.
#[local] Arguments py : simpl never.

Section AnyEnvironment.
Context {W : Type} (E : env op resp W).

Lemma run_ext (o : op) w :
  run E (ext o) w = Res (fst (E o w)) [Ev o (fst (E o w))] (snd (E o w)).
Proof. apply run_call. Qed.

Lemma retrain_ext_returns (o : op) w v :
  res_out (run E (ext o) w) = Returns v -> fst (E o w) = Returns v.
Proof. now rewrite run_ext. Qed.

Lemma try_except_returns {A} (m : M A) c h w a :
  res_out (run E m w) = Returns a ->
  res_out (run E (try_except m c h) w) = Returns a.
Proof.
  intros H. unfold try_except. rewrite run_handle_with.
  unfold then_run; simpl. now rewrite H.
Qed.

Lemma try_except_raises {A} (m : M A) c h w e :
  res_out (run E m w) = Raises e ->
  res_out (run E (try_except m c h) w) =
  if c e then res_out (run E (h e) (res_world (run E m w))) else Raises e.
Proof.
  intros H. unfold try_except. rewrite run_handle_with.
  unfold then_run; simpl. rewrite H. now destruct (c e).
Qed.

Lemma with_exit_returns {A} (m : M A) leave w a :
  res_out (run E (with_exit m leave) w) = Returns a ->
  res_out (run E m w) = Returns a.
Proof.
  unfold with_exit. rewrite run_handle_with. unfold then_run; simpl.
  destruct (res_out (run E m w)) as [a' | e]; simpl; rewrite run_bind;
    unfold then_run; simpl;
    destruct (res_out (run E (leave _) _)); simpl; congruence.
Qed.

(** A training run that returns has added one entry for its model. *)
Lemma train_returns Xtr Xte ytr yte mp model name w d :
  res_out (run E (train_and_log_model Xtr Xte ytr yte mp model name) w)
    = Returns d ->
  exists m, d = dict_set mp name m /\ evaluated E m.
Proof.
  unfold train_and_log_model. intros H.
  inv_bind H. inv_bind H. apply with_exit_returns in H.
  inv_bind H. inv_bind_as H preds Hp. inv_bind_as H v Hv.
  repeat inv_bind H. simpl in H. injection H as <-.
  apply retrain_ext_returns in Hv. eexists. split; [reflexivity|].
  unfold evaluated; simpl. eauto.
Qed.

Lemma train_models_returns Xtr Xte ytr yte w d :
  res_out (run E (train_models Xtr Xte ytr yte) w) = Returns d ->
  exists lr dt,
    d = [(py "LinearRegression", lr); (py "DecisionTree", dt)] /\
    evaluated E lr /\ evaluated E dt.
Proof.
  unfold train_models. intros H.
  inv_bind H. inv_bind_as H d1 Hd1. inv_bind H.
  apply train_returns in Hd1 as (lr & -> & Hlr).
  apply train_returns in H as (dt & -> & Hdt).
  exists lr, dt. auto.
Qed.

Lemma lift_returns {A} (r : outcome A) w a :
  res_out (run E (lift r) w) = Returns a -> r = Returns a.
Proof. now rewrite run_lift. Qed.

Lemma report_best_returns mp w name bm :
  res_out (run E (report_best mp) w) = Returns (name, bm) ->
  select_best mp = Returns name /\ dict_getitem mp name = Returns bm.
Proof.
  unfold report_best. intros H.
  inv_bind H. inv_bind H. inv_bind H.
  inv_bind_as H bname Hsel. inv_bind_as H bmet Hget.
  apply lift_returns in Hsel. apply lift_returns in Hget.
  repeat inv_bind H. simpl in H. injection H as <- <-. auto.
Qed.

Lemma save_results_returns ndp mp name bm w s :
  res_out (run E (save_results ndp mp name bm) w) = Returns s ->
  exists now,
    s = Results (RetrainResults now name bm mp (data_source_of ndp)).
Proof.
  unfold save_results. intros H.
  repeat inv_bind H. simpl in H. injection H as <-. eauto.
Qed.

(** The choice among the two candidates: the tree only when its error is
    strictly below the error of the linear model. *)
Lemma select_best_two (lr dt : metrics) :
  let mp := [(py "LinearRegression", lr); (py "DecisionTree", dt)] in
  select_best mp =
    Returns (if float_lt (mse dt) (mse lr) then py "DecisionTree"
             else py "LinearRegression") /\
  dict_getitem mp (py "LinearRegression") = Returns lr /\
  dict_getitem mp (py "DecisionTree") = Returns dt.
Proof.
  intros mp.
  assert (Glr : dict_getitem mp (py "LinearRegression") = Returns lr)
    by reflexivity.
  assert (Gdt : dict_getitem mp (py "DecisionTree") = Returns dt)
    by reflexivity.
  repeat split; trivial.
  unfold select_best.
  change (dict_keys mp) with [py "LinearRegression"; py "DecisionTree"].
  unfold py_min. cbv beta iota. rewrite Glr.
  unfold min_from. rewrite Gdt.
  now destruct (float_lt (mse dt) (mse lr)).
Qed.

(** The shape of every summary the procedure returns on success. *)
Lemma results_shape ndp w r :
  res_out (run E (retrain_housing_model ndp) w) = Returns (Results r) ->
  exists lr dt,
    all_models r = [(py "LinearRegression", lr); (py "DecisionTree", dt)] /\
    best_model r = (if float_lt (mse dt) (mse lr) then py "DecisionTree"
                    else py "LinearRegression") /\
    performance r = (if float_lt (mse dt) (mse lr) then dt else lr) /\
    data_source r = data_source_of ndp /\
    evaluated E lr /\ evaluated E dt.
Proof.
  intros H. unfold retrain_housing_model in H.
  destruct (res_out (run E (retrain_body ndp) w)) as [s | e] eqn:B.
  - erewrite try_except_returns in H by exact B. injection H as ->.
    unfold retrain_body in B. inv_bind B. unfold train_and_save in B.
    inv_bind_as B parts Hparts.
    destruct parts as [[[Xtr Xte] ytr] yte]. unfold fit_and_save in B.
    inv_bind B. inv_bind_as B mp Hmp. inv_bind_as B best Hbest.
    destruct best as [name bm]. unfold register_and_save in B. inv_bind B.
    apply train_models_returns in Hmp as (lr & dt & -> & Elr & Edt).
    apply report_best_returns in Hbest as [Hsel Hget].
    apply save_results_returns in B as [now B]. injection B as ->.
    destruct (select_best_two lr dt) as (S & Glr & Gdt).
    rewrite S in Hsel. injection Hsel as <-.
    exists lr, dt. simpl.
    destruct (float_lt (mse dt) (mse lr)).
    + rewrite Gdt in Hget. injection Hget as <-. auto 10.
    + rewrite Glr in Hget. injection Hget as <-. auto 10.
  - erewrite try_except_raises in H by exact B.
    destruct (is_Exception e); [|discriminate].
    unfold report_error in H. inv_bind H. simpl in H. discriminate.
Qed.

(** ** Requests the blocks never make *)

Ltac quiet_retrain :=
  repeat first
    [ quiet_step
    | progress unfold load_data, load_existing, split_data, train_models,
        train_and_log_model, end_run, print_comparison, report_best,
        register_best, save_results, register_and_save, fit_and_save,
        train_and_save, retrain_body, report_error, retrain_housing_model,
        ext ].

Lemma train_and_save_reads_nothing ndp df :
  quiet E is_read_csv (train_and_save ndp df).
Proof. quiet_retrain. Qed.

Lemma report_error_reads_nothing e : quiet E is_read_csv (report_error e).
Proof. quiet_retrain. Qed.

Lemma fit_and_save_splits_nothing ndp Xtr Xte ytr yte :
  quiet E is_split (fit_and_save ndp Xtr Xte ytr yte).
Proof. quiet_retrain. Qed.

Lemma load_data_splits_nothing ndp : quiet E is_split (load_data ndp).
Proof. quiet_retrain. Qed.

Lemma report_error_splits_nothing e : quiet E is_split (report_error e).
Proof. quiet_retrain. Qed.

Lemma retrain_splits_as_fixed ndp :
  quiet E is_other_split (retrain_housing_model ndp).
Proof. quiet_retrain. Qed.

(** ** Where the dataset is read from *)

Lemma reads_nothing {A} (m : M A) w :
  quiet E is_read_csv m -> csv_reads (res_trace (run E m w)) = [].
Proof.
  intros Q. apply flat_map_quiet with (P := is_read_csv); [exact Q|].
  intros [o r]; simpl. now destruct o.
Qed.

(** Only the loading block reads a dataset. *)
Lemma reads_of_retrain ndp w :
  csv_reads (res_trace (run E (retrain_housing_model ndp) w)) =
  csv_reads (res_trace (run E (load_data ndp) w)).
Proof.
  unfold retrain_housing_model, try_except.
  rewrite (trace_handle_with E (retrain_body ndp)).
  unfold retrain_body, bind.
  rewrite (out_handle_with E (load_data ndp)).
  rewrite (trace_handle_with E (load_data ndp)).
  unfold csv_reads. rewrite !flat_map_app. fold csv_reads.
  rewrite <- app_assoc. rewrite <- app_nil_r. f_equal.
  destruct (res_out (run E (load_data ndp) w)) as [df | e].
  - rewrite reads_nothing by apply train_and_save_reads_nothing.
    destruct (res_out (run E (train_and_save ndp df) _)) as [s | e];
      [reflexivity|].
    destruct (is_Exception e); [|reflexivity].
    apply reads_nothing, report_error_reads_nothing.
  - simpl. destruct (is_Exception e); [|reflexivity].
    apply reads_nothing, report_error_reads_nothing.
Qed.

Lemma load_existing_reads w :
  let r := run E load_existing w in
  (csv_reads (res_trace r) = [canonical_path] \/ csv_reads (res_trace r) = []) /\
  (forall df, res_out r = Returns df -> csv_reads (res_trace r) = [canonical_path]).
Proof.
  unfold load_existing. cbv zeta. rewrite run_bind, run_ext.
  unfold then_run; simpl.
  case_answer as [[] | e]; simpl.
  - case_answer as [df | e]; simpl; auto.
  - split; [auto | discriminate].
Qed.

(** The loading block reads the selected path, once, or fails before it
    reads. *)
Lemma load_data_reads ndp w :
  let r := run E (load_data ndp) w in
  (csv_reads (res_trace r) = [selected_path E w ndp] \/
   csv_reads (res_trace r) = []) /\
  (forall df, res_out r = Returns df ->
     csv_reads (res_trace r) = [selected_path E w ndp]).
Proof.
  unfold load_data, selected_path.
  destruct ndp as [p |]; [| apply load_existing_reads].
  destruct (str_truthy p); [| apply load_existing_reads].
  cbv zeta. rewrite run_bind, run_ext. unfold then_run; simpl.
  destruct (E (os_path_exists p) w) as [[[|] | e] w']; simpl.
  - case_answer as [[] | e]; simpl.
    + case_answer as [df | e]; simpl; auto.
    + split; [auto | discriminate].
  - apply load_existing_reads.
  - split; [auto | discriminate].
Qed.

(** A successful run has loaded its dataset. *)
Lemma success_loaded ndp w r :
  res_out (run E (retrain_housing_model ndp) w) = Returns (Results r) ->
  exists df, res_out (run E (load_data ndp) w) = Returns df.
Proof.
  intros H. unfold retrain_housing_model in H.
  destruct (res_out (run E (retrain_body ndp) w)) as [s | e] eqn:B.
  - unfold retrain_body in B. inv_bind_as B df Hdf. eauto.
  - erewrite try_except_raises in H by exact B.
    destruct (is_Exception e); [|discriminate].
    unfold report_error in H. inv_bind H. simpl in H. discriminate.
Qed.

Lemma reads_selected ndp w :
  let R := run E (retrain_housing_model ndp) w in
  (csv_reads (res_trace R) = [selected_path E w ndp] \/
   csv_reads (res_trace R) = []) /\
  (forall r, res_out R = Returns (Results r) ->
     csv_reads (res_trace R) = [selected_path E w ndp]).
Proof.
  cbv zeta. rewrite reads_of_retrain.
  destruct (load_data_reads ndp w) as [H1 H2]. split; [exact H1|].
  intros r Hr. apply success_loaded in Hr as [df Hdf]. eauto.
Qed.



(** ** The outer handler *)

Lemma report_error_out e w :
  res_out (run E (report_error e) w) =
  match fst (E (print (py "❌ Error during retraining: " ++ exn_str e)) w) with
  | Returns _ => Returns (ErrorDict (exn_str e))
  | Raises e' => Raises e'
  end.
Proof.
  unfold report_error. rewrite run_bind, run_ext. unfold then_run.
  cbn [res_out res_world res_trace].
  destruct (E (print (py "❌ Error during retraining: " ++ exn_str e)) w)
    as [[v | e'] w']; reflexivity.
Qed.

Lemma select_best_raises mp e :
  select_best mp = Raises e -> is_Exception e = true.
Proof.
  unfold select_best. apply py_min_raises. intros x e'.
  destruct (dict_getitem mp x) eqn:G; [discriminate|].
  intros [= <-]. now apply (dict_getitem_raises mp x).
Qed.

(** In an environment that raises only instances of [Exception], so does
    the body. *)
Lemma retrain_body_raises_only ndp :
  env_raises_only E (fun e => is_Exception e = true) ->
  raises_only E (fun e => is_Exception e = true) (retrain_body ndp).
Proof.
  intros H.
  unfold retrain_body, load_data, load_existing, train_and_save, split_data,
    fit_and_save, train_models, train_and_log_model, end_run, report_best,
    print_comparison, register_and_save, register_best, save_results, ext.
  repeat first
    [ raises_step H
    | apply raises_only_lift; intros e0;
      first [apply select_best_raises | apply dict_getitem_raises] ].
Qed.

(** C2 (as amended).  [retrain_housing_model] returns what its body
    returns.  When a step of the body raises an exception that is an
    instance of [Exception] and the handler's own [print] returns, the call
    returns [{"error": str(e)}].  An exception that is not an instance of
    [Exception] (KeyboardInterrupt, SystemExit, GeneratorExit) propagates
    to the caller, and so does an exception raised by the handler's
    [print].  Hence no exception crosses the call in an environment where
    every exception raised is an instance of [Exception] and [print]
    returns. *)
Theorem exceptions_become_error_summary ndp w :
  let B := run E (retrain_body ndp) w in
  let R := run E (retrain_housing_model ndp) w in
  let said e :=
    fst (E (print (py "❌ Error during retraining: " ++ exn_str e))
           (res_world B)) in
  (forall s, res_out B = Returns s -> res_out R = Returns s) /\
  (forall e, res_out B = Raises e -> is_Exception e = true ->
     said e = Returns tt -> res_out R = Returns (ErrorDict (exn_str e))) /\
  (forall e, res_out B = Raises e -> is_Exception e = false ->
     res_out R = Raises e) /\
  (forall e e', res_out B = Raises e -> is_Exception e = true ->
     said e = Raises e' -> res_out R = Raises e') /\
  (env_raises_only E (fun e => is_Exception e = true) ->
   (forall msg w', fst (E (print msg) w') = Returns tt) ->
   exists s, res_out R = Returns s).
Proof.
  cbv zeta. unfold retrain_housing_model.
  split; [| split; [| split; [| split]]];
    [| | | | intros Hexn Hprint;
             destruct (res_out (run E (retrain_body ndp) w)) as [s | e] eqn:B;
             [ exists s; now apply try_except_returns
             | exists (ErrorDict (exn_str e));
               erewrite try_except_raises by exact B;
               rewrite (retrain_body_raises_only ndp Hexn w e B);
               rewrite report_error_out; now rewrite Hprint ] ].
  - intros s H. now apply try_except_returns.
  - intros e H C P. erewrite try_except_raises by exact H. rewrite C.
    rewrite report_error_out. now rewrite P.
  - intros e H C. erewrite try_except_raises by exact H. now rewrite C.
  - intros e e' H C P. erewrite try_except_raises by exact H. rewrite C.
    rewrite report_error_out. now rewrite P.
Qed.

(** ** The registration *)

Lemma no_registration {A} (m : M A) w :
  quiet E is_register m ->
  Forall (fun ev => is_register (ev_op ev) = false) (res_trace (run E m w)).
Proof. intros Q; apply Q. Qed.

Lemma blocks_register_nothing :
  (forall ndp, quiet E is_register (load_data ndp)) /\
  (forall df, quiet E is_register (split_data df)) /\
  (forall a b c d, quiet E is_register (train_models a b c d)) /\
  (forall mp, quiet E is_register (report_best mp)) /\
  (forall e, quiet E is_register (report_error e)) /\
  (forall ndp mp name bm, quiet E is_register (save_results ndp mp name bm)).
Proof. repeat split; intros; quiet_retrain. Qed.

Lemma via_registration_bind {A} ndp (m : M A) (f : A -> M summary) w :
  quiet E is_register m ->
  (forall a w', via_registration E ndp
                  (run E (try_except (f a) is_Exception report_error) w')) ->
  via_registration E ndp
    (run E (try_except (bind m f) is_Exception report_error) w).
Proof.
  intros Q H. rewrite run_try_bind. unfold then_run.
  destruct (res_out (run E m w)) as [a | e]; cbn [res_out res_trace].
  - destruct (H a (res_world (run E m w)))
      as [N | (T & w1 & mp & name & bm & HT & Ht & Ho)].
    + left. apply Forall_app; split; [apply Q | exact N].
    + right. exists (res_trace (run E m w) ++ T), w1, mp, name, bm.
      repeat split.
      * apply Forall_app; split; [apply Q | exact HT].
      * rewrite Ht. apply app_assoc.
      * exact Ho.
  - left. apply Forall_app; split; [apply Q|].
    destruct (is_Exception e); [| constructor].
    apply blocks_register_nothing.
Qed.

(** Every run of the procedure passes through the registration, if it asks
    for one at all. *)
Lemma retrain_via_registration ndp w :
  via_registration E ndp (run E (retrain_housing_model ndp) w).
Proof.
  unfold retrain_housing_model, retrain_body.
  apply via_registration_bind; [apply blocks_register_nothing|].
  intros df w1. unfold train_and_save.
  apply via_registration_bind; [apply blocks_register_nothing|].
  intros [[[Xtr Xte] ytr] yte] w2. unfold fit_and_save.
  apply via_registration_bind; [unfold ext; quiet_step|].
  intros _ w3.
  apply via_registration_bind; [apply blocks_register_nothing|].
  intros mp w4.
  apply via_registration_bind; [apply blocks_register_nothing|].
  intros [name bm] w5.
  right. exists [], w5, mp, name, bm. repeat split. constructor.
Qed.

Lemma guarded_tail_shape ndp mp name bm w :
  let t := res_trace (guarded_tail E ndp mp name bm w) in
  t = Ev (registration bm) (fst (E (registration bm) w)) :: tl t /\
  Forall (fun ev => is_register (ev_op ev) = false) (tl t) /\
  (forall e, fst (E (registration bm) w) = Raises e ->
     is_Exception e = true -> Forall answered (tl t) ->
     exists now f,
       let r := RetrainResults now name bm mp (data_source_of ndp) in
       res_out (guarded_tail E ndp mp name bm w) = Returns (Results r) /\
       map ev_op (tl t) = after_failed_registration e r f).
Proof.
  unfold guarded_tail, register_and_save, register_best, save_results,
    report_error, registration, try_except, with_exit, bind, ext, call.
  cbv zeta. cbn.
  repeat match goal with
         | |- context [E ?o ?w] => destruct (E o w) as [[?v | ?e] ?w]; cbn
         | |- context [if is_Exception ?e then _ else _] =>
             destruct (is_Exception e) eqn:?; cbn
         end.
  all: split; [reflexivity | split; [repeat constructor |]].
  all: intros e' He' Hexc Hans; try discriminate He'.
  all: injection He' as ->; try congruence.
  all: repeat (apply Forall_cons_iff in Hans; destruct Hans as [? Hans]).
  all: try match goal with
           | H : answered _ |- _ => destruct H as [? H]; discriminate H
           end.
  all: eexists; eexists; split; reflexivity.
Qed.


(** ** The partition *)

Lemma splits_nothing {A} (m : M A) w :
  quiet E is_split m -> split_answers (res_trace (run E m w)) = [].
Proof.
  intros Q. apply flat_map_quiet with (P := is_split); [exact Q|].
  intros [o r]; simpl. now destruct o.
Qed.

Lemma read_answers_nothing {A} (m : M A) w :
  quiet E is_read_csv m -> read_answers (res_trace (run E m w)) = [].
Proof.
  intros Q. apply flat_map_quiet with (P := is_read_csv); [exact Q|].
  intros [o r]; simpl. now destruct o.
Qed.

(** What the loading block was answered by [pd.read_csv]. *)
Lemma load_data_answer ndp w :
  let r := run E (load_data ndp) w in
  match res_out r with
  | Returns df => read_answers (res_trace r) = [Returns df]
  | Raises e =>
      read_answers (res_trace r) = [] \/ read_answers (res_trace r) = [Raises e]
  end.
Proof.
  unfold load_data, load_existing, bind, ext, call. cbv zeta.
  destruct ndp as [p |]; [destruct (str_truthy p) |]; cbn;
    repeat match goal with
           | |- context [E ?o ?w] => destruct (E o w) as [[?v | ?e] ?w]; cbn
           | |- context [if ?b then _ else _] => destruct b; cbn
           end; auto.
Qed.

(** The answers to [train_test_split] in a run are those of the block that
    splits the loaded dataset. *)
Lemma split_answers_of_retrain ndp w :
  split_answers (res_trace (run E (retrain_housing_model ndp) w)) =
  match res_out (run E (load_data ndp) w) with
  | Returns df =>
      split_answers
        (res_trace (run E (split_data df) (res_world (run E (load_data ndp) w))))
  | Raises _ => []
  end.
Proof.
  unfold retrain_housing_model, retrain_body.
  rewrite run_try_bind. unfold then_run; cbn [res_trace].
  unfold split_answers at 1. rewrite flat_map_app. fold split_answers.
  rewrite splits_nothing by apply load_data_splits_nothing. cbn [app].
  destruct (res_out (run E (load_data ndp) w)) as [df | e].
  - unfold train_and_save. rewrite run_try_bind. unfold then_run; cbn [res_trace].
    unfold split_answers at 1. rewrite flat_map_app. fold split_answers.
    rewrite <- app_nil_r. f_equal.
    destruct (res_out (run E (split_data df) _)) as [[[[Xtr Xte] ytr] yte] | e].
    + unfold try_except. rewrite trace_handle_with.
      unfold split_answers. rewrite flat_map_app. fold split_answers.
      rewrite splits_nothing by apply fit_and_save_splits_nothing.
      destruct (res_out (run E (fit_and_save _ _ _ _ _) _)) as [s | e];
        [reflexivity|].
      destruct (is_Exception e); [|reflexivity].
      apply splits_nothing, report_error_splits_nothing.
    + destruct (is_Exception e); [|reflexivity].
      apply splits_nothing, report_error_splits_nothing.
  - destruct (is_Exception e); [|reflexivity].
    apply splits_nothing, report_error_splits_nothing.
Qed.

Lemma read_answers_of_retrain ndp w :
  read_answers (res_trace (run E (retrain_housing_model ndp) w)) =
  read_answers (res_trace (run E (load_data ndp) w)).
Proof.
  unfold retrain_housing_model, retrain_body.
  rewrite run_try_bind. unfold then_run; cbn [res_trace].
  unfold read_answers at 1. rewrite flat_map_app. fold read_answers.
  rewrite <- app_nil_r. f_equal.
  destruct (res_out (run E (load_data ndp) w)) as [df | e].
  - unfold try_except. rewrite trace_handle_with.
    unfold read_answers. rewrite flat_map_app. fold read_answers.
    rewrite read_answers_nothing by apply train_and_save_reads_nothing.
    destruct (res_out (run E (train_and_save _ _) _)) as [s | e];
      [reflexivity|].
    destruct (is_Exception e); [|reflexivity].
    apply read_answers_nothing, report_error_reads_nothing.
  - destruct (is_Exception e); [|reflexivity].
    apply read_answers_nothing, report_error_reads_nothing.
Qed.

(** The splitting block asks pandas for the features and the target, then
    scikit-learn for the partition with test fraction 0.2 and seed 42. *)
Lemma split_data_answers df w :
  split_answers (res_trace (run E (split_data df) w)) =
  match E (df_drop df (py "MedHouseVal")) w with
  | (Returns X, w1) =>
      match E (df_getitem df (py "MedHouseVal")) w1 with
      | (Returns y, w2) => [fst (E (train_test_split X y (2 # 10) 42) w2)]
      | (Raises _, _) => []
      end
  | (Raises _, _) => []
  end.
Proof.
  unfold split_data, bind, ext, call. cbn.
  repeat match goal with
         | |- context [E ?o ?w] => destruct (E o w) as [[?v | ?e] ?w]; cbn
         end; reflexivity.
Qed.


End AnyEnvironment.

Section TwoRuns.
Context {W1 W2 : Type} (E1 : env op resp W1) (E2 : env op resp W2).

Lemma split_data_agree df w1 w2 :
  libraries_agree E1 E2 ->
  split_answers (res_trace (run E1 (split_data df) w1)) =
  split_answers (res_trace (run E2 (split_data df) w2)).
Proof.
  intros (Hd & Hg & Hs). rewrite !split_data_answers.
  pose proof (Hd df (py "MedHouseVal") w1 w2) as D.
  destruct (E1 (df_drop df (py "MedHouseVal")) w1) as [[X | e] w1'],
           (E2 (df_drop df (py "MedHouseVal")) w2) as [[X' | e'] w2'];
    cbn in D; try discriminate D; try reflexivity.
  injection D as <-.
  pose proof (Hg df (py "MedHouseVal") w1' w2') as G.
  destruct (E1 (df_getitem df (py "MedHouseVal")) w1') as [[y | e] w1''],
           (E2 (df_getitem df (py "MedHouseVal")) w2') as [[y' | e'] w2''];
    cbn in G; try discriminate G; try reflexivity.
  injection G as <-. f_equal. apply Hs.
Qed.


End TwoRuns.


(** C2, counterexample.  The user interrupts the fit of the first model:
    [KeyboardInterrupt] is not an instance of [Exception], and the call
    raises it. *)
Lemma interrupted_fit_crosses_the_boundary :
  res_out (run (scripted interrupted_fit) (retrain_housing_model None) tt)
    = Raises (Exn KeyboardInterrupt []) /\
  ~ (forall (W : Type) (E : env op resp W) (w : W) ndp,
       exists s, res_out (run E (retrain_housing_model ndp) w) = Returns s).
Proof.
  assert (H : res_out (run (scripted interrupted_fit)
                         (retrain_housing_model None) tt)
              = Raises (Exn KeyboardInterrupt [])) by (vm_compute; reflexivity).
  split; [exact H|].
  intros C. destruct (C unit (scripted interrupted_fit) tt None) as [s Hs].
  rewrite H in Hs. discriminate Hs.
Qed.

(** The dataset cannot be read: the call returns the error summary. *)
Lemma exceptions_become_error_summary_witness :
  let E := scripted unreadable_dataset in
  let e := Exn FileNotFoundError (py "No such file") in
  res_out (run E (retrain_body None) tt) = Raises e /\
  is_Exception e = true /\
  res_out (run E (retrain_housing_model None) tt)
    = Returns (ErrorDict (py "No such file")) /\
  env_raises_only E (fun e => is_Exception e = true) /\
  (forall msg w, fst (E (print msg) w) = Returns tt) /\
  exists s, res_out (run E (retrain_housing_model None) tt) = Returns s.
Proof.
  cbv zeta.
  pose proof (exceptions_become_error_summary (scripted unreadable_dataset)
                None tt) as (_ & T2 & _ & _ & T5).
  assert (X : env_raises_only (scripted unreadable_dataset)
                (fun e => is_Exception e = true)).
  { intros o w e. destruct o; cbn; intros H; try discriminate H.
    now injection H as <-. }
  assert (P : forall msg w,
            fst (scripted unreadable_dataset (print msg) w) = Returns tt)
    by reflexivity.
  split; [vm_compute; reflexivity|]. split; [reflexivity|].
  split.
  { apply (T2 (Exn FileNotFoundError (py "No such file")));
      vm_compute; reflexivity. }
  split; [exact X|]. split; [exact P|]. exact (T5 X P).
Defined.






End RetrainFacts.

(* ===================================================================== *)
(** * Properties of generate_sample_data.py *)
(* ===================================================================== *)

Module GeneratorFacts.
Import Generator.
#[local] Open Scope prog_scope.

#[local] Arguments draw_sample : simpl never.
#[local] Arguments send_sample : simpl never.
#[local] Arguments on_exception : simpl never.
#[local] Arguments ext : simpl never.
#[local] Arguments py : simpl never.

(** The base samples have non-negative counts, income and age. *)
Lemma base_fields_nonnegative base :
  In base sample_variations ->
  (0 <= total_rooms base /\ 0 <= total_bedrooms base /\
   0 <= population base /\ 0 <= households base /\
   0 <= median_income base /\ 0 <= housing_median_age base)%Q.
Proof.
  intros [<- | [<- | [<- | [<- | [<- | []]]]]]; cbn;
    repeat split; discriminate.
Qed.

(** A factor between [lo] and [hi] keeps a non-negative value between [lo]
    and [hi] times itself. *)
Lemma scaled_within (lo hi v u : Q) :
  (0 <= v -> lo <= u <= hi -> lo * v <= v * u <= hi * v)%Q.
Proof.
  intros Hv [Hl Hh]. split.
  - rewrite (Qmult_comm v u). now apply Qmult_le_compat_r.
  - rewrite (Qmult_comm v u). now apply Qmult_le_compat_r.
Qed.

(** A term between [-d] and [d] keeps a value within [d] of itself. *)
Lemma shifted_within (d v u : Q) :
  (- d <= u <= d -> v - d <= v + u <= v + d)%Q.
Proof. intros [Hl Hh]. split; lra. Qed.

Section AnyEnvironment.
Context {W : Type} (E : env op resp W).

Lemma generator_ext_returns (o : op) w v :
  res_out (run E (ext o) w) = Returns v -> fst (E o w) = Returns v.
Proof. apply call_returns. Qed.

(** Every sample the script draws lies within the bounds around the base
    sample it was drawn from. *)
Lemma draw_sample_within_bounds w s :
  random_contract E ->
  res_out (run E draw_sample w) = Returns s ->
  exists base, In base sample_variations /\ within_bounds base s.
Proof.
  intros [Hchoice Hunif] H. unfold draw_sample in H.
  inv_bind_as H base Hbase. apply generator_ext_returns, Hchoice in Hbase.
  inv_bind_as H u1 H1. apply generator_ext_returns, Hunif in H1; [| discriminate].
  inv_bind_as H u2 H2. apply generator_ext_returns, Hunif in H2; [| discriminate].
  inv_bind_as H u3 H3. apply generator_ext_returns, Hunif in H3; [| discriminate].
  inv_bind_as H u4 H4. apply generator_ext_returns, Hunif in H4; [| discriminate].
  inv_bind_as H u5 H5. apply generator_ext_returns, Hunif in H5; [| discriminate].
  inv_bind_as H u6 H6. apply generator_ext_returns, Hunif in H6; [| discriminate].
  inv_bind_as H u7 H7. apply generator_ext_returns, Hunif in H7; [| discriminate].
  inv_bind_as H u8 H8. apply generator_ext_returns, Hunif in H8; [| discriminate].
  cbn in H. injection H as <-.
  exists base. split; [exact Hbase|].
  destruct (base_fields_nonnegative base Hbase) as (P1 & P2 & P3 & P4 & P5 & P6).
  unfold within_bounds; cbn.
  repeat (split;
          [first [now apply scaled_within | now apply shifted_within] |]).
  now apply shifted_within.
Qed.

Ltac always_generator :=
  repeat first
    [ always_step
    | progress unfold draw_sample, on_exception, ext ].

Lemma iteration_sends_jittered i counts :
  random_contract E -> always E sends_jittered (iteration i counts).
Proof.
  intros Hrand. unfold iteration. apply always_handle_with.
  - apply always_bind_post; [always_generator|].
    intros w s Hs. unfold send_sample. destruct counts as [ok ko].
    apply always_bind.
    + apply always_call. cbn. now apply (draw_sample_within_bounds w).
    + intros response. always_generator.
  - intros counts'. always_generator.
  - intros e. always_generator.
Qed.

Lemma generate_sends_jittered :
  random_contract E -> always E sends_jittered generate_sample_requests.
Proof.
  intros Hrand. unfold generate_sample_requests.
  apply always_bind; [always_generator|]. intros _.
  apply always_bind.
  - apply always_for_fold. intros i counts. now apply iteration_sends_jittered.
  - intros [ok ko]. always_generator.
Qed.


End AnyEnvironment.

(** The contracts hold of the concrete environment. *)
Lemma scripted_keeps_contract : random_contract scripted.
Proof.
  split.
  - intros [| y seq] w x H; cbn in H; [discriminate H|].
    injection H as <-. now left.
  - intros a b w x L H. cbn in H. injection H as <-.
    split; [apply Qle_refl | exact L].
Defined.


End GeneratorFacts.

(* ===================================================================== *)
(** * Properties of test_api.py *)
(* ===================================================================== *)

Module SmokeTestFacts.
Import SmokeTest.
#[local] Open Scope prog_scope.

#[local] Arguments ext : simpl never.
#[local] Arguments py : simpl never.
#[local] Arguments ok_line : simpl never.
#[local] Arguments http_line : simpl never.
#[local] Arguments down_line : simpl never.
#[local] Arguments error_line : simpl never.
#[local] Arguments label_of : simpl never.
#[local] Arguments str_of_list : simpl never.
#[local] Arguments str_eqb : simpl never.
#[local] Arguments base_url : simpl never.

Section AnyEnvironment.
Context {W : Type} (E : env op resp W).

(** The first line a check of [test_api_endpoints] prints is the verdict
    on the answer to its request. *)
Lemma check_endpoint_first_line endpoint method description w :
  let a := fst (E (requests_get (base_url ++ endpoint) 5) w) in
  first_line (res_trace (run E (check_endpoint (endpoint, method, description)) w)) =
  match a with
  | Raises e =>
      if is_ConnectionError e || is_Exception e
      then Some (verdict_line (label_of endpoint description) (classify a))
      else None
  | Returns _ => Some (verdict_line (label_of endpoint description) (classify a))
  end.
Proof.
  unfold check_endpoint, on_exception, bind, ext, call, first_line. cbn.
  destruct (E (requests_get (base_url ++ endpoint) 5) w) as [[r | e] w1]; cbn.
  - destruct (status_code r =? 200)%Z; cbn; reflexivity.
  - destruct (is_ConnectionError e); cbn; [reflexivity|].
    destruct (is_Exception e); cbn; reflexivity.
Qed.

(** The first line [test_prediction_endpoint] prints.  The body of a
    200 answer is decoded before anything is printed: the success line
    needs the decoding to return. *)
Lemma prediction_first_line w :
  let a := E (requests_post (base_url ++ py "/predict") sample_data 10) w in
  first_line (res_trace (run E test_prediction_endpoint w)) =
  match fst a with
  | Returns r =>
      if (status_code r =? 200)%Z then
        match fst (E (response_json r) (snd a)) with
        | Returns _ => Some (ok_line (py "Prediction endpoint"))
        | Raises e =>
            if is_ConnectionError e
            then Some (down_line (py "Prediction endpoint"))
            else if is_Exception e
            then Some (error_line (py "Prediction endpoint") e)
            else None
        end
      else Some (http_line (py "Prediction endpoint") (status_code r))
  | Raises e =>
      if is_ConnectionError e
      then Some (down_line (py "Prediction endpoint"))
      else if is_Exception e
      then Some (error_line (py "Prediction endpoint") e)
      else None
  end.
Proof.
  unfold test_prediction_endpoint, on_exception, bind, ext, call, first_line.
  cbn.
  destruct (E (requests_post (base_url ++ py "/predict") sample_data 10) w)
    as [[r | e] w1]; cbn.
  - destruct (status_code r =? 200)%Z; cbn; [| reflexivity].
    destruct (E (response_json r) w1) as [[j | e] w2]; cbn; [reflexivity|].
    destruct (is_ConnectionError e); cbn; [reflexivity|].
    destruct (is_Exception e); cbn; reflexivity.
  - destruct (is_ConnectionError e); cbn; [reflexivity|].
    destruct (is_Exception e); cbn; reflexivity.
Qed.

(** A 200 answer whose body cannot be decoded is reported as an error, and
    nothing else is printed. *)
Lemma prediction_undecodable w r w1 e :
  E (requests_post (base_url ++ py "/predict") sample_data 10) w
    = (Returns r, w1) ->
  status_code r = 200%Z ->
  fst (E (response_json r) w1) = Raises e ->
  is_ConnectionError e = false -> is_Exception e = true ->
  printed (res_trace (run E test_prediction_endpoint w)) =
    [error_line (py "Prediction endpoint") e].
Proof.
  intros A S D C X.
  unfold test_prediction_endpoint, on_exception, bind, ext, call.
  cbn. rewrite A. cbn. rewrite S. cbn.
  destruct (E (response_json r) w1) as [[j | e'] w2]; cbn in D |- *;
    [discriminate D|].
  injection D as ->. rewrite C, X. cbn.
  destruct (E (print (error_line (py "Prediction endpoint") e)) w2)
    as [[[] | e'] w3]; reflexivity.
Qed.

Lemma ConnectionError_is_Exception e :
  is_ConnectionError e = true -> is_Exception e = true.
Proof. unfold is_ConnectionError, is_Exception. now destruct (exn_cls e). Qed.

(** ** No exception crosses a check in a polite environment *)

Section Polite.
Hypothesis Hpolite : polite E.

(** One answered request of a run in a polite environment. *)
Ltac polite_step :=
  match goal with
  | |- context [E ?o ?w] =>
      let A := fresh "A" in
      let X := fresh "X" in
      destruct (E o w) as [[?v | ?e] ?w'] eqn:A; cbn;
      [ | first
            [ match o with
              | print ?m =>
                  exfalso; pose proof (proj1 Hpolite m w) as X;
                  rewrite A in X; discriminate X
              end
            | pose proof (proj2 Hpolite o w) as X; rewrite A in X;
              specialize (X _ eq_refl) ] ]
  | |- context [if is_ConnectionError ?e then _ else _] =>
      destruct (is_ConnectionError e); cbn
  | X : is_Exception ?e = true |- context [if is_Exception ?e then _ else _] =>
      rewrite X; cbn
  | |- context [if ?b then _ else _] => destruct b; cbn
  | |- context [match json_get ?j ?k ?d with _ => _ end] =>
      let G := fresh "G" in
      destruct (json_get j k d) as [?v | ?e] eqn:G; cbn;
      [ | assert (is_Exception e = true)
            by (unfold json_get in G; destruct (json_items j);
                [discriminate G | injection G as <-; reflexivity]) ]
  end.

Lemma check_endpoint_returns item w :
  res_out (run E (check_endpoint item) w) = Returns tt.
Proof.
  destruct item as [[endpoint method] description].
  unfold check_endpoint, on_exception, bind, ext, call, lift. cbn.
  repeat polite_step; try reflexivity;
    repeat match goal with v : resp (print _) |- _ => destruct v end;
    reflexivity.
Qed.

Lemma test_api_endpoints_returns w :
  res_out (run E test_api_endpoints w) = Returns tt.
Proof.
  unfold test_api_endpoints. rewrite run_bind. unfold then_run.
  cbn [res_out res_world].
  unfold ext at 1. rewrite run_call. cbn [res_out res_world].
  rewrite (proj1 Hpolite).
  apply for_each_returns. intros; apply check_endpoint_returns.
Qed.

Lemma test_prediction_endpoint_returns w :
  res_out (run E test_prediction_endpoint w) = Returns tt.
Proof.
  unfold test_prediction_endpoint, on_exception, bind, ext, call, lift. cbn.
  repeat polite_step; try reflexivity;
    repeat match goal with v : resp (print _) |- _ => destruct v end;
    reflexivity.
Qed.

End Polite.

(** C7 (as amended).  The first line each check of [test_api_endpoints]
    prints is the verdict on the answer to its request: success for status
    200, a failure line for any other status, a warning for a refused
    connection, an error line for any other instance of [Exception].
    [test_prediction_endpoint] does the same for every answer but a 200:
    it decodes the body of a 200 answer first, prints success when the
    decoding returns, and reports the 200 answer as an error, printing
    nothing else, when the decoding raises.  In an environment where the
    console accepts every line and every exception raised is an instance of
    [Exception], neither check raises. *)
Theorem endpoint_checks_classify_answers :
  (forall endpoint method description w,
     let a := fst (E (requests_get (base_url ++ endpoint) 5) w) in
     (forall e, a = Raises e -> is_Exception e = true) ->
     first_line
       (res_trace (run E (check_endpoint (endpoint, method, description)) w)) =
     Some (verdict_line (label_of endpoint description) (classify a))) /\
  (forall w,
     let a := fst (E (requests_post (base_url ++ py "/predict") sample_data 10) w) in
     (forall r, a = Returns r -> status_code r <> 200%Z) ->
     (forall e, a = Raises e -> is_Exception e = true) ->
     first_line (res_trace (run E test_prediction_endpoint w)) =
     Some (verdict_line (py "Prediction endpoint") (classify a))) /\
  (forall w r w1,
     E (requests_post (base_url ++ py "/predict") sample_data 10) w
       = (Returns r, w1) ->
     status_code r = 200%Z ->
     (forall j, fst (E (response_json r) w1) = Returns j ->
        first_line (res_trace (run E test_prediction_endpoint w)) =
        Some (ok_line (py "Prediction endpoint"))) /\
     (forall e, fst (E (response_json r) w1) = Raises e ->
        is_ConnectionError e = false -> is_Exception e = true ->
        printed (res_trace (run E test_prediction_endpoint w)) =
        [error_line (py "Prediction endpoint") e])) /\
  (polite E ->
   forall w, res_out (run E test_api_endpoints w) = Returns tt /\
             res_out (run E test_prediction_endpoint w) = Returns tt).
Proof.
  split; [| split; [| split]].
  - intros endpoint method description w a H.
    rewrite check_endpoint_first_line. fold a.
    destruct a as [r | e] eqn:A; [reflexivity|].
    rewrite (H e eq_refl). now rewrite orb_true_r.
  - intros w a Hr He. rewrite prediction_first_line. fold a.
    destruct a as [r | e] eqn:A; cbn.
    + destruct (status_code r =? 200)%Z eqn:S; [| reflexivity].
      apply Z.eqb_eq in S. now destruct (Hr r eq_refl).
    + rewrite (He e eq_refl). now destruct (is_ConnectionError e).
  - intros w r w1 A S. split.
    + intros j D. rewrite prediction_first_line. cbv zeta. rewrite A. cbn.
      rewrite S. cbn.
      destruct (E (response_json r) w1) as [[j' | e] w2]; cbn in D |- *;
        [reflexivity | discriminate D].
    + intros e D C X. now apply (prediction_undecodable w r w1).
  - intros P w. split.
    + now apply test_api_endpoints_returns.
    + now apply test_prediction_endpoint_returns.
Qed.

End AnyEnvironment.

(** C7, counterexample.  The service answers the prediction request with
    status 200 and a body that is not JSON: the answer is a success by its
    status, yet the only line printed is an error line. *)
Lemma undecodable_200_is_not_printed_as_success :
  let a := fst (not_json (requests_post (base_url ++ py "/predict")
                            sample_data 10) tt) in
  let lines := printed (res_trace (run not_json test_prediction_endpoint tt)) in
  classify a = Success /\
  lines = [py "❌ Prediction endpoint: Expecting value: line 1 column 1 (char 0)"] /\
  ~ In (verdict_line (py "Prediction endpoint") (classify a)) lines.
Proof.
  cbv zeta.
  assert (L : printed (res_trace (run not_json test_prediction_endpoint tt)) =
              [py "❌ Prediction endpoint: Expecting value: line 1 column 1 (char 0)"])
    by (vm_compute; reflexivity).
  split; [reflexivity|]. split; [exact L|].
  rewrite L. intros [H | []]. vm_compute in H. discriminate H.
Qed.

Lemma scripted_polite get post decode :
  (forall url e, get url <> Raises e \/ is_Exception e = true) ->
  (forall e, post <> Raises e \/ is_Exception e = true) ->
  (forall r e, decode r <> Raises e \/ is_Exception e = true) ->
  polite (scripted get post decode).
Proof.
  intros Hg Hp Hd. split; [reflexivity|].
  intros [m | url t | url j t | r] w e H; cbn in H.
  - discriminate H.
  - destruct (Hg url e); congruence.
  - destruct (Hp e); congruence.
  - destruct (Hd r e); congruence.
Qed.

(** The mocked service of the specification, health 200 and prediction
    500, and a service that answers 200 to everything. *)
Lemma endpoint_checks_classify_answers_witness :
  first_line
    (res_trace (run health_ok_predict_500
                  (check_endpoint (py "/health", py "GET", py "Health check")) tt))
    = Some (py "✅ Health check (/health): OK") /\
  first_line (res_trace (run health_ok_predict_500 test_prediction_endpoint tt))
    = Some (py "❌ Prediction endpoint: HTTP 500") /\
  first_line (res_trace (run all_ok test_prediction_endpoint tt))
    = Some (py "✅ Prediction endpoint: OK") /\
  polite health_ok_predict_500 /\
  res_out (run health_ok_predict_500 test_api_endpoints tt) = Returns tt /\
  res_out (run health_ok_predict_500 test_prediction_endpoint tt) = Returns tt.
Proof.
  assert (P : polite health_ok_predict_500)
    by (apply scripted_polite; intros; left; discriminate).
  pose proof (endpoint_checks_classify_answers health_ok_predict_500)
    as (T1 & T2 & _ & T4).
  pose proof (endpoint_checks_classify_answers all_ok) as (_ & _ & T3 & _).
  split.
  { etransitivity.
    - apply (T1 (py "/health") (py "GET") (py "Health check") tt).
      intros e H. vm_compute in H. discriminate H.
    - vm_compute. reflexivity. }
  split.
  { etransitivity.
    - apply (T2 tt).
      + intros r H. vm_compute in H. injection H as <-. discriminate.
      + intros e H. vm_compute in H. discriminate H.
    - vm_compute. reflexivity. }
  split.
  { destruct (T3 tt (Response 200 (py "{}")) tt eq_refl eq_refl) as [T3a _].
    etransitivity; [exact (T3a _ eq_refl) | vm_compute; reflexivity]. }
  split; [exact P|]. exact (T4 P tt).
Defined.

End SmokeTestFacts.

(* ===================================================================== *)
(** * Properties of troubleshoot_monitoring.py *)
(* ===================================================================== *)

Module TroubleshooterFacts.
Import Troubleshooter.
#[local] Open Scope prog_scope.

#[local] Arguments ext : simpl never.
#[local] Arguments py : simpl never.

(** ** The listing of containers *)

(** The guard of lines 85 and 87 is [qualifies]. *)
Lemma record_line_qualifies d line :
  record_line d line =
  if qualifies line then dict_set d (name_of line) (entry_of line) else d.
Proof.
  unfold record_line, qualifies, name_of, entry_of, state_of.
  destruct (str_truthy (strip line)); [|reflexivity].
  now destruct (4 <=? List.length (split_ws line))%nat.
Qed.

Lemma fold_record_line_get lines d name :
  dict_get (fold_left record_line lines d) name =
  match find (decides name) (rev lines) with
  | Some line => Some (entry_of line)
  | None => dict_get d name
  end.
Proof.
  revert d. induction lines as [| l lines IH]; intros d; simpl; [reflexivity|].
  rewrite IH, find_app. destruct (find (decides name) (rev lines)); [reflexivity|].
  simpl. rewrite record_line_qualifies. unfold decides.
  destruct (qualifies l); simpl; [|reflexivity].
  rewrite dict_get_set. now destruct (str_eqb (name_of l) name).
Qed.

(** ** Texts that cannot occur in the list of issues *)

Lemma no_bigram_tail a b x s :
  no_bigram a b (x :: s) = true -> no_bigram a b s = true.
Proof.
  destruct s as [| y s]; [reflexivity|]. simpl.
  intros H. now apply andb_prop in H as [_ H].
Qed.

Lemma no_bigram_mid a b pre post :
  no_bigram a b (pre ++ a :: b :: post) = false.
Proof.
  induction pre as [| x pre IH].
  - simpl. unfold char_eqb. now rewrite !N.eqb_refl.
  - change ((x :: pre) ++ a :: b :: post) with (x :: (pre ++ a :: b :: post)).
    destruct (no_bigram a b (x :: pre ++ a :: b :: post)) eqn:H; [|reflexivity].
    apply no_bigram_tail in H. congruence.
Qed.

(** A string without the pair [a], [b] contains no text with the pair. *)
Lemma no_bigram_not_in a b k1 k2 s :
  no_bigram a b s = true -> str_in (k1 ++ a :: b :: k2) s = false.
Proof.
  induction s as [| x s IH]; intros H.
  - simpl. destruct k1; reflexivity.
  - change (str_in (k1 ++ a :: b :: k2) (x :: s))
      with (startswith (x :: s) (k1 ++ a :: b :: k2) ||
            str_in (k1 ++ a :: b :: k2) s).
    rewrite (IH (no_bigram_tail _ _ _ _ H)), orb_false_r.
    destruct (startswith (x :: s) (k1 ++ a :: b :: k2)) eqn:S; [|reflexivity].
    apply startswith_app in S as [post S]. rewrite S, <- app_assoc in H.
    simpl in H. now rewrite no_bigram_mid in H.
Qed.

Lemma no_bigram_app a b s1 s2 :
  no_bigram a b s1 = true -> clean a b s2 = true ->
  no_bigram a b (s1 ++ s2) = true.
Proof.
  unfold clean. intros H1 H2. apply andb_prop in H2 as [H2 C].
  induction s1 as [| x s1 IH]; [exact H2|].
  destruct s1 as [| y s1].
  - destruct s2 as [| y s2]; [reflexivity|].
    transitivity (negb (char_eqb x a && char_eqb y b) &&
                  no_bigram a b (y :: s2)); [reflexivity|].
    rewrite H2. simpl in C.
    apply negb_true_iff in C. rewrite C. now rewrite andb_false_r.
  - transitivity (negb (char_eqb x a && char_eqb y b) &&
                  no_bigram a b ((y :: s1) ++ s2)); [reflexivity|].
    change (no_bigram a b (x :: y :: s1))
      with (negb (char_eqb x a && char_eqb y b) && no_bigram a b (y :: s1))
      in H1.
    apply andb_prop in H1 as [H1 H1'].
    rewrite H1. now apply IH.
Qed.

Lemma clean_app a b s1 s2 :
  clean a b s1 = true -> clean a b s2 = true -> clean a b (s1 ++ s2) = true.
Proof.
  intros H1 H2. pose proof H1 as H1'. unfold clean in H1'.
  apply andb_prop in H1' as [N1 C1].
  unfold clean. rewrite no_bigram_app by assumption.
  destruct s1 as [| x s1]; [| exact C1].
  unfold clean in H2. now apply andb_prop in H2 as [_ H2].
Qed.

Lemma clean_join a b sep parts :
  clean a b sep = true ->
  Forall (fun p => clean a b p = true) parts ->
  clean a b (join sep parts) = true.
Proof.
  intros Hs H. induction H as [| p parts Hp H IH]; [reflexivity|].
  destruct parts as [| q parts]; [exact Hp|].
  change (join sep (p :: q :: parts)) with (p ++ sep ++ join sep (q :: parts)).
  now repeat apply clean_app.
Qed.

(** A text with the pair [a], [b] does not occur in the text of a list of
    issues whose quoted forms are all clean. *)
Lemma text_not_in_issues a b k1 k2 issues :
  clean a b (py "[") = true -> clean a b (py ", ") = true ->
  clean a b (py "]") = true ->
  Forall (fun i => clean a b (repr_str i) = true) issues ->
  str_in (k1 ++ a :: b :: k2) (str_of_list issues) = false.
Proof.
  intros Hl Hs Hr H. apply no_bigram_not_in.
  assert (C : clean a b (str_of_list issues) = true).
  { unfold str_of_list. repeat apply clean_app; trivial.
    apply clean_join; [exact Hs|]. now apply Forall_map. }
  unfold clean in C. now apply andb_prop in C as [C _].
Qed.

(** The quoted forms of the issues of the port and health checks hold none
    of the pairs [Do], [do], [co], [se], [cs]. *)
Lemma port_and_health_issues_clean a b issues :
  In (a, b) [(68, 111); (100, 111); (99, 111); (115, 101); (99, 115)]%N ->
  Forall (fun i => In i port_issues_all \/ In i health_issues_all) issues ->
  Forall (fun i => clean a b (repr_str i) = true) issues.
Proof.
  intros P H. eapply Forall_impl; [| exact H]. clear H. intros i H.
  apply in_or_app in H.
  assert (A : forallb (fun i => clean a b (repr_str i))
                (port_issues_all ++ health_issues_all) = true).
  { destruct P as [[= <- <-] | [[= <- <-] | [[= <- <-] | [[= <- <-] |
      [[= <- <-] | []]]]]]; vm_compute; reflexivity. }
  rewrite forallb_forall in A. now apply A.
Qed.

Section AnyEnvironment.
Context {W : Type} (E : env op resp W).

(** C8 (as amended).  [check_container_status] returns the parsing of the
    listing when [docker-compose ps] succeeds, and the empty mapping when
    it fails.  The parsing skips the two header lines; a remaining line
    counts when it is not blank and has at least four white-space separated
    fields, and a line with fewer fields is skipped.  Every line that
    counts yields an entry under its first field; the entry of a name comes
    from the last line that counts and bears the name, its status is the
    last field of that line, and it is running exactly when the status
    contains [Up]. *)
Theorem container_status_follows_listing :
  (forall w r,
     fst (E (subprocess_run
               [py "docker-compose"; py "-f"; compose_file; py "ps"] 30) w)
       = Returns r ->
     res_out (run E check_container_status w) =
     Returns (if (returncode r =? 0)%Z then parse_container_status (stdout r)
              else [])) /\
  (forall output name,
     dict_get (parse_container_status output) name =
     option_map entry_of (find (decides name) (rev (listed_lines output)))) /\
  (forall output line,
     In line (listed_lines output) -> qualifies line = true ->
     exists info,
       dict_get (parse_container_status output) (name_of line) = Some info) /\
  (forall output name info,
     dict_get (parse_container_status output) name = Some info ->
     running info = str_in (py "Up") (status info) /\
     exists line,
       In line (listed_lines output) /\
       str_truthy (strip line) = true /\
       (4 <= List.length (split_ws line))%nat /\
       hd [] (split_ws line) = name /\
       last (split_ws line) [] = status info).
Proof.
  assert (G : forall output name,
            dict_get (parse_container_status output) name =
            option_map entry_of
              (find (decides name) (rev (listed_lines output)))).
  { intros output name. unfold parse_container_status.
    fold (listed_lines output). rewrite fold_record_line_get.
    now destruct (find (decides name) (rev (listed_lines output))). }
  split; [| split; [exact G | split]].
  - intros w r A.
    unfold check_container_status, try_except, bind, ext, call. cbn.
    destruct (E (subprocess_run
                   [py "docker-compose"; py "-f"; compose_file; py "ps"] 30) w)
      as [[r' | e] w']; cbn in A |- *; [| discriminate A].
    injection A as ->. now destruct (returncode r =? 0)%Z.
  - intros output line I Q. rewrite G.
    destruct (find (decides (name_of line)) (rev (listed_lines output)))
      as [l |] eqn:F; [simpl; eauto|].
    apply find_none with (x := line) in F; [| now apply in_rev in I].
    unfold decides in F. now rewrite Q, str_eqb_refl in F.
  - intros output name info H. rewrite G in H.
    destruct (find (decides name) (rev (listed_lines output)))
      as [l |] eqn:F; [| discriminate H].
    injection H as <-. apply find_some in F as [I D].
    unfold decides, qualifies in D.
    apply andb_prop in D as [Q N]. apply andb_prop in Q as [Q1 Q2].
    split; [reflexivity|]. exists l.
    repeat split; trivial.
    + now apply in_rev.
    + now apply Nat.leb_le.
    + now apply str_eqb_eq.
Qed.

(** ** The issues of the port and health checks *)

Lemma troubleshooter_ext_returns (o : op) w v :
  res_out (run E (ext o) w) = Returns v -> fst (E o w) = Returns v.
Proof. apply call_returns. Qed.

(** The port check adds issues of the form [Port <port> not accessible]
    only, for ports of the registry. *)
Lemma port_phase_adds issues w issues' :
  res_out (run E (port_phase issues) w) = Returns issues' ->
  exists added,
    issues' = issues ++ added /\
    Forall (fun i => In i port_issues_all) added.
Proof.
  unfold port_phase. intros H. inv_bind H. inv_bind_as H port_status Hps.
  refine (for_fold_returns_inv E
            (fun s => exists added,
               s = issues ++ added /\
               Forall (fun i => In i port_issues_all) added)
            _ _ _ _ _ _ _ H).
  - intros [service available] s w' s' _ (added & -> & Hadded) H0.
    rename H0 into Hb.
    inv_bind_as Hb info Hinfo. rewrite run_lift in Hinfo. cbn in Hinfo.
    unfold dict_getitem in Hinfo.
    destruct (dict_get services service) as [info' |] eqn:G;
      [| discriminate Hinfo].
    injection Hinfo as ->. apply dict_get_In in G.
    destruct available; inv_bind Hb; cbn in Hb; injection Hb as <-.
    + exists added. auto.
    + exists (added ++ [port_issue (port info)]).
      split; [now rewrite app_assoc|].
      apply Forall_app; split; [exact Hadded|]. constructor; [|constructor].
      unfold port_issues_all.
      now apply (in_map (fun item => port_issue (port (snd item))) _ _ G).
  - exists []. split; [now rewrite app_nil_r | constructor].
Qed.

(** The health check answers for services of the registry. *)
Lemma check_service_health_keys w health_status :
  res_out (run E check_service_health w) = Returns health_status ->
  forall service, In service (dict_keys health_status) ->
                  In service (dict_keys services).
Proof.
  unfold check_service_health. intros H.
  refine (for_fold_returns_inv E
            (fun d => forall service, In service (dict_keys d) ->
                                      In service (dict_keys services))
            _ _ _ _ _ _ _ H).
  - intros [service info] d w' d' I Hd Hb k Hk.
    assert (S : In service (dict_keys services))
      by (apply (in_map fst _ _ I)).
    apply try_except_returns_inv in Hb as [Hb | (e & _ & _ & Hb)].
    + inv_bind Hb. cbn in Hb. injection Hb as <-.
      apply dict_keys_set in Hk as [-> | Hk]; auto.
    + cbn in Hb. injection Hb as <-.
      apply dict_keys_set in Hk as [-> | Hk]; auto.
  - intros k [].
Qed.

(** The health check adds issues of the form [Service <name> unhealthy]
    only, for services of the registry. *)
Lemma health_phase_adds issues w issues' :
  res_out (run E (health_phase issues) w) = Returns issues' ->
  exists added,
    issues' = issues ++ added /\
    Forall (fun i => In i health_issues_all) added.
Proof.
  unfold health_phase. intros H. inv_bind H. inv_bind_as H health_status Hhs.
  pose proof (check_service_health_keys _ _ Hhs) as K.
  refine (for_fold_returns_inv E
            (fun s => exists added,
               s = issues ++ added /\
               Forall (fun i => In i health_issues_all) added)
            _ _ _ _ _ _ _ H).
  - intros [service h] s w' s' I (added & -> & Hadded) Hb.
    assert (S : In service (dict_keys services))
      by (apply K; apply (in_map fst _ _ I)).
    destruct (get_healthy h); inv_bind Hb; cbn in Hb; injection Hb as <-.
    + exists added. auto.
    + exists (added ++ [health_issue service]).
      split; [now rewrite app_assoc|].
      apply Forall_app; split; [exact Hadded|]. constructor; [|constructor].
      unfold health_issues_all, dict_keys in *.
      apply in_map_iff in S as (item & <- & S).
      now apply (in_map (fun item => health_issue (fst item)) _ _ S).
  - exists []. split; [now rewrite app_nil_r | constructor].
Qed.

(** C10.  The port check of [run_diagnostics] adds only issues of the form
    [Port <port> not accessible] and the health check only issues of the
    form [Service <name> unhealthy], for the ports and services of the
    registry.  For every list of such issues, neither [port conflicts] nor
    [services not healthy] occurs in the text [suggest_fixes] searches, and
    [suggest_fixes] returns no hint at all. *)
Theorem port_and_health_failures_get_no_hint :
  (forall issues w issues',
     res_out (run E (port_phase issues) w) = Returns issues' ->
     exists added, issues' = issues ++ added /\
                   Forall (fun i => In i port_issues_all) added) /\
  (forall issues w issues',
     res_out (run E (health_phase issues) w) = Returns issues' ->
     exists added, issues' = issues ++ added /\
                   Forall (fun i => In i health_issues_all) added) /\
  (forall issues,
     Forall (fun i => In i port_issues_all \/ In i health_issues_all) issues ->
     str_in (py "port conflicts") (str_of_list issues) = false /\
     str_in (py "services not healthy") (str_of_list issues) = false /\
     suggest_fixes issues = []).
Proof.
  split; [exact port_phase_adds | split; [exact health_phase_adds |]].
  intros issues H.
  assert (A : forall a b k1 k2,
            In (a, b) [(68, 111); (100, 111); (99, 111); (115, 101); (99, 115)]%N ->
            str_in (k1 ++ a :: b :: k2) (str_of_list issues) = false).
  { intros a b k1 k2 P. apply text_not_in_issues.
    1-3: destruct P as [[= <- <-] | [[= <- <-] | [[= <- <-] | [[= <- <-] |
           [[= <- <-] | []]]]]]; vm_compute; reflexivity.
    now apply port_and_health_issues_clean. }
  assert (K1 : str_in (py "Docker is not running") (str_of_list issues) = false).
  { replace (py "Docker is not running")
      with ([] ++ 68%N :: 111%N :: (py "cker is not running")) by (vm_compute; reflexivity).
    apply A. simpl; auto 6. }
  assert (K2 : str_in (py "docker-compose.monitoring.yml not found") (str_of_list issues) = false).
  { replace (py "docker-compose.monitoring.yml not found")
      with ([] ++ 100%N :: 111%N :: (py "cker-compose.monitoring.yml not found")) by (vm_compute; reflexivity).
    apply A. simpl; auto 6. }
  assert (K3 : str_in (py "containers not running") (str_of_list issues) = false).
  { replace (py "containers not running")
      with ([] ++ 99%N :: 111%N :: (py "ntainers not running")) by (vm_compute; reflexivity).
    apply A. simpl; auto 6. }
  assert (K4 : str_in (py "port conflicts") (str_of_list issues) = false).
  { replace (py "port conflicts")
      with ((py "port ") ++ 99%N :: 111%N :: (py "nflicts")) by (vm_compute; reflexivity).
    apply A. simpl; auto 6. }
  assert (K5 : str_in (py "services not healthy") (str_of_list issues) = false).
  { replace (py "services not healthy")
      with ([] ++ 115%N :: 101%N :: (py "rvices not healthy")) by (vm_compute; reflexivity).
    apply A. simpl; auto 6. }
  assert (K6 : str_in (py "no metrics") (str_of_list issues) = false).
  { replace (py "no metrics")
      with ((py "no metri") ++ 99%N :: 115%N :: []) by (vm_compute; reflexivity).
    apply A. simpl; auto 6. }
  split; [exact K4 | split; [exact K5 |]].
  unfold suggest_fixes. now rewrite K1, K2, K3, K4, K5, K6.
Qed.

End AnyEnvironment.

(** C8, counterexample.  In a listing of the older docker-compose a
    container without published ports has three fields: its line is not
    blank, the parsing in the words of the specification gives it an entry,
    and [check_container_status] returns no entry at all. *)
Lemma three_field_line_yields_no_entry :
  let line := py "web   nginx   Up" in
  In line (listed_lines three_field_listing) /\
  str_truthy (strip line) = true /\
  spec_parse_container_status three_field_listing
    = [(py "web", ContainerInfo (py "Up") true)] /\
  parse_container_status three_field_listing = [] /\
  res_out (run (scripted three_field_listing) check_container_status tt)
    = Returns [].
Proof. cbv zeta. repeat split; vm_compute; auto. Qed.

(** A listing of two containers with four fields each. *)
Lemma container_status_follows_listing_witness :
  res_out (run (scripted four_field_listing) check_container_status tt)
    = Returns [(py "web", ContainerInfo (py "Up") true);
               (py "db", ContainerInfo (py "Exit") false)] /\
  In (py "web   nginx   web   Up") (listed_lines four_field_listing) /\
  qualifies (py "web   nginx   web   Up") = true /\
  (exists info,
     dict_get (parse_container_status four_field_listing)
       (name_of (py "web   nginx   web   Up")) = Some info) /\
  dict_get (parse_container_status four_field_listing) (py "db")
    = Some (ContainerInfo (py "Exit") false) /\
  running (ContainerInfo (py "Exit") false)
    = str_in (py "Up") (status (ContainerInfo (py "Exit") false)).
Proof.
  pose proof (container_status_follows_listing (scripted four_field_listing))
    as (T1 & _ & T3 & T4).
  assert (I : In (py "web   nginx   web   Up") (listed_lines four_field_listing))
    by (vm_compute; auto).
  assert (D : dict_get (parse_container_status four_field_listing) (py "db")
              = Some (ContainerInfo (py "Exit") false))
    by (vm_compute; reflexivity).
  split.
  { etransitivity; [apply (T1 tt (Completed 0 four_field_listing [])); reflexivity|].
    vm_compute. reflexivity. }
  split; [exact I|]. split; [reflexivity|].
  split; [exact (T3 four_field_listing _ I eq_refl)|].
  split; [exact D|].
  exact (proj1 (T4 four_field_listing _ _ D)).
Defined.

(** A run in which exactly the port checks and the health checks fail. *)
Lemma port_and_health_failures_get_no_hint_witness :
  let E := only_ports_and_health_fail in
  res_out (run E (port_phase []) tt) = Returns port_issues_all /\
  res_out (run E (health_phase []) tt) = Returns health_issues_all /\
  res_out (run E collect_issues tt)
    = Returns (port_issues_all ++ health_issues_all) /\
  Forall (fun i => In i port_issues_all \/ In i health_issues_all)
    (port_issues_all ++ health_issues_all) /\
  str_in (py "port conflicts")
    (str_of_list (port_issues_all ++ health_issues_all)) = false /\
  str_in (py "services not healthy")
    (str_of_list (port_issues_all ++ health_issues_all)) = false /\
  suggest_fixes (port_issues_all ++ health_issues_all) = [].
Proof.
  cbv zeta.
  pose proof (port_and_health_failures_get_no_hint only_ports_and_health_fail)
    as (T1 & T2 & T3).
  assert (P : res_out (run only_ports_and_health_fail (port_phase []) tt)
              = Returns port_issues_all) by (vm_compute; reflexivity).
  assert (H : res_out (run only_ports_and_health_fail (health_phase []) tt)
              = Returns health_issues_all) by (vm_compute; reflexivity).
  assert (F : Forall (fun i => In i port_issues_all \/ In i health_issues_all)
                (port_issues_all ++ health_issues_all)).
  { apply Forall_forall. intros i I. now apply in_app_or. }
  destruct (T1 _ _ _ P) as (added & _ & _).
  destruct (T2 _ _ _ H) as (added' & _ & _).
  split; [exact P|]. split; [exact H|].
  split; [vm_compute; reflexivity|]. split; [exact F|].
  exact (T3 _ F).
Defined.

End TroubleshooterFacts.

(* ===================================================================== *)
(** * one/retrain_housing.py: runs, files and the use of the partition *)
(* ===================================================================== *)

Module RetrainTraceFacts.
Import Retrain RetrainFacts.
#[local] Open Scope prog_scope.

#[local] Arguments load_data : simpl never.
#[local] Arguments load_existing : simpl never.
#[local] Arguments split_data : simpl never.
#[local] Arguments train_models : simpl never.
#[local] Arguments train_and_log_model : simpl never.
#[local] Arguments report_best : simpl never.
#[local] Arguments register_best : simpl never.
#[local] Arguments save_results : simpl never.
#[local] Arguments register_and_save : simpl never.
#[local] Arguments fit_and_save : simpl never.
#[local] Arguments train_and_save : simpl never.
#[local] Arguments report_error : simpl never.
#[local] Arguments ext : simpl never.
#[local] Arguments py : simpl never.

(** Case analysis on every answer a run is waiting for. *)
Ltac answers E :=
  repeat match goal with
         | |- context [E ?o ?s] => destruct (E o s) as [[?v | ?e] ?w]; cbn
         end.

(** The blocks of the call, except the training of one model. *)
Ltac unfold_blocks :=
  progress unfold load_data, load_existing, split_data, train_models,
    print_comparison, report_best, register_best, save_results,
    register_and_save, fit_and_save, train_and_save, retrain_body,
    report_error, retrain_housing_model, ext.

Ltac quiet_blocks :=
  repeat first
    [ quiet_step
    | unfold_blocks
    | progress unfold train_and_log_model, end_run ].

Section AnyEnvironment.
Context {W : Type} (E : env op resp W).

(** ** The shape of a run *)

(** The trace of a call, block by block. *)
Lemma retrain_trace ndp w :
  let L := run E (load_data ndp) w in
  res_trace (run E (retrain_housing_model ndp) w) =
  res_trace L ++
  match res_out L with
  | Raises e => handled E e (res_world L)
  | Returns df =>
      let S := run E (split_data df) (res_world L) in
      res_trace S ++
      match res_out S with
      | Raises e => handled E e (res_world S)
      | Returns (X_train, X_test, y_train, y_test) =>
          let F := run E (fit_and_save ndp X_train X_test y_train y_test)
                     (res_world S) in
          res_trace F ++
          match res_out F with
          | Raises e => handled E e (res_world F)
          | Returns _ => []
          end
      end
  end.
Proof.
  cbv zeta. unfold retrain_housing_model, retrain_body, handled.
  rewrite run_try_bind. unfold then_run; cbn [res_trace]. f_equal.
  destruct (res_out (run E (load_data ndp) w)) as [df | e].
  - unfold train_and_save. rewrite run_try_bind.
    unfold then_run; cbn [res_trace]. f_equal.
    destruct (res_out (run E (split_data df) _)) as [[[[Xtr Xte] ytr] yte] | e].
    + unfold try_except. rewrite trace_handle_with. f_equal.
      destruct (res_out (run E (fit_and_save _ _ _ _ _) _)) as [s | e];
        [reflexivity|].
      now destruct (is_Exception e).
    + now destruct (is_Exception e).
  - now destruct (is_Exception e).
Qed.

(** A call that returns its results went through every block, and its
    trace is the sequence of theirs. *)
Lemma success_decomposed ndp w r :
  res_out (run E (retrain_housing_model ndp) w) = Returns (Results r) ->
  exists df X_train X_test y_train y_test mp name bm w1 w2 w3 w4 w5 w6,
    res_out (run E (load_data ndp) w) = Returns df /\
    res_out (run E (split_data df) w1)
      = Returns (X_train, X_test, y_train, y_test) /\
    res_out (run E (ext (os_makedirs (py "../models") true)) w2) = Returns tt /\
    res_out (run E (train_models X_train X_test y_train y_test) w3)
      = Returns mp /\
    res_out (run E (report_best mp) w4) = Returns (name, bm) /\
    res_out (run E (register_best bm) w5) = Returns tt /\
    res_out (run E (save_results ndp mp name bm) w6) = Returns (Results r) /\
    res_trace (run E (retrain_housing_model ndp) w) =
      res_trace (run E (load_data ndp) w) ++
      res_trace (run E (split_data df) w1) ++
      res_trace (run E (ext (os_makedirs (py "../models") true)) w2) ++
      res_trace (run E (train_models X_train X_test y_train y_test) w3) ++
      res_trace (run E (report_best mp) w4) ++
      res_trace (run E (register_best bm) w5) ++
      res_trace (run E (save_results ndp mp name bm) w6).
Proof.
  intros H. unfold retrain_housing_model in *.
  destruct (res_out (run E (retrain_body ndp) w)) as [s | e] eqn:B.
  2:{ erewrite try_except_raises in H by exact B.
      destruct (is_Exception e); [|discriminate].
      unfold report_error in H. inv_bind H. simpl in H. discriminate. }
  rewrite (try_except_returned E _ _ _ _ _ B) in H |- *.
  rewrite B in H. injection H as ->.
  unfold retrain_body in *.
  apply bind_returned in B as (df & H1 & B & -> & _).
  unfold train_and_save in *.
  apply bind_returned in B as ([[[Xtr Xte] ytr] yte] & H2 & B & -> & _).
  unfold fit_and_save in *.
  apply bind_returned in B as ([] & H3 & B & -> & _).
  apply bind_returned in B as (mp & H4 & B & -> & _).
  apply bind_returned in B as ([name bm] & H5 & B & -> & _).
  unfold register_and_save in *.
  apply bind_returned in B as ([] & H6 & B & -> & _).
  exists df, Xtr, Xte, ytr, yte, mp, name, bm.
  do 6 eexists. repeat split; eassumption || reflexivity.
Qed.

(** ** MLflow runs *)

#[local] Abbreviation runs_bracketed :=
  (bracketed (fun _ _ : unit => true) run_started run_ended).

#[local] Abbreviation no_run_event :=
  (Forall (fun ev : event op resp => run_started ev = None /\ run_ended ev = None)).

(** The block under [with mlflow.start_run(...)] starts and ends no run
    itself. *)
Lemma train_block_neutral Xte ytr yte Xtr mp model name run :
  every_trace E no_run_event
    (ext (model_fit model Xtr ytr) ;;
     preds <- ext (model_predict model Xte) ;;
     mse <- ext (mean_squared_error yte preds) ;;
     r2 <- ext (r2_score yte preds) ;;
     ext (mlflow_log_param (py "model_name") name) ;;
     now <- ext datetime_now_isoformat ;;
     ext (mlflow_log_param (py "retrain_timestamp") now) ;;
     ext (mlflow_log_metric (py "mse") mse) ;;
     ext (mlflow_log_metric (py "r2_score") r2) ;;
     sig <- ext (infer_signature Xte preds) ;;
     input_example <- ext (df_head Xte 2) ;;
     ext (mlflow_sklearn_log_model model (py "model") input_example sig) ;;
     ext (joblib_dump model (py "../models/" ++ name ++ py ".pkl")) ;;
     ext (print (py "✅ " ++ name ++ py " | MSE: " ++ format_3f mse ++
                  py " | R2 Score: " ++ format_3f r2 ++
                  py " | Saved to ../models/" ++ name ++ py ".pkl")) ;;
     Ret (dict_set mp name (Metrics mse r2 run))).
Proof.
  unfold ext.
  repeat trace_step (@Forall_nil (event op resp)
                       (fun ev => run_started ev = None /\ run_ended ev = None))
                    (fun a b Ha Hb =>
                       proj2 (Forall_app
                                (fun ev : event op resp =>
                                   run_started ev = None /\ run_ended ev = None)
                                a b) (conj Ha Hb)).
Qed.

(** A started run is ended when its block is left, however it is left. *)
Lemma started_run_ends {A} (block : M A) w :
  every_trace E no_run_event block ->
  scan (fun _ _ : unit => true) run_started run_ended (Some tt)
    (res_trace (run E (with_exit block end_run) w)) = Some None.
Proof.
  intros N. unfold with_exit. rewrite trace_handle_with, scan_app.
  rewrite scan_neutral by apply N.
  destruct (res_out (run E block w)); unfold end_run, ext, bind, call; cbn;
    answers E; reflexivity.
Qed.

Lemma train_runs_bracketed Xtr Xte ytr yte mp model name :
  every_trace E runs_bracketed
    (train_and_log_model Xtr Xte ytr yte mp model name).
Proof.
  unfold train_and_log_model.
  apply every_trace_bind;
    [ apply bracketed_nil | apply bracketed_app
    | unfold ext; apply every_trace_call; intros [? | ?]; reflexivity |].
  intros stamp w. rewrite trace_bind, !run_ext.
  cbn [res_trace res_out res_world].
  destruct (E (mlflow_start_run _) w) as [[run | e] w1]; cbn [fst snd];
    [| reflexivity].
  unfold bracketed. cbn [app scan run_started ev_op returned ev_res].
  apply started_run_ends. apply train_block_neutral.
Qed.

Lemma retrain_runs_bracketed ndp :
  every_trace E runs_bracketed (retrain_housing_model ndp).
Proof.
  repeat first
    [ apply train_runs_bracketed
    | trace_step (bracketed_nil (fun _ _ : unit => true) run_started run_ended)
                 (bracketed_app (fun _ _ : unit => true) run_started run_ended)
    | unfold_blocks ].
Qed.

(** A training that returns has started one run, ended it as finished,
    recorded the identifier of that run, and saved the model. *)
Lemma train_returned Xtr Xte ytr yte mp model name w d :
  let t := res_trace (run E (train_and_log_model Xtr Xte ytr yte mp model name) w) in
  res_out (run E (train_and_log_model Xtr Xte ytr yte mp model name) w)
    = Returns d ->
  end_statuses t = [py "FINISHED"] /\
  dumps t = [(model, py "../models/" ++ name ++ py ".pkl")] /\
  exists stamp m,
    d = dict_set mp name m /\
    In (Ev (mlflow_start_run (py "retrain_" ++ name ++ py "_" ++ stamp))
           (Returns (run_id m))) t.
Proof.
  unfold train_and_log_model, with_exit, end_run, bind, ext, call. cbn.
  answers E; intros H; try discriminate H.
  injection H as <-.
  split; [reflexivity|]. split; [reflexivity|].
  eexists _, (Metrics _ _ _). split; [reflexivity|].
  right. left. reflexivity.
Qed.

Lemma end_statuses_app a b :
  end_statuses (a ++ b) = end_statuses a ++ end_statuses b.
Proof. apply flat_map_app. Qed.

Lemma dumps_app a b : dumps (a ++ b) = dumps a ++ dumps b.
Proof. apply flat_map_app. Qed.

(** The blocks around the trainings end no run. *)
Lemma blocks_end_no_run :
  (forall ndp, every_trace E (fun t => end_statuses t = []) (load_data ndp)) /\
  (forall df, every_trace E (fun t => end_statuses t = []) (split_data df)) /\
  every_trace E (fun t => end_statuses t = [])
    (ext (os_makedirs (py "../models") true)) /\
  (forall mp, every_trace E (fun t => end_statuses t = []) (report_best mp)) /\
  (forall bm, every_trace E (fun t => end_statuses t = []) (register_best bm)) /\
  (forall ndp mp name bm,
     every_trace E (fun t => end_statuses t = []) (save_results ndp mp name bm)).
Proof.
  assert (Happ : forall a b, end_statuses a = [] -> end_statuses b = [] ->
                             end_statuses (a ++ b) = []).
  { intros a b Ha Hb. now rewrite end_statuses_app, Ha, Hb. }
  repeat split; intros.
  all: repeat first [ trace_step (eq_refl : end_statuses [] = []) Happ
                    | unfold_blocks ].
Qed.

Lemma train_models_returned Xtr Xte ytr yte w mp :
  let t := res_trace (run E (train_models Xtr Xte ytr yte) w) in
  res_out (run E (train_models Xtr Xte ytr yte) w) = Returns mp ->
  end_statuses t = [py "FINISHED"; py "FINISHED"] /\
  exists lr dt stamp_lr stamp_dt,
    mp = [(py "LinearRegression", lr); (py "DecisionTree", dt)] /\
    In (Ev (mlflow_start_run (py "retrain_LinearRegression_" ++ stamp_lr))
           (Returns (run_id lr))) t /\
    In (Ev (mlflow_start_run (py "retrain_DecisionTree_" ++ stamp_dt))
           (Returns (run_id dt))) t.
Proof.
  cbv zeta. unfold train_models. intros H.
  apply bind_returned in H as (lr_model & H1 & H & -> & _).
  apply bind_returned in H as (d1 & H2 & H & -> & _).
  apply bind_returned in H as (dt_model & H3 & H & -> & _).
  apply train_returned in H2 as (S1 & _ & stamp1 & lr & -> & I1).
  apply train_returned in H as (S2 & _ & stamp2 & dt & -> & I2).
  split.
  { rewrite !end_statuses_app, S1, S2, !run_ext. reflexivity. }
  exists lr, dt, stamp1, stamp2. split; [reflexivity|].
  split.
  - apply in_or_app; right. apply in_or_app; left. exact I1.
  - apply in_or_app; right. apply in_or_app; right.
    apply in_or_app; right. exact I2.
Qed.

(** X1.  Every MLflow run the call starts is ended before the next one is
    started and before the call is left, whatever fails in between; in a
    call that returns its results, both runs were ended as FINISHED. *)
Theorem every_started_run_is_ended ndp w :
  let R := run E (retrain_housing_model ndp) w in
  bracketed (fun _ _ => true) run_started run_ended (res_trace R) /\
  (forall r, res_out R = Returns (Results r) ->
     end_statuses (res_trace R) = [py "FINISHED"; py "FINISHED"]).
Proof.
  cbv zeta. split; [apply retrain_runs_bracketed|].
  intros r H.
  apply success_decomposed in H
    as (df & Xtr & Xte & ytr & yte & mp & name & bm & w1 & w2 & w3 & w4 & w5
        & w6 & H1 & H2 & H3 & H4 & H5 & H6 & H7 & ->).
  destruct blocks_end_no_run as (B1 & B2 & B3 & B4 & B5 & B6).
  apply train_models_returned in H4 as [S _].
  rewrite !end_statuses_app, S.
  rewrite (B1 ndp w), (B2 df w1), (B4 mp w4), (B5 bm w5), (B6 ndp mp name bm w6).
  rewrite (B3 w2). reflexivity.
Qed.

(** ** The summary file *)

#[local] Abbreviation files_bracketed :=
  (bracketed N.eqb file_opened file_closed).

Lemma save_results_files_bracketed ndp mp name bm :
  every_trace E files_bracketed (save_results ndp mp name bm).
Proof.
  intros w. unfold save_results, with_exit, bind, ext, call. cbn.
  answers E; unfold bracketed; cbn; rewrite ?N.eqb_refl; reflexivity.
Qed.

(** X2.  The summary file is the only file the call opens, and once it is
    opened it is closed again before the call is left, also when writing
    to it fails. *)
Theorem opened_file_is_closed ndp w :
  bracketed N.eqb file_opened file_closed
    (res_trace (run E (retrain_housing_model ndp) w)).
Proof.
  revert w. change (every_trace E files_bracketed (retrain_housing_model ndp)).
  unfold retrain_housing_model, retrain_body, train_and_save, fit_and_save,
    register_and_save.
  repeat first
    [ apply save_results_files_bracketed
    | trace_step (bracketed_nil N.eqb file_opened file_closed)
                 (bracketed_app N.eqb file_opened file_closed)
    | progress unfold load_data, load_existing, split_data, train_models,
        train_and_log_model, end_run, print_comparison, report_best,
        register_best, report_error, ext ].
Qed.

(** What a writing of the summary that returns has asked for. *)
Lemma save_results_trace ndp mp name bm w s :
  res_out (run E (save_results ndp mp name bm) w) = Returns s ->
  exists now f,
    let r := RetrainResults now name bm mp (data_source_of ndp) in
    s = Results r /\
    res_trace (run E (save_results ndp mp name bm) w) =
      [ Ev datetime_now_isoformat (Returns now);
        Ev (open_w (py "../retrain_results.json")) (Returns f);
        Ev (json_dump r f 2) (Returns tt);
        Ev (file_close f) (Returns tt);
        Ev (print (py "✅ Retraining completed successfully!")) (Returns tt) ].
Proof.
  unfold save_results, results_path, with_exit, bind, ext, call. cbn.
  answers E; intros H; try discriminate H.
  injection H as <-. destruct v1, v2, v3.
  eexists _, _. split; reflexivity.
Qed.

Lemma blocks_write_nothing :
  (forall ndp, quiet E is_write (load_data ndp)) /\
  (forall df, quiet E is_write (split_data df)) /\
  quiet E is_write (ext (os_makedirs (py "../models") true)) /\
  (forall a b c d, quiet E is_write (train_models a b c d)) /\
  (forall mp, quiet E is_write (report_best mp)) /\
  (forall bm, quiet E is_write (register_best bm)).
Proof. repeat split; intros; quiet_blocks. Qed.

(** X3.  A call that returns its results has written exactly that summary:
    its last four requests open [../retrain_results.json] for writing, dump
    the returned summary into it with an indentation of two, close the
    file and print the final message, each of them answered, and nothing
    was opened for writing or dumped before. *)
Theorem returned_summary_is_the_one_written ndp w r :
  let R := run E (retrain_housing_model ndp) w in
  res_out R = Returns (Results r) ->
  exists pre f,
    res_trace R =
      pre ++ [ Ev (open_w (py "../retrain_results.json")) (Returns f);
               Ev (json_dump r f 2) (Returns tt);
               Ev (file_close f) (Returns tt);
               Ev (print (py "✅ Retraining completed successfully!"))
                  (Returns tt) ] /\
    Forall (fun ev => is_write (ev_op ev) = false) pre.
Proof.
  cbv zeta. intros H.
  apply success_decomposed in H
    as (df & Xtr & Xte & ytr & yte & mp & name & bm & w1 & w2 & w3 & w4 & w5
        & w6 & H1 & H2 & H3 & H4 & H5 & H6 & H7 & ->).
  destruct (save_results_trace _ _ _ _ _ _ H7) as (now & f & Hr & Ht).
  cbv zeta in Hr, Ht. injection Hr as ->. rewrite Ht.
  destruct blocks_write_nothing as (B1 & B2 & B3 & B4 & B5 & B6).
  exists (res_trace (run E (load_data ndp) w) ++
          res_trace (run E (split_data df) w1) ++
          res_trace (run E (ext (os_makedirs (py "../models") true)) w2) ++
          res_trace (run E (train_models Xtr Xte ytr yte) w3) ++
          res_trace (run E (report_best mp) w4) ++
          res_trace (run E (register_best bm) w5) ++
          [Ev datetime_now_isoformat (Returns now)]), f.
  split.
  - rewrite <- !app_assoc. reflexivity.
  - repeat (apply Forall_app; split);
      first [ apply B1 | apply B2 | apply B3 | apply B4 | apply B5 | apply B6
            | now repeat constructor ].
Qed.

(** ** The registration *)

Lemma register_best_trace bm w :
  exists answer rest,
    res_trace (run E (register_best bm) w) =
      Ev (registration bm) answer :: rest /\
    Forall (fun ev => is_register (ev_op ev) = false) rest.
Proof.
  unfold register_best, registration, try_except, bind, ext, call. cbn.
  answers E; try (destruct (is_Exception _); cbn; answers E);
    eexists _, _; (split; [reflexivity | now repeat constructor]).
Qed.

(** X4.  In a call that returns its results, the run identifier recorded
    for the best model was answered by [mlflow.start_run] for the run
    named after that model, and the one registration the call asks for
    is of the model logged in that run, under the name
    [HousingPricePredictor]. *)
Theorem best_run_is_the_one_registered ndp w r :
  let R := run E (retrain_housing_model ndp) w in
  res_out R = Returns (Results r) ->
  (exists stamp,
     In (Ev (mlflow_start_run (py "retrain_" ++ best_model r ++ py "_" ++ stamp))
            (Returns (run_id (performance r)))) (res_trace R)) /\
  exists pre answer post,
    res_trace R =
      pre ++ Ev (mlflow_register_model
                   (py "runs:/" ++ run_id (performance r) ++ py "/model")
                   (py "HousingPricePredictor")) answer :: post /\
    Forall (fun ev => is_register (ev_op ev) = false) pre /\
    Forall (fun ev => is_register (ev_op ev) = false) post.
Proof.
  cbv zeta. intros H.
  apply success_decomposed in H
    as (df & Xtr & Xte & ytr & yte & mp & name & bm & w1 & w2 & w3 & w4 & w5
        & w6 & H1 & H2 & H3 & H4 & H5 & H6 & H7 & ->).
  apply save_results_returns in H7 as Hr. destruct Hr as [now Hr].
  injection Hr as ->. cbn [best_model performance].
  destruct (blocks_register_nothing E) as (B1 & B2 & B3 & B4 & B5 & B6).
  split.
  - apply train_models_returned in H4
      as (_ & lr & dt & s1 & s2 & -> & I1 & I2).
    apply report_best_returns in H5 as [Hsel Hget].
    destruct (select_best_two lr dt) as (S & Glr & Gdt).
    rewrite S in Hsel. injection Hsel as <-.
    destruct (float_lt (mse dt) (mse lr)).
    + rewrite Gdt in Hget. injection Hget as <-. exists s2.
      do 3 (apply in_or_app; right). apply in_or_app; left. exact I2.
    + rewrite Glr in Hget. injection Hget as <-. exists s1.
      do 3 (apply in_or_app; right). apply in_or_app; left. exact I1.
  - destruct (register_best_trace bm w5) as (answer & rest & -> & Hrest).
    exists (res_trace (run E (load_data ndp) w) ++
            res_trace (run E (split_data df) w1) ++
            res_trace (run E (ext (os_makedirs (py "../models") true)) w2) ++
            res_trace (run E (train_models Xtr Xte ytr yte) w3) ++
            res_trace (run E (report_best mp) w4)),
      answer,
      (rest ++ res_trace (run E (save_results ndp mp name bm) w6)).
    split.
    + rewrite <- !app_assoc. reflexivity.
    + split.
      * repeat (apply Forall_app; split);
          first [ apply B1 | apply B2 | apply B3 | apply B4
                | unfold ext; apply quiet_call; reflexivity ].
      * apply Forall_app; split; [exact Hrest | apply B6].
Qed.

(** ** The use of the partition *)

Lemma split_answers_app a b :
  split_answers (a ++ b) = split_answers a ++ split_answers b.
Proof. apply flat_map_app. Qed.

Lemma split_data_returned df w p :
  res_out (run E (split_data df) w) = Returns p ->
  split_answers (res_trace (run E (split_data df) w)) = [Returns p].
Proof.
  unfold split_data, bind, ext, call. cbn.
  answers E; intros H; try discriminate H. injection H as <-. reflexivity.
Qed.

Lemma split_data_raised df w e :
  res_out (run E (split_data df) w) = Raises e ->
  forall p, ~ In (Returns p) (split_answers (res_trace (run E (split_data df) w))).
Proof.
  unfold split_data, bind, ext, call. cbn.
  answers E; intros H; try discriminate H; intros p I; cbn in I;
    intuition discriminate.
Qed.

Ltac always_partition :=
  repeat first
    [ match goal with
      | |- always _ _ (bind _ _) => apply always_bind; [| intros ?]
      | |- always _ _ (try_except _ _ _) => apply always_try_except; [| intros ?]
      | |- always _ _ (handle_with _ _ _) =>
          apply always_handle_with; [| intros ? | intros ?]
      | |- always _ _ (Ret _) => apply always_ret
      | |- always _ _ (Throw _) => apply always_throw
      | |- always _ _ (lift _) => apply always_lift
      | |- always ?E ?Q (call ?o) =>
          refine (always_call E Q o _);
          first [exact I | split; reflexivity | reflexivity]
      | |- always _ _ (match ?x with _ => _ end) => destruct x
      | |- always _ _ (let (_, _) := ?x in _) => destruct x
      end
    | unfold_blocks
    | progress unfold train_and_log_model, end_run, with_exit ].

Lemma always_for_each {X} Q (xs : list X) (body : X -> M unit) :
  (forall x, always E Q (body x)) -> always E Q (for_each xs body).
Proof.
  intros Hb. induction xs as [| x xs IH]; simpl.
  - apply always_ret.
  - apply always_bind; auto.
Qed.

Lemma fit_and_save_on_partition ndp Xtr Xte ytr yte :
  always E (on_partition Xtr Xte ytr yte) (fit_and_save ndp Xtr Xte ytr yte).
Proof.
  unfold fit_and_save, register_and_save, train_models, report_best,
    print_comparison.
  repeat first
    [ apply always_for_each; intros ?
    | always_partition ].
Qed.

Lemma others_on_partition Xtr Xte ytr yte :
  (forall ndp, always E (on_partition Xtr Xte ytr yte) (load_data ndp)) /\
  (forall df, always E (on_partition Xtr Xte ytr yte) (split_data df)) /\
  (forall e, always E (on_partition Xtr Xte ytr yte) (report_error e)).
Proof. repeat split; intros; always_partition. Qed.

Lemma others_fit_nothing :
  (forall ndp, quiet E is_fit_or_score (load_data ndp)) /\
  (forall df, quiet E is_fit_or_score (split_data df)) /\
  (forall e, quiet E is_fit_or_score (report_error e)).
Proof. repeat split; intros; quiet_blocks. Qed.

Lemma handled_on_partition Xtr Xte ytr yte e w :
  Forall (fun ev => on_partition Xtr Xte ytr yte (ev_op ev)) (handled E e w).
Proof.
  unfold handled. destruct (is_Exception e); [| constructor].
  apply others_on_partition.
Qed.

Lemma handled_fits_nothing e w :
  Forall (fun ev => is_fit_or_score (ev_op ev) = false) (handled E e w).
Proof.
  unfold handled. destruct (is_Exception e); [| constructor].
  apply others_fit_nothing.
Qed.

Lemma handled_splits_nothing e w : split_answers (handled E e w) = [].
Proof.
  unfold handled. destruct (is_Exception e); [| reflexivity].
  apply splits_nothing, report_error_splits_nothing.
Qed.

(** X5.  In every call, either [train_test_split] answered with one
    partition and every model is fitted on its training rows and training
    targets, predicts for its test rows, and is scored against its test
    targets; or no model is fitted or scored at all. *)
Theorem models_fit_on_train_and_score_on_test ndp w :
  let t := res_trace (run E (retrain_housing_model ndp) w) in
  (exists X_train X_test y_train y_test,
     split_answers t = [Returns (X_train, X_test, y_train, y_test)] /\
     Forall (fun ev => on_partition X_train X_test y_train y_test (ev_op ev)) t)
  \/ Forall (fun ev => is_fit_or_score (ev_op ev) = false) t.
Proof.
  cbv zeta. rewrite retrain_trace. cbv zeta.
  destruct others_fit_nothing as (F1 & F2 & F3).
  destruct (res_out (run E (load_data ndp) w)) as [df | e] eqn:L.
  2:{ right. apply Forall_app; split; [apply F1 | apply handled_fits_nothing]. }
  destruct (res_out (run E (split_data df) _)) as [[[[Xtr Xte] ytr] yte] | e]
    eqn:S.
  2:{ right. apply Forall_app; split; [apply F1|].
      apply Forall_app; split; [apply F2 | apply handled_fits_nothing]. }
  left. exists Xtr, Xte, ytr, yte.
  destruct (others_on_partition Xtr Xte ytr yte) as (P1 & P2 & P3).
  split.
  - rewrite !split_answers_app.
    rewrite (splits_nothing E _ _ (load_data_splits_nothing E ndp)).
    rewrite (split_data_returned _ _ _ S).
    rewrite (splits_nothing E _ _ (fit_and_save_splits_nothing E ndp _ _ _ _)).
    destruct (res_out (run E (fit_and_save _ _ _ _ _) _)); [reflexivity|].
    now rewrite handled_splits_nothing.
  - apply Forall_app; split; [apply P1|].
    apply Forall_app; split; [apply P2|].
    apply Forall_app; split; [apply fit_and_save_on_partition|].
    destruct (res_out (run E (fit_and_save _ _ _ _ _) _)); [constructor|].
    apply handled_on_partition.
Qed.

(** ** The choice of the best model when an error is not a number *)

(** X6.  In a call that returns its results, DecisionTree is the best model
    exactly when its error compares strictly below the error of
    LinearRegression.  A comparison with NaN is false: when either error is
    NaN, LinearRegression is the best model, with its own error as the
    best one, also when that error is NaN and the error of the tree is a
    number. *)
Theorem nan_error_selects_linear_regression ndp w r :
  res_out (run E (retrain_housing_model ndp) w) = Returns (Results r) ->
  exists lr dt,
    all_models r = [(py "LinearRegression", lr); (py "DecisionTree", dt)] /\
    (best_model r = py "DecisionTree" <-> float_lt (mse dt) (mse lr) = true) /\
    (float_isnan (mse lr) = true \/ float_isnan (mse dt) = true ->
     best_model r = py "LinearRegression" /\ performance r = lr).
Proof.
  intros H.
  apply results_shape in H as (lr & dt & Hall & Hbest & Hperf & _).
  exists lr, dt. split; [exact Hall|].
  rewrite Hbest, Hperf. split.
  - destruct (float_lt (mse dt) (mse lr)); split; trivial; discriminate.
  - intros N.
    assert (L : float_lt (mse dt) (mse lr) = false).
    { destruct N as [N | N].
      - destruct (mse lr); try discriminate N. now destruct (mse dt) as [? | [|] |].
      - destruct (mse dt); try discriminate N. reflexivity. }
    now rewrite L.
Qed.

(** ** The models saved on disk *)

Lemma blocks_dump_nothing :
  (forall ndp, every_trace E (fun t => dumps t = []) (load_data ndp)) /\
  (forall df, every_trace E (fun t => dumps t = []) (split_data df)) /\
  (forall mp, every_trace E (fun t => dumps t = []) (report_best mp)) /\
  (forall bm, every_trace E (fun t => dumps t = []) (register_best bm)) /\
  (forall ndp mp name bm,
     every_trace E (fun t => dumps t = []) (save_results ndp mp name bm)).
Proof.
  assert (Happ : forall a b, dumps a = [] -> dumps b = [] -> dumps (a ++ b) = []).
  { intros a b Ha Hb. now rewrite dumps_app, Ha, Hb. }
  repeat split; intros.
  all: repeat first [ trace_step (eq_refl : dumps [] = []) Happ
                    | unfold_blocks ].
Qed.

Lemma train_models_dumps Xtr Xte ytr yte w mp :
  let t := res_trace (run E (train_models Xtr Xte ytr yte) w) in
  res_out (run E (train_models Xtr Xte ytr yte) w) = Returns mp ->
  exists lr dt,
    dumps t = [ (lr, py "../models/LinearRegression.pkl");
                (dt, py "../models/DecisionTree.pkl") ] /\
    In (Ev LinearRegression (Returns lr)) t /\
    In (Ev (DecisionTreeRegressor 5) (Returns dt)) t.
Proof.
  cbv zeta. unfold train_models. intros H.
  apply bind_returned in H as (lr & H1 & H & -> & _).
  apply bind_returned in H as (d1 & H2 & H & -> & _).
  apply bind_returned in H as (dt & H3 & H & -> & _).
  apply train_returned in H2 as (_ & D1 & _).
  apply train_returned in H as (_ & D2 & _).
  exists lr, dt.
  assert (P1 : py "../models/" ++ py "LinearRegression" ++ py ".pkl"
               = py "../models/LinearRegression.pkl")
    by (vm_compute; reflexivity).
  assert (P2 : py "../models/" ++ py "DecisionTree" ++ py ".pkl"
               = py "../models/DecisionTree.pkl")
    by (vm_compute; reflexivity).
  rewrite P1 in D1. rewrite P2 in D2.
  apply retrain_ext_returns in H1, H3.
  split; [| split].
  - rewrite !dumps_app, D1, D2, !run_ext. reflexivity.
  - apply in_or_app; left. rewrite run_ext. left. now rewrite H1.
  - apply in_or_app; right. apply in_or_app; right. apply in_or_app; left.
    rewrite run_ext. left. now rewrite H3.
Qed.

(** X7.  A call that returns its results has saved both estimators it
    created, the linear model under [../models/LinearRegression.pkl] and
    then the tree under [../models/DecisionTree.pkl], and nothing else;
    the directory [../models] was asked for before the first of them was
    saved. *)
Theorem both_models_are_saved ndp w r :
  let t := res_trace (run E (retrain_housing_model ndp) w) in
  res_out (run E (retrain_housing_model ndp) w) = Returns (Results r) ->
  exists lr dt pre post,
    dumps t = [ (lr, py "../models/LinearRegression.pkl");
                (dt, py "../models/DecisionTree.pkl") ] /\
    In (Ev LinearRegression (Returns lr)) t /\
    In (Ev (DecisionTreeRegressor 5) (Returns dt)) t /\
    t = pre ++ Ev (os_makedirs (py "../models") true) (Returns tt) :: post /\
    dumps pre = [].
Proof.
  cbv zeta. intros H.
  apply success_decomposed in H
    as (df & Xtr & Xte & ytr & yte & mp & name & bm & w1 & w2 & w3 & w4 & w5
        & w6 & H1 & H2 & H3 & H4 & H5 & H6 & H7 & ->).
  destruct blocks_dump_nothing as (B1 & B2 & B4 & B5 & B6).
  destruct (train_models_dumps _ _ _ _ _ _ H4) as (lr & dt & D & I1 & I2).
  apply retrain_ext_returns in H3.
  exists lr, dt,
    (res_trace (run E (load_data ndp) w) ++
     res_trace (run E (split_data df) w1)),
    (res_trace (run E (train_models Xtr Xte ytr yte) w3) ++
     res_trace (run E (report_best mp) w4) ++
     res_trace (run E (register_best bm) w5) ++
     res_trace (run E (save_results ndp mp name bm) w6)).
  split; [| split; [| split; [| split]]].
  - rewrite !dumps_app, D.
    rewrite (B1 ndp w), (B2 df w1), (B4 mp w4), (B5 bm w5), (B6 ndp mp name bm w6).
    rewrite run_ext. reflexivity.
  - do 3 (apply in_or_app; right). apply in_or_app; left. exact I1.
  - do 3 (apply in_or_app; right). apply in_or_app; left. exact I2.
  - rewrite run_ext, H3. cbn [res_trace]. rewrite <- !app_assoc. reflexivity.
  - rewrite dumps_app. now rewrite (B1 ndp w), (B2 df w1).
Qed.

End AnyEnvironment.

(** ** The theorems at work *)

(** A run in which nothing fails: both runs are ended as finished. *)
Lemma every_started_run_is_ended_witness :
  let R := run (scripted (nominal (FFinite 1) (FFinite 2)))
             (retrain_housing_model None) tt in
  bracketed (fun _ _ => true) run_started run_ended (res_trace R) /\
  exists r,
    res_out R = Returns (Results r) /\
    end_statuses (res_trace R) = [py "FINISHED"; py "FINISHED"].
Proof.
  cbv zeta.
  pose proof (every_started_run_is_ended
                (scripted (nominal (FFinite 1) (FFinite 2))) None tt) as [B S].
  split; [exact B|]. eexists. split; [vm_compute; reflexivity|].
  eapply S. vm_compute; reflexivity.
Defined.

(** A run in which nothing fails writes the summary it returns. *)
Lemma returned_summary_is_the_one_written_witness :
  let R := run (scripted (nominal (FFinite 1) (FFinite 2)))
             (retrain_housing_model None) tt in
  exists r,
    res_out R = Returns (Results r) /\
    exists pre f,
      res_trace R =
        pre ++ [ Ev (open_w (py "../retrain_results.json")) (Returns f);
                 Ev (json_dump r f 2) (Returns tt);
                 Ev (file_close f) (Returns tt);
                 Ev (print (py "✅ Retraining completed successfully!"))
                    (Returns tt) ] /\
      Forall (fun ev => is_write (ev_op ev) = false) pre.
Proof.
  cbv zeta. eexists. split; [vm_compute; reflexivity|].
  apply (returned_summary_is_the_one_written
           (scripted (nominal (FFinite 1) (FFinite 2))) None tt).
  vm_compute; reflexivity.
Defined.

(** The tree has the smaller error: its run is the one registered. *)
Lemma best_run_is_the_one_registered_witness :
  let R := run (scripted (nominal (FFinite 2) (FFinite 1)))
             (retrain_housing_model None) tt in
  exists r,
    res_out R = Returns (Results r) /\
    best_model r = py "DecisionTree" /\
    (exists stamp,
       In (Ev (mlflow_start_run
                 (py "retrain_" ++ best_model r ++ py "_" ++ stamp))
              (Returns (run_id (performance r)))) (res_trace R)) /\
    exists pre answer post,
      res_trace R =
        pre ++ Ev (mlflow_register_model
                     (py "runs:/" ++ run_id (performance r) ++ py "/model")
                     (py "HousingPricePredictor")) answer :: post /\
      Forall (fun ev => is_register (ev_op ev) = false) pre /\
      Forall (fun ev => is_register (ev_op ev) = false) post.
Proof.
  cbv zeta. eexists. split; [vm_compute; reflexivity|].
  split; [vm_compute; reflexivity|].
  apply (best_run_is_the_one_registered
           (scripted (nominal (FFinite 2) (FFinite 1))) None tt).
  vm_compute; reflexivity.
Defined.

(** The error of the linear model is NaN and the error of the tree is 1:
    the linear model is the best model. *)
Lemma nan_error_selects_linear_regression_witness :
  let R := run (scripted (nominal FNaN (FFinite 1)))
             (retrain_housing_model None) tt in
  exists r,
    res_out R = Returns (Results r) /\
    exists lr dt,
      all_models r = [(py "LinearRegression", lr); (py "DecisionTree", dt)] /\
      (best_model r = py "DecisionTree" <-> float_lt (mse dt) (mse lr) = true) /\
      (float_isnan (mse lr) = true \/ float_isnan (mse dt) = true ->
       best_model r = py "LinearRegression" /\ performance r = lr).
Proof.
  cbv zeta. eexists. split; [vm_compute; reflexivity|].
  apply (nan_error_selects_linear_regression
           (scripted (nominal FNaN (FFinite 1))) None tt).
  vm_compute; reflexivity.
Defined.

(** A run in which nothing fails saves both models. *)
Lemma both_models_are_saved_witness :
  let R := run (scripted (nominal (FFinite 1) (FFinite 2)))
             (retrain_housing_model None) tt in
  exists r,
    res_out R = Returns (Results r) /\
    exists lr dt pre post,
      dumps (res_trace R) = [ (lr, py "../models/LinearRegression.pkl");
                              (dt, py "../models/DecisionTree.pkl") ] /\
      In (Ev LinearRegression (Returns lr)) (res_trace R) /\
      In (Ev (DecisionTreeRegressor 5) (Returns dt)) (res_trace R) /\
      res_trace R =
        pre ++ Ev (os_makedirs (py "../models") true) (Returns tt) :: post /\
      dumps pre = [].
Proof.
  cbv zeta. eexists. split; [vm_compute; reflexivity|].
  eapply (both_models_are_saved
            (scripted (nominal (FFinite 1) (FFinite 2))) None tt).
  vm_compute; reflexivity.
Defined.

End RetrainTraceFacts.

(* ===================================================================== *)
(** * generate_sample_data.py: the loop of requests *)
(* ===================================================================== *)

Module GeneratorLoopFacts.
Import Generator GeneratorFacts.
#[local] Open Scope prog_scope.
#[local] Open Scope Z_scope.

#[local] Arguments draw_sample : simpl never.
#[local] Arguments send_sample : simpl never.
#[local] Arguments on_exception : simpl never.
#[local] Arguments ext : simpl never.
#[local] Arguments py : simpl never.

Section AnyEnvironment.
Context {W : Type} (E : env op resp W).

(** ** The counters *)

Lemma send_sample_counts i s f smp w c :
  res_out (run E (send_sample i (s, f) smp) w) = Returns c ->
  c = (s + 1, f) \/ c = (s, f + 1).
Proof.
  unfold send_sample. intros H. inv_bind_as H answer0 Hr.
  destruct (status_code answer0 =? 200).
  - repeat inv_bind H. cbn in H. injection H as <-. now left.
  - repeat inv_bind H. cbn in H. injection H as <-. now right.
Qed.

Lemma on_exception_counts i c e w c' :
  res_out (run E (on_exception i c e) w) = Returns c' ->
  c' = (fst c, snd c + 1).
Proof.
  unfold on_exception. intros H. inv_bind H. cbn in H. now injection H as <-.
Qed.

(** One turn of the loop adds one to one of the counters; it adds to the
    failures a second time only when the pause after a counted request
    raised an instance of [Exception]. *)
Lemma iteration_counts i s f w s' f' :
  res_out (run E (iteration i (s, f)) w) = Returns (s', f') ->
  (s <= s' <= s + 1 /\ f <= f' /\ s + f + 1 <= s' + f' <= s + f + 2) /\
  (sleep_is_sound E -> s' + f' = s + f + 1).
Proof.
  unfold iteration. rewrite run_handle_with. unfold then_run.
  destruct (res_out (run E (draw_sample ;; _) w)) as [c | e] eqn:B;
    cbn [res_out].
  - apply bind_returns in B as (smp & _ & B).
    apply send_sample_counts in B.
    intros H. apply try_except_returns_inv in H as [H | (e & He & Hexc & H)].
    + inv_bind H. cbn in H. injection H as ->.
      destruct B as [B | B]; injection B as -> ->; split; lia.
    + apply on_exception_counts in H.
      unfold ext in He. rewrite run_bind, run_call in He.
      unfold then_run in He. cbn in He.
      destruct (E (time_sleep (5 # 10)) _) as [[[] | e'] w'] eqn:S;
        cbn in He; [discriminate|]. injection He as ->.
      destruct B as [-> | ->]; cbn in H; injection H as -> ->;
        (split; [lia|]); intros Sound;
        pose proof (f_equal fst S) as S'; cbn [fst] in S';
        apply Sound in S'; congruence.
  - destruct (is_Exception e); cbn [res_out]; [| discriminate].
    intros H. apply on_exception_counts in H. cbn in H.
    injection H as -> ->. split; lia.
Qed.

(** X8.  When [generate_sample_requests] returns, the two counters it
    returns are not negative, at most twenty requests are counted as
    successful, and the counters add up to at least twenty and at most
    forty: a turn whose pause raises an instance of [Exception] after its
    request was counted adds to the failures as well.  When [time.sleep]
    raises no such exception, the counters add up to twenty. *)
Theorem counters_account_for_every_turn w s f :
  res_out (run E generate_sample_requests w) = Returns (s, f) ->
  (0 <= s <= 20 /\ 0 <= f /\ 20 <= s + f <= 40) /\
  (sleep_is_sound E -> s + f = 20).
Proof.
  unfold generate_sample_requests. intros H.
  inv_bind H. inv_bind_as H counts Hloop. destruct counts as [s0 f0].
  repeat inv_bind H. cbn in H. injection H as <- <-.
  pose (Inv := fun (n : nat) (c : Z * Z) =>
    (0 <= fst c <= Z.of_nat n /\ 0 <= snd c /\
     Z.of_nat n <= fst c + snd c <= 2 * Z.of_nat n) /\
    (sleep_is_sound E -> fst c + snd c = Z.of_nat n)).
  assert (I : Inv (0 + List.length (seq 0 20))%nat (s0, f0)).
  { refine (for_fold_returns_steps E Inv (seq 0 20) iteration _ 0%nat (0, 0)
              _ (s0, f0) _ Hloop).
    - intros i [sa fa] w' [sb fb] n _ [[Hsa [Hfa Hab]] Hs] Hi.
      apply iteration_counts in Hi as [Hi Hi']. unfold Inv; cbn [fst snd] in *.
      split; [lia|]. intros Sound. specialize (Hs Sound).
      specialize (Hi' Sound). lia.
    - unfold Inv; cbn. split; [lia|]. reflexivity. }
  unfold Inv in I. cbn in I. exact I.
Qed.

(** ** The loop always comes to its end *)

Lemma run_generator_ext (o : op) w :
  run E (ext o) w = Res (fst (E o w)) [Ev o (fst (E o w))] (snd (E o w)).
Proof. apply run_call. Qed.

Lemma on_exception_returns i c e w :
  polite E ->
  res_out (run E (on_exception i c e) w) = Returns (fst c, snd c + 1).
Proof.
  intros [Hprint _]. unfold on_exception. rewrite run_bind, run_generator_ext.
  unfold then_run. cbn [res_out res_world res_trace]. now rewrite Hprint.
Qed.

Lemma json_get_raises result key default e :
  json_get result key default = Raises e -> is_Exception e = true.
Proof.
  unfold json_get. destruct (json_items result); [discriminate|].
  now intros [= <-].
Qed.

(** What a turn does before its pause raises only what the environment
    raises, or the [AttributeError] of a body that is no dictionary. *)
Lemma request_raises_only i c :
  polite E ->
  raises_only E (fun e => is_Exception e = true)
    (sample <- draw_sample ;; send_sample i c sample).
Proof.
  intros [_ Hexn]. destruct c as [s f].
  unfold draw_sample, send_sample, ext.
  repeat first
    [ raises_step Hexn
    | apply raises_only_lift; intros e0; apply json_get_raises ].
Qed.

Lemma iteration_returns i c w :
  polite E -> exists c', res_out (run E (iteration i c) w) = Returns c'.
Proof.
  intros Hp. unfold iteration. rewrite out_handle_with.
  destruct (res_out (run E (_ ;; _) w)) as [c' | e] eqn:B.
  - rewrite out_try_except, out_bind, run_generator_ext. cbn [res_out].
    destruct (fst (E (time_sleep (5 # 10)) _)) as [[] | e] eqn:S.
    + cbn. eauto.
    + apply (proj2 Hp) in S. rewrite S.
      rewrite on_exception_returns by exact Hp. eauto.
  - rewrite (request_raises_only i c Hp w e B).
    rewrite on_exception_returns by exact Hp. eauto.
Qed.

(** X9.  In an environment in which the console accepts every line and
    every exception raised is an instance of [Exception],
    [generate_sample_requests] returns its two counters: no failure of
    the random source, of the request, of the decoding of the answer or
    of the pause ends the loop early. *)
Theorem generator_always_reports w :
  polite E ->
  exists s f, res_out (run E generate_sample_requests w) = Returns (s, f).
Proof.
  intros Hp. unfold generate_sample_requests.
  rewrite run_bind, run_generator_ext. unfold then_run.
  cbn [res_out res_world res_trace]. rewrite (proj1 Hp). cbn [res_out].
  rewrite run_bind. unfold then_run.
  destruct (for_fold_returns E (seq 0 20) iteration
              (fun i c w' => iteration_returns i c w' Hp) (0, 0)
              (snd (E (print (py "🚀 Generating sample prediction requests..."))
                      w)))
    as [[s f] Hloop].
  rewrite Hloop. cbn [res_out res_world res_trace].
  exists s, f.
  repeat (rewrite run_bind, run_generator_ext; unfold then_run;
          cbn [res_out res_world res_trace]; rewrite (proj1 Hp);
          cbn [res_out]).
  reflexivity.
Qed.

(** ** The requests *)

#[local] Abbreviation no_post t :=
  (count is_post t = 0%nat /\ count is_sleep t = 0%nat).

Lemma no_post_nil : no_post [].
Proof. now split. Qed.

Lemma no_post_app a b : no_post a -> no_post b -> no_post (a ++ b).
Proof. intros [A1 A2] [B1 B2]. rewrite !count_app. split; lia. Qed.

Lemma draw_sample_posts_nothing : every_trace E (fun t => no_post t) draw_sample.
Proof.
  unfold draw_sample, ext. repeat trace_step no_post_nil no_post_app.
Qed.

Lemma on_exception_posts_nothing i c e :
  every_trace E (fun t => no_post t) (on_exception i c e).
Proof.
  unfold on_exception, ext. repeat trace_step no_post_nil no_post_app.
Qed.

(** The sending of a sample asks for one prediction and no pause. *)
Lemma send_sample_posts_once i c smp w :
  let t := res_trace (run E (send_sample i c smp) w) in
  count is_post t = 1%nat /\ count is_sleep t = 0%nat.
Proof.
  cbv zeta. destruct c as [s f].
  unfold send_sample, bind, ext, call. cbn.
  destruct (E (requests_post _ _ _) w) as [[a | e] w1]; cbn;
    [| split; reflexivity].
  destruct (status_code a =? 200); cbn.
  - destruct (E (response_json a) w1) as [[result | e] w2]; cbn;
      [| split; reflexivity].
    destruct (json_get result _ _); cbn; [| split; reflexivity].
    destruct (E (print _) w2) as [[[] | e] w3]; cbn; split; reflexivity.
  - destruct (E (print _) w1) as [[[] | e] w2]; cbn; split; reflexivity.
Qed.

Lemma handler_posts_nothing i c (e : exn) w :
  no_post (res_trace (run E (if is_Exception e then on_exception i c e
                             else Throw e) w)).
Proof.
  destruct (is_Exception e); [apply on_exception_posts_nothing|].
  apply no_post_nil.
Qed.

(** The drawing and the sending of a sample ask for at most one
    prediction and no pause; for one prediction when they return. *)
Lemma request_posts i c w :
  let R := run E (sample <- draw_sample ;; send_sample i c sample) w in
  count is_sleep (res_trace R) = 0%nat /\
  (count is_post (res_trace R) <= 1)%nat /\
  (forall c', res_out R = Returns c' -> count is_post (res_trace R) = 1%nat).
Proof.
  cbv zeta. rewrite trace_bind, out_bind, !count_app.
  destruct (draw_sample_posts_nothing w) as [D1 D2]. rewrite D1, D2.
  destruct (res_out (run E draw_sample w)) as [smp | e].
  - destruct (send_sample_posts_once i c smp (res_world (run E draw_sample w)))
      as [S1 S2].
    rewrite S1, S2. repeat split; lia.
  - cbn. repeat split; try lia. discriminate.
Qed.

(** The pause and its handler ask for no prediction and one pause. *)
Lemma pause_posts i c' w :
  let t := res_trace
             (run E (try_except (ext (time_sleep (5 # 10)) ;; Ret c')
                       is_Exception (on_exception i c')) w) in
  count is_post t = 0%nat /\ (count is_sleep t <= 1)%nat.
Proof.
  cbv zeta. unfold try_except.
  rewrite trace_handle_with, trace_bind, run_generator_ext, !count_app.
  cbn [res_trace res_out res_world].
  assert (A : no_post
                match fst (E (time_sleep (5 # 10)) w) with
                | Returns a => res_trace (run E (Ret c') (snd (E (time_sleep (5 # 10)) w)))
                | Raises _ => []
                end).
  { destruct (fst (E (time_sleep (5 # 10)) w)); apply no_post_nil. }
  destruct A as [A1 A2]. rewrite A1, A2.
  match goal with
  | |- context [res_trace (match ?o with
                           | Returns a => run E (Ret a) ?w1
                           | Raises e => @?h e
                           end)] =>
      assert (B : no_post (res_trace (match o with
                                      | Returns a => run E (Ret a) w1
                                      | Raises e => h e
                                      end)))
  end.
  { destruct (res_out (run E (_ ;; Ret c') w)); [apply no_post_nil|].
    apply handler_posts_nothing. }
  destruct B as [B1 B2]. rewrite B1, B2. cbn. split; lia.
Qed.

(** One turn asks for at most one prediction, and pauses only after it
    asked for one. *)
Lemma iteration_posts i c w :
  let t := res_trace (run E (iteration i c) w) in
  (count is_post t <= 1)%nat /\ (count is_sleep t <= count is_post t)%nat.
Proof.
  cbv zeta. unfold iteration. rewrite trace_handle_with, !count_app.
  destruct (request_posts i c w) as (R1 & R2 & R3). cbv zeta in R1, R2, R3.
  rewrite R1.
  destruct (res_out (run E (_ ;; _) w)) as [c' | e].
  - rewrite (R3 c' eq_refl).
    destruct (pause_posts i c' (res_world (run E (sample <- draw_sample ;;
                                                  send_sample i c sample) w)))
      as [P1 P2].
    cbv zeta in P1, P2. rewrite P1. split; lia.
  - destruct (handler_posts_nothing i c e
                (res_world (run E (sample <- draw_sample ;;
                                   send_sample i c sample) w))) as [H1 H2].
    rewrite H1, H2. split; lia.
Qed.

Ltac always_written :=
  repeat first
    [ match goal with
      | |- always _ _ (bind _ _) => apply always_bind; [| intros ?]
      | |- always _ _ (try_except _ _ _) => apply always_try_except; [| intros ?]
      | |- always _ _ (handle_with _ _ _) =>
          apply always_handle_with; [| intros ? | intros ?]
      | |- always _ _ (for_fold _ _ _) => apply always_for_fold; intros ? ?
      | |- always _ _ (Ret _) => apply always_ret
      | |- always _ _ (Throw _) => apply always_throw
      | |- always _ _ (lift _) => apply always_lift
      | |- always ?E ?Q (call ?o) =>
          refine (always_call E Q o _);
          first [ exact I | reflexivity
                | split; [vm_compute; reflexivity | reflexivity] ]
      | |- always _ _ (match ?x with _ => _ end) => destruct x
      | |- always _ _ (let (_, _) := ?x in _) => destruct x
      end
    | progress unfold generate_sample_requests, iteration, draw_sample,
        send_sample, on_exception, ext ].

(** X10.  In every call, [generate_sample_requests] asks for at most twenty
    predictions, and it pauses at most once per prediction asked.  Each
    base sample is chosen among the five samples of the script, each
    prediction is asked of [http://127.0.0.1:8000/predict] with a timeout
    of ten seconds, and each pause lasts half a second. *)
Theorem at_most_twenty_predictions w :
  let t := res_trace (run E generate_sample_requests w) in
  (count is_post t <= 20)%nat /\
  (count is_sleep t <= count is_post t)%nat /\
  Forall (fun ev => as_written (ev_op ev)) t.
Proof.
  cbv zeta. split; [| split].
  - unfold generate_sample_requests.
    rewrite trace_bind, run_generator_ext. cbn [res_trace res_out res_world].
    rewrite count_app.
    destruct (fst (E (print _) w)) as [[] | e]; [| unfold count; cbn; lia].
    rewrite trace_bind, count_app.
    pose proof (for_fold_count_le E is_post 1 (seq 0 20) iteration
                  (fun i c w' => proj1 (iteration_posts i c w')) (0, 0)
                  (snd (E (print (py "🚀 Generating sample prediction requests..."))
                          w))) as L.
    change (List.length (seq 0 20)) with 20%nat in L.
    assert (T : forall c w',
              count is_post
                (res_trace
                   (run E
                      (let '(successful_requests, failed_requests) := c in
                       ext (print (nl ++ py "📊 Summary:")) ;;
                       ext (print (py "- Successful requests: " ++
                                   str_of_int successful_requests)) ;;
                       ext (print (py "- Failed requests: " ++
                                   str_of_int failed_requests)) ;;
                       ext (print (py "- Total requests: " ++
                                   str_of_int (successful_requests + failed_requests))) ;;
                       Ret (successful_requests, failed_requests)) w')) = 0%nat).
    { intros [s f] w'. revert w'.
      change (every_trace E (fun t => count is_post t = 0%nat)
                (ext (print (nl ++ py "📊 Summary:")) ;;
                 ext (print (py "- Successful requests: " ++ str_of_int s)) ;;
                 ext (print (py "- Failed requests: " ++ str_of_int f)) ;;
                 ext (print (py "- Total requests: " ++ str_of_int (s + f))) ;;
                 Ret (s, f))).
      unfold ext.
      repeat trace_step (eq_refl : count is_post (@nil (event op resp)) = 0%nat)
                        (fun a b (Ha : count is_post a = 0%nat)
                                 (Hb : count is_post b = 0%nat) =>
                           eq_trans (count_app is_post a b)
                                    (f_equal2 Nat.add Ha Hb)). }
    match goal with
    | |- context [count is_post (res_trace (run E (for_fold ?xs ?s ?b) ?w0))] =>
        set (n := count is_post (res_trace (run E (for_fold xs s b) w0))) in *
    end.
    clearbody n.
    destruct (res_out (run E (for_fold _ _ _) _)) as [c | e];
      [rewrite T |]; unfold count; cbn; lia.
  - revert w.
    change (every_trace E (fun t => (count is_sleep t <= count is_post t)%nat)
              generate_sample_requests).
    assert (Hnil : (count is_sleep (@nil (event op resp))
                    <= count is_post (@nil (event op resp)))%nat)
      by (cbn; lia).
    assert (Happ : forall a b : list (event op resp),
              (count is_sleep a <= count is_post a)%nat ->
              (count is_sleep b <= count is_post b)%nat ->
              (count is_sleep (a ++ b) <= count is_post (a ++ b))%nat).
    { intros a b Ha Hb. rewrite !count_app. lia. }
    unfold generate_sample_requests.
    repeat first
      [ match goal with
        | |- every_trace _ _ (iteration _ _) =>
            intros w; apply iteration_posts
        end
      | trace_step Hnil Happ
      | progress unfold ext ].
  - revert w. change (always E as_written generate_sample_requests).
    always_written.
Qed.

End AnyEnvironment.

(** ** The theorems at work *)

Lemma scripted_is_polite : polite scripted.
Proof.
  split; [reflexivity|].
  intros o w e. destruct o; cbn; try discriminate.
  destruct seq; [| discriminate]. now intros [= <-].
Qed.

Lemma scripted_sleep_is_sound : sleep_is_sound scripted.
Proof. intros seconds w e H. discriminate H. Qed.

(** Every request succeeds and every pause returns: twenty successes. *)
Lemma counters_account_for_every_turn_witness :
  res_out (run scripted generate_sample_requests tt) = Returns (20, 0) /\
  (0 <= 20 <= 20 /\ 0 <= 0 /\ 20 <= 20 + 0 <= 40) /\
  20 + 0 = 20.
Proof.
  assert (H : res_out (run scripted generate_sample_requests tt)
              = Returns (20, 0)) by (vm_compute; reflexivity).
  split; [exact H|].
  destruct (counters_account_for_every_turn scripted tt 20 0 H) as [B S].
  split; [exact B | exact (S scripted_sleep_is_sound)].
Defined.

(** Every request succeeds and every pause fails: each of the twenty turns
    is counted as a success and as a failure. *)
Lemma failed_pauses_are_counted_as_failed_requests :
  res_out (run restless generate_sample_requests tt) = Returns (20, 20).
Proof. vm_compute; reflexivity. Qed.

Lemma generator_always_reports_witness :
  polite scripted /\
  exists s f, res_out (run scripted generate_sample_requests tt) = Returns (s, f).
Proof.
  split; [exact scripted_is_polite|].
  exact (generator_always_reports scripted tt scripted_is_polite).
Defined.

End GeneratorLoopFacts.

(* ===================================================================== *)
(** * troubleshoot_monitoring.py: the checks one by one *)
(* ===================================================================== *)

Module TroubleshooterCheckFacts.
Import Troubleshooter TroubleshooterFacts.
#[local] Open Scope prog_scope.

#[local] Arguments ext : simpl never.
#[local] Arguments py : simpl never.
#[local] Arguments str_of_int : simpl never.
#[local] Arguments dict_set : simpl never.
#[local] Arguments N.eqb : simpl never.

(** Case analysis on every answer a run is waiting for. *)
Ltac answers E :=
  repeat match goal with
         | |- context [E ?o ?s] => destruct (E o s) as [[?v | ?e] ?w]; cbn
         end.

Section AnyEnvironment.
Context {W : Type} (E : env op resp W).

(** ** The metrics endpoints *)

Lemma metrics_ports :
  dict_getitem services (py "housing-api")
    = Returns (ServiceInfo (py "http://localhost:8000") 8000) /\
  dict_getitem services (py "iris-api")
    = Returns (ServiceInfo (py "http://localhost:8001") 8001).
Proof. split; vm_compute; reflexivity. Qed.

Lemma check_metrics_shape w :
  exists a1 a2 a3,
    res_trace (run E check_metrics_availability w) =
      [ Ev (requests_get (py "http://localhost:9090/api/v1/query?query=up") 10) a1;
        Ev (requests_get (py "http://localhost:8000/mlops-metrics") 10) a2;
        Ev (requests_get (py "http://localhost:8001/mlops-metrics") 10) a3 ] /\
    res_out (run E check_metrics_availability w) =
      Returns [ (py "prometheus", answered_200 a1);
                (py "housing-api", answered_200 a2);
                (py "iris-api", answered_200 a3) ].
Proof.
  unfold check_metrics_availability.
  destruct metrics_ports as [P1 P2].
  cbn [for_fold]. rewrite P1, P2.
  unfold try_except, bind, ext, call, lift. cbn.
  answers E.
  all: match goal with
       | |- exists a1 a2 a3, [Ev _ ?x1; Ev _ ?x2; Ev _ ?x3] = _ /\ _ =>
           exists x1, x2, x3
       end.
  all: split; vm_compute; reflexivity.
Qed.

(** X11.  [check_metrics_availability] returns in every environment: it
    asks the three metrics endpoints in turn, each with a timeout of ten
    seconds and whatever the earlier ones answered, and it records an
    endpoint as available exactly when the answer is a response with
    status 200; an exception of any class, the interruption by the user
    included, is recorded as not available. *)
Theorem metrics_check_never_raises w :
  exists a1 a2 a3,
    res_trace (run E check_metrics_availability w) =
      [ Ev (requests_get (py "http://localhost:9090/api/v1/query?query=up") 10) a1;
        Ev (requests_get (py "http://localhost:8000/mlops-metrics") 10) a2;
        Ev (requests_get (py "http://localhost:8001/mlops-metrics") 10) a3 ] /\
    res_out (run E check_metrics_availability w) =
      Returns [ (py "prometheus", answered_200 a1);
                (py "housing-api", answered_200 a2);
                (py "iris-api", answered_200 a3) ].
Proof. apply check_metrics_shape. Qed.

(** ** The health endpoints *)

Ltac collect_answers t :=
  lazymatch t with
  | nil => constr:(@nil (outcome response))
  | cons (Ev _ ?x) ?t' =>
      let r := collect_answers t' in constr:(@cons (outcome response) x r)
  end.

Ltac health_cases E :=
  repeat first
    [ match goal with
      | |- context [E ?o ?s] => destruct (E o s) as [[?v | ?e] ?w]; cbn
      end
    | match goal with
      | |- context [is_RequestException ?e] =>
          destruct (is_RequestException e) eqn:?; cbn
      end ].

Lemma check_health_shape w :
  let R := run E check_service_health w in
  exists answers,
    res_trace R = health_requests answers /\
    match res_out R with
    | Returns health_status =>
        health_status = combine (dict_keys services) (map health_of answers) /\
        List.length answers = 6 /\
        Forall (fun a => forall e, a = Raises e -> is_RequestException e = true)
          answers
    | Raises e =>
        is_RequestException e = false /\
        exists before, answers = before ++ [Raises e]
    end.
Proof.
  cbv zeta. unfold check_service_health, services, health_url.
  cbn [for_fold url port].
  replace (str_eqb (py "grafana") (py "grafana")) with true by reflexivity.
  replace (str_eqb (py "prometheus") (py "grafana")) with false by reflexivity.
  replace (str_eqb (py "prometheus") (py "prometheus")) with true by reflexivity.
  replace (str_eqb (py "housing-api") (py "grafana")) with false by reflexivity.
  replace (str_eqb (py "housing-api") (py "prometheus")) with false by reflexivity.
  replace (str_eqb (py "iris-api") (py "grafana")) with false by reflexivity.
  replace (str_eqb (py "iris-api") (py "prometheus")) with false by reflexivity.
  replace (str_eqb (py "retraining") (py "grafana")) with false by reflexivity.
  replace (str_eqb (py "retraining") (py "prometheus")) with false by reflexivity.
  replace (str_eqb (py "mlflow") (py "grafana")) with false by reflexivity.
  replace (str_eqb (py "mlflow") (py "prometheus")) with false by reflexivity.
  cbv iota.
  unfold try_except, bind, ext, call. cbn.
  health_cases E.
  all: match goal with
       | |- exists answers, ?t = _ /\ _ =>
           let a := collect_answers t in exists a
       end.
  all: split; [vm_compute; reflexivity|].
  all: first
         [ split; [vm_compute; reflexivity|]; split; [reflexivity|];
           repeat (constructor; [intros ? [= <-] || intros ? [=]; assumption |]);
           constructor
         | split; [assumption|];
           match goal with
           | |- exists before, ?l = _ =>
               exists (removelast l); reflexivity
           end ].
Qed.

(** X12.  [check_service_health] asks the health endpoints of the six
    services in the order of the registry, each with a timeout of five
    seconds.  When it returns, it has asked all six, and the entry of a
    service holds the status of its answer, or the text of the
    [RequestException] the request raised.  It raises only an exception
    that is not a [RequestException], at the request that raised it, and
    the entries recorded until then are lost. *)
Theorem health_check_asks_every_service w :
  let R := run E check_service_health w in
  exists answers,
    res_trace R = health_requests answers /\
    (forall health_status, res_out R = Returns health_status ->
       health_status = combine (dict_keys services) (map health_of answers) /\
       List.length answers = 6) /\
    (forall e, res_out R = Raises e ->
       is_RequestException e = false /\
       exists before, answers = before ++ [Raises e]).
Proof.
  cbv zeta. destruct (check_health_shape w) as (answers & Ht & Ho).
  cbv zeta in Ht, Ho. exists answers. split; [exact Ht|].
  destruct (res_out (run E check_service_health w)) as [hs | e0].
  - split; [| discriminate]. intros hs' [= <-]. tauto.
  - split; [discriminate|]. intros e [= <-]. exact Ho.
Qed.

(** ** The ports *)

Ltac collect_probes t :=
  lazymatch t with
  | nil => constr:(@nil (Z * N * Z))
  | cons (Ev socket_socket (Returns ?s))
      (cons _ (cons (Ev (sock_connect_ex _ _ ?p) (Returns ?r)) (cons _ ?t'))) =>
      let rest := collect_probes t' in
      constr:(@cons (Z * N * Z) (p, s, r) rest)
  end.

Lemma check_ports_shape w :
  let R := run E check_port_availability w in
  exists held,
    scan N.eqb sock_opened sock_closed None (res_trace R) = Some held /\
    match res_out R with
    | Returns port_status =>
        held = None /\
        exists probes,
          res_trace R = port_requests probes /\
          map (fun probe => fst (fst probe)) probes = service_ports /\
          port_status =
            combine (dict_keys services)
                    (map (fun probe => (snd probe =? 0)%Z) probes)
    | Raises _ => True
    end.
Proof.
  cbv zeta. unfold check_port_availability, services.
  cbn [for_fold port]. unfold bind, ext, call. cbn.
  answers E.
  all: rewrite ?N.eqb_refl.
  all: eexists; (split; [reflexivity|]); try exact I.
  all: split; [reflexivity|].
  all: match goal with
       | |- exists probes, ?t = _ /\ _ =>
           let p := collect_probes t in exists p
       end.
  all: repeat match goal with
              | u : resp (sock_settimeout _ _) |- _ => destruct u
              | u : resp (sock_close _) |- _ => destruct u
              end.
  all: split; [reflexivity|]; split; vm_compute; reflexivity.
Qed.

(** X13.  [check_port_availability] holds at most one socket at a time.
    When it returns, it has, for each of the six ports of the registry in
    turn, created a socket, set its timeout to one second, tried to connect
    to the port on [localhost] and closed the socket, and a port is
    recorded as available exactly when [connect_ex] returned 0. *)
Theorem port_check_closes_its_sockets w :
  let R := run E check_port_availability w in
  (exists held,
     scan N.eqb sock_opened sock_closed None (res_trace R) = Some held) /\
  (forall port_status, res_out R = Returns port_status ->
     bracketed N.eqb sock_opened sock_closed (res_trace R) /\
     exists probes,
       res_trace R = port_requests probes /\
       map (fun probe => fst (fst probe)) probes = service_ports /\
       port_status =
         combine (dict_keys services)
                 (map (fun probe => (snd probe =? 0)%Z) probes)).
Proof.
  cbv zeta. destruct (check_ports_shape w) as (held & Hs & Ho).
  cbv zeta in Hs, Ho. split; [eauto|].
  intros port_status H. rewrite H in Ho. destruct Ho as [-> Ho].
  split; [exact Hs | exact Ho].
Qed.

(** ** A pass without issues *)

#[local] Abbreviation printed_line :=
  (fun ev : event op resp => exists msg, ev = Ev (print msg) (Returns tt)).

Lemma gets_app a b : gets (a ++ b) = gets a ++ gets b.
Proof. apply flat_map_app. Qed.

Lemma connects_app a b : connects (a ++ b) = connects a ++ connects b.
Proof. apply flat_map_app. Qed.

Lemma printed_line_passed t : Forall printed_line t -> Forall passed t.
Proof.
  apply Forall_impl. intros ev [msg ->]. cbn. now exists tt.
Qed.

Lemma printed_line_probes t :
  Forall printed_line t -> gets t = [] /\ connects t = [].
Proof.
  induction 1 as [| ev t [msg ->] _ [IH1 IH2]]; [now split|].
  split; [exact IH1 | exact IH2].
Qed.

(** A loop that adds to the issues and returns none was given none, and
    none of its turns added one. *)
Lemma for_fold_stays_empty {X Y} (Good : X -> Prop) (xs : list X)
    (body : X -> list Y -> M (list Y)) :
  (forall x s w, res_out (run E (body x s) w) = Returns [] ->
     s = [] /\ Good x /\ Forall printed_line (res_trace (run E (body x s) w))) ->
  forall s w, res_out (run E (for_fold xs s body) w) = Returns [] ->
    s = [] /\ Forall Good xs /\
    Forall printed_line (res_trace (run E (for_fold xs s body) w)).
Proof.
  intros Hb. induction xs as [| x xs IH]; intros s w H; simpl in H |- *.
  - injection H as ->. repeat split; constructor.
  - apply bind_returned in H as (s1 & H1 & H2 & Ht & _).
    apply IH in H2 as (-> & G2 & T2).
    apply Hb in H1 as (-> & G1 & T1).
    simpl in Ht. rewrite Ht.
    repeat split; [now constructor | now apply Forall_app].
Qed.

Lemma ext_returned (o : op) w v :
  res_out (run E (ext o) w) = Returns v ->
  res_trace (run E (ext o) w) = [Ev o (Returns v)].
Proof. unfold ext. rewrite run_call. cbn. now intros ->. Qed.

Lemma not_nil_app {X} (l : list X) (x : X) : l ++ [x] <> [].
Proof. now destruct l. Qed.

(** Leaves of a symbolic run that returned no issue. *)
Ltac clean_leaf :=
  let L := fresh "L" in
  intros L; try discriminate L; injection L as L;
  try (exfalso; exact (not_nil_app _ _ L)); try subst.

Lemma docker_report_clean issues w :
  let R := run E (report_check check_docker_status issues) w in
  res_out R = Returns [] ->
  issues = [] /\ Forall passed (res_trace R) /\
  gets (res_trace R) = [] /\ connects (res_trace R) = [].
Proof.
  cbv zeta.
  unfold report_check, check_docker_status, try_except, bind, ext, call. cbn.
  destruct (E (subprocess_run _ _) w) as [[c | e] w1]; cbn;
    [ destruct (returncode c =? 0)%Z eqn:RC; cbn
    | destruct (is_TimeoutExpired_or_FileNotFound e); cbn ];
    answers E; clean_leaf.
  apply Z.eqb_eq in RC.
  repeat split. repeat constructor; cbn; eauto.
Qed.

Lemma compose_report_clean issues w :
  let R := run E (report_check check_compose_file issues) w in
  res_out R = Returns [] ->
  issues = [] /\ Forall passed (res_trace R) /\
  gets (res_trace R) = [] /\ connects (res_trace R) = [].
Proof.
  cbv zeta.
  unfold report_check, check_compose_file, try_except, bind, ext, call. cbn.
  destruct (E (os_path_exists _) w) as [[[|] | e] w0]; cbn;
    [ destruct (E (subprocess_run _ _) w0) as [[c | e] w1]; cbn;
      [ destruct (returncode c =? 0)%Z eqn:RC; cbn
      | destruct (is_TimeoutExpired_or_FileNotFound e); cbn ]
    | | ];
    answers E; clean_leaf.
  apply Z.eqb_eq in RC.
  repeat split. repeat constructor; cbn; eauto.
Qed.

(** A listing was obtained and parsed when the check returns entries. *)
Lemma container_check_returned w d :
  res_out (run E check_container_status w) = Returns d -> d <> [] ->
  exists c,
    res_trace (run E check_container_status w) =
      [Ev (subprocess_run [py "docker-compose"; py "-f"; compose_file; py "ps"] 30)
          (Returns c)] /\
    returncode c = 0%Z /\ parse_container_status (stdout c) = d.
Proof.
  unfold check_container_status, try_except, bind, ext, call. cbn.
  destruct (E (subprocess_run _ _) w) as [[c | e] w1]; cbn;
    [ destruct (returncode c =? 0)%Z eqn:RC; cbn
    | destruct (is_TimeoutExpired_or_FileNotFound e); cbn ];
    intros H N; try discriminate H; injection H as H; try congruence.
  exists c. apply Z.eqb_eq in RC. auto.
Qed.

Lemma container_phase_clean issues w :
  let R := run E (container_phase issues) w in
  res_out R = Returns [] ->
  issues = [] /\ Forall passed (res_trace R) /\
  gets (res_trace R) = [] /\ connects (res_trace R) = [] /\
  exists c,
    In (Ev (subprocess_run [py "docker-compose"; py "-f"; compose_file; py "ps"] 30)
           (Returns c)) (res_trace R) /\
    parse_container_status (stdout c) <> [] /\
    Forall (fun item => running (snd item) = true)
      (parse_container_status (stdout c)).
Proof.
  cbv zeta. unfold container_phase. intros H.
  apply bind_returned in H as ([] & H1 & H & -> & _).
  apply bind_returned in H as (d & H2 & H & -> & _).
  apply ext_returned in H1. rewrite H1.
  destruct d as [| item d].
  - exfalso. apply bind_returns in H as (u & _ & H). cbn in H.
    injection H as H. exact (not_nil_app _ _ H).
  - destruct (container_check_returned _ _ H2) as (c & Hc & RC & P);
      [discriminate|].
    rewrite Hc.
    apply (for_fold_stays_empty (fun item => running (snd item) = true)) in H.
    + destruct H as (-> & G & T).
      destruct (printed_line_probes _ T) as [T1 T2].
      split; [reflexivity|]. split; [| split; [| split]].
      * constructor; [cbn; now exists tt|].
        constructor; [cbn; eauto|]. now apply printed_line_passed.
      * cbn. exact T1.
      * cbn. exact T2.
      * exists c. rewrite P. repeat split; [right; now left | discriminate | exact G].
    + intros [name st] s w'. unfold bind, ext, call.
      destruct (running st) eqn:Run; cbn; answers E; clean_leaf.
      destruct v. repeat split; [exact Run | repeat constructor; eauto].
Qed.

Lemma port_requests_passed probes :
  Forall (fun probe : Z * N * Z => snd probe = 0%Z) probes ->
  Forall passed (port_requests probes).
Proof.
  induction 1 as [| [[p s] r] probes H _ IH]; [constructor|].
  cbn in H. subst r. cbn.
  repeat (constructor; [cbn; eauto|]). exact IH.
Qed.

Lemma port_requests_probes probes :
  gets (port_requests probes) = [] /\
  map (fun c => snd (fst c)) (connects (port_requests probes)) =
    map (fun probe => fst (fst probe)) probes.
Proof.
  induction probes as [| [[p s] r] probes [IH1 IH2]]; [now split|].
  split; [exact IH1|].
  change (p :: map (fun c : pystr * Z * outcome Z => snd (fst c))
                (connects (port_requests probes)) =
          p :: map (fun probe : Z * N * Z => fst (fst probe)) probes).
  now rewrite IH2.
Qed.

Lemma port_phase_clean issues w :
  let R := run E (port_phase issues) w in
  res_out R = Returns [] ->
  issues = [] /\ Forall passed (res_trace R) /\
  gets (res_trace R) = [] /\
  map (fun c => snd (fst c)) (connects (res_trace R)) = service_ports.
Proof.
  cbv zeta. unfold port_phase. intros H.
  apply bind_returned in H as ([] & H1 & H & -> & _).
  apply bind_returned in H as (port_status & H2 & H & -> & _).
  apply ext_returned in H1. rewrite H1.
  destruct (check_ports_shape
              (res_world (run E (ext (print (nl ++ py "🔌 Port Availability:"))) w)))
    as (held & _ & Ho).
  cbv zeta in Ho. rewrite H2 in Ho. destruct Ho as (_ & probes & Ht & Hp & Hs).
  apply (for_fold_stays_empty (fun item => snd item = true)) in H.
  - destruct H as (-> & G & T).
    destruct (printed_line_probes _ T) as [T1 T2].
    destruct (port_requests_probes probes) as [P1 P2].
    assert (Z0 : Forall (fun probe : Z * N * Z => snd probe = 0%Z) probes).
    { subst port_status.
      do 7 (destruct probes as [| [[? ?] ?] probes]; try discriminate Hp).
      cbn in G.
      repeat match goal with
             | H : Forall _ (_ :: _) |- _ =>
                 apply Forall_cons_iff in H; destruct H as [? H]
             end.
      cbn in *.
      repeat (constructor; [cbn; now apply Z.eqb_eq |]). constructor. }
    split; [reflexivity|]. rewrite Ht. split; [| split].
    + constructor; [cbn; now exists tt|].
      apply Forall_app; split;
        [now apply port_requests_passed | now apply printed_line_passed].
    + now rewrite !gets_app, P1, T1.
    + rewrite !connects_app, T2, app_nil_r.
      change (map (fun c : pystr * Z * outcome Z => snd (fst c))
                (connects (port_requests probes)) = service_ports).
      now rewrite P2.
  - intros [service available] s w'. unfold bind, ext, call, lift.
    destruct (dict_getitem services service); cbn; [| discriminate].
    destruct available; cbn; answers E; clean_leaf.
    destruct v. repeat split; repeat constructor; eauto.
Qed.

Lemma health_phase_clean issues w :
  let R := run E (health_phase issues) w in
  res_out R = Returns [] ->
  issues = [] /\ Forall passed (res_trace R) /\
  map (fun g => fst (fst g)) (gets (res_trace R)) = health_urls /\
  connects (res_trace R) = [].
Proof.
  cbv zeta. unfold health_phase. intros H.
  apply bind_returned in H as ([] & H1 & H & -> & _).
  apply bind_returned in H as (health_status & H2 & H & -> & _).
  apply ext_returned in H1. rewrite H1.
  destruct (check_health_shape
              (res_world (run E (ext (print (nl ++ py "🏥 Service Health:"))) w)))
    as (answers & Ht & Ho).
  cbv zeta in Ht, Ho. rewrite H2 in Ho. destruct Ho as (Hs & Hlen & _).
  apply (for_fold_stays_empty (fun item => get_healthy (snd item) = true)) in H.
  - destruct H as (-> & G & T).
    destruct (printed_line_probes _ T) as [T1 T2].
    subst health_status.
    do 7 (destruct answers as [| ? answers]; try discriminate Hlen).
    cbn in G.
    repeat match goal with
           | H : Forall _ (_ :: _) |- _ =>
               apply Forall_cons_iff in H; destruct H as [? H]
           end.
    repeat match goal with
           | H : get_healthy (snd (_, health_of ?a)) = true |- _ =>
               destruct a; cbn in H; [apply Z.eqb_eq in H | discriminate H]
           end.
    split; [reflexivity|]. rewrite Ht. split; [| split].
    + constructor; [cbn; now exists tt|].
      apply Forall_app; split; [| now apply printed_line_passed].
      unfold health_requests. cbn [combine map health_urls fst snd].
      repeat (constructor; [cbn; eauto|]). constructor.
    + rewrite !gets_app, T1, app_nil_r. reflexivity.
    + rewrite !connects_app, T2. reflexivity.
  - intros [service h] s w'. unfold bind, ext, call.
    destruct (get_healthy h) eqn:Healthy; cbn; answers E; clean_leaf.
    destruct v. repeat split; [exact Healthy | repeat constructor; eauto].
Qed.

Lemma metrics_phase_clean issues w :
  let R := run E (metrics_phase issues) w in
  res_out R = Returns [] ->
  issues = [] /\ Forall passed (res_trace R) /\
  map (fun g => fst (fst g)) (gets (res_trace R)) = metrics_urls /\
  connects (res_trace R) = [].
Proof.
  cbv zeta. unfold metrics_phase. intros H.
  apply bind_returned in H as ([] & H1 & H & -> & _).
  apply bind_returned in H as (metrics_status & H2 & H & -> & _).
  apply ext_returned in H1. rewrite H1.
  destruct (check_metrics_shape
              (res_world (run E (ext (print (nl ++ py "📊 Metrics Availability:"))) w)))
    as (a1 & a2 & a3 & Ht & Ho).
  rewrite H2 in Ho. injection Ho as ->.
  apply (for_fold_stays_empty (fun item => snd item = true)) in H.
  - destruct H as (-> & G & T).
    destruct (printed_line_probes _ T) as [T1 T2].
    repeat match goal with
           | H : Forall _ (_ :: _) |- _ =>
               apply Forall_cons_iff in H; destruct H as [? H]
           end.
    repeat match goal with
           | H : snd (_, answered_200 ?a) = true |- _ =>
               destruct a; cbn in H; [apply Z.eqb_eq in H | discriminate H]
           end.
    split; [reflexivity|]. rewrite Ht. split; [| split].
    + constructor; [cbn; now exists tt|].
      apply Forall_app; split; [| now apply printed_line_passed].
      repeat (constructor; [cbn; eauto|]). constructor.
    + rewrite !gets_app, T1, app_nil_r. reflexivity.
    + rewrite !connects_app, T2. reflexivity.
  - intros [service available] s w'. unfold bind, ext, call.
    destruct available; cbn; answers E; clean_leaf.
    destruct v. repeat split; repeat constructor; eauto.
Qed.

(** X14.  When [run_diagnostics] returns [True], every probe of the pass
    was made and passed: the three commands ended with exit code 0, the
    compose file exists, the listing of containers has at least one entry
    and every entry is running, each of the six ports of the registry
    accepted a connection, each of the six health endpoints and each of
    the three metrics endpoints answered with status 200, and every line
    was printed. *)
Theorem clean_verdict_means_every_probe_passed w :
  let R := run E run_diagnostics w in
  res_out R = Returns true ->
  Forall passed (res_trace R) /\
  map (fun c => snd (fst c)) (connects (res_trace R)) = service_ports /\
  map (fun g => fst (fst g)) (gets (res_trace R)) = health_urls ++ metrics_urls /\
  exists c,
    In (Ev (subprocess_run [py "docker-compose"; py "-f"; compose_file; py "ps"] 30)
           (Returns c)) (res_trace R) /\
    parse_container_status (stdout c) <> [] /\
    Forall (fun item => running (snd item) = true)
      (parse_container_status (stdout c)).
Proof.
  cbv zeta. unfold run_diagnostics. intros H.
  apply bind_returned in H as ([] & H0 & H & -> & _).
  apply bind_returned in H as (issues & HC & H & -> & _).
  apply bind_returned in H as ([] & HF & H & -> & _).
  apply ext_returned in H0. rewrite H0.
  destruct issues as [| i issues]; [| discriminate H].
  apply ext_returned in HF. rewrite HF. clear H HF H0.
  unfold collect_issues in *.
  apply bind_returned in HC as (i1 & C1 & HC & -> & _).
  apply bind_returned in HC as (i2 & C2 & HC & -> & _).
  apply bind_returned in HC as (i3 & C3 & HC & -> & _).
  apply bind_returned in HC as (i4 & C4 & HC & -> & _).
  apply bind_returned in HC as (i5 & C5 & HC & -> & _).
  apply metrics_phase_clean in HC as (-> & M1 & M2 & M3).
  apply health_phase_clean in C5 as (-> & S1 & S2 & S3).
  apply port_phase_clean in C4 as (-> & P1 & P2 & P3).
  apply container_phase_clean in C3 as (-> & K1 & K2 & K3 & c & K4 & K5 & K6).
  apply compose_report_clean in C2 as (-> & F1 & F2 & F3).
  apply docker_report_clean in C1 as (_ & D1 & D2 & D3).
  split; [| split; [| split]].
  - constructor; [cbn; now exists tt|].
    repeat (apply Forall_app; split; trivial).
    repeat constructor. cbn. now exists tt.
  - change (connects ([?x] ++ ?t)) with (connects t).
    rewrite !connects_app, D3, F3, K3, M3, S3. cbn [app].
    rewrite !map_app, P3. reflexivity.
  - change (gets ([?x] ++ ?t)) with (gets t).
    rewrite !gets_app, D2, F2, K2, P2. cbn [app].
    rewrite !map_app, S2, M2. reflexivity.
  - exists c. split; [| split; assumption].
    apply in_or_app; right. apply in_or_app; left.
    do 2 (apply in_or_app; right). apply in_or_app; left. exact K4.
Qed.

End AnyEnvironment.

(** ** The theorems at work *)

(** Everything is up: the verdict is [True] and every probe passed. *)
Lemma clean_verdict_means_every_probe_passed_witness :
  let R := run (scripted all_up_listing) run_diagnostics tt in
  res_out R = Returns true /\
  Forall passed (res_trace R) /\
  map (fun c => snd (fst c)) (connects (res_trace R)) = service_ports /\
  map (fun g => fst (fst g)) (gets (res_trace R)) = health_urls ++ metrics_urls /\
  exists c,
    In (Ev (subprocess_run [py "docker-compose"; py "-f"; compose_file; py "ps"] 30)
           (Returns c)) (res_trace R) /\
    parse_container_status (stdout c) <> [] /\
    Forall (fun item => running (snd item) = true)
      (parse_container_status (stdout c)).
Proof.
  cbv zeta.
  assert (H : res_out (run (scripted all_up_listing) run_diagnostics tt)
              = Returns true) by (vm_compute; reflexivity).
  split; [exact H|].
  exact (clean_verdict_means_every_probe_passed (scripted all_up_listing) tt H).
Defined.

(** Every port accepts the connection: six sockets, each closed. *)
Lemma port_check_closes_its_sockets_witness :
  let R := run (scripted []) check_port_availability tt in
  exists port_status,
    res_out R = Returns port_status /\
    bracketed N.eqb sock_opened sock_closed (res_trace R) /\
    exists probes,
      res_trace R = port_requests probes /\
      map (fun probe => fst (fst probe)) probes = service_ports /\
      port_status =
        combine (dict_keys services)
                (map (fun probe => (snd probe =? 0)%Z) probes).
Proof.
  cbv zeta. eexists. split; [vm_compute; reflexivity|].
  apply (proj2 (port_check_closes_its_sockets (scripted []) tt)).
  vm_compute; reflexivity.
Defined.

(** The connection attempt raises: the check raises as well, and the socket
    it created for the attempt is not closed. *)
Lemma failed_connection_leaves_its_socket_open :
  let R := run unresolvable_host check_port_availability tt in
  res_out R = Raises (Exn OtherException (py "Name or service not known")) /\
  scan N.eqb sock_opened sock_closed None (res_trace R) = Some (Some 3%N).
Proof. cbv zeta. split; vm_compute; reflexivity. Qed.

End TroubleshooterCheckFacts.

(* ===================================================================== *)
(** * troubleshoot_monitoring.py: the hints *)
(* ===================================================================== *)

Module TroubleshooterHintFacts.
Import Troubleshooter TroubleshooterFacts.

#[local] Arguments py : simpl never.

(** ** Texts inside a quoted list *)

(** A text without the character [q] that starts a string with a [q] in
    it starts the part before the [q]. *)
Lemma startswith_before (q : char) (k a b : pystr) :
  ~ In q k -> startswith (a ++ q :: b) k = true -> startswith a k = true.
Proof.
  revert a. induction k as [| c k IH]; intros a Hq H; [now destruct a|].
  destruct a as [| x a]; simpl in H |- *.
  - apply andb_prop in H as [C _]. apply char_eqb_eq in C. subst c.
    exfalso. apply Hq. now left.
  - apply andb_prop in H as [C H]. rewrite C. simpl.
    apply IH; [| exact H]. intros I. apply Hq. now right.
Qed.

Lemma str_in_nil (k : pystr) : k <> [] -> str_in k [] = false.
Proof. destruct k; [congruence | reflexivity]. Qed.

Lemma str_in_cons (k : pystr) (x : char) (s : pystr) :
  str_in k s = true -> str_in k (x :: s) = true.
Proof. intros H. simpl. rewrite H. apply orb_true_r. Qed.

(** A text without [q] lies on one side of a [q]. *)
Lemma str_in_across (q : char) (k a b : pystr) :
  ~ In q k -> k <> [] ->
  str_in k (a ++ q :: b) = str_in k a || str_in k b.
Proof.
  intros Hq Hk. induction a as [| x a IH].
  - rewrite str_in_nil by exact Hk. simpl app. simpl orb.
    destruct k as [| c k]; [congruence|].
    change (str_in (c :: k) (q :: b))
      with (startswith (q :: b) (c :: k) || str_in (c :: k) b).
    replace (startswith (q :: b) (c :: k)) with false; [reflexivity|].
    symmetry. simpl. destruct (char_eqb c q) eqn:C; [| reflexivity].
    apply char_eqb_eq in C. subst c. exfalso. apply Hq. now left.
  - change (str_in k ((x :: a) ++ q :: b))
      with (startswith (x :: a ++ q :: b) k || str_in k (a ++ q :: b)).
    change (str_in k (x :: a)) with (startswith (x :: a) k || str_in k a).
    rewrite IH.
    destruct (startswith (x :: a ++ q :: b) k) eqn:S.
    + rewrite (startswith_before q k (x :: a) b Hq S). reflexivity.
    + destruct (startswith (x :: a) k) eqn:S'; [| now rewrite orb_assoc].
      exfalso.
      apply startswith_app in S' as [post Hp].
      assert (S2 : startswith (x :: a ++ q :: b) k = true).
      { change (x :: a ++ q :: b) with ((x :: a) ++ q :: b). rewrite Hp.
        rewrite <- app_assoc. clear.
        generalize (post ++ q :: b). intros t.
        induction k as [| c k IHk]; [now destruct t|].
        simpl. rewrite IHk. now rewrite (proj2 (char_eqb_eq c c) eq_refl). }
      congruence.
Qed.

(** [repr] shows a plain text between single quotes. *)
Lemma repr_plain_char (c : char) :
  plain_char c = true -> repr_char 39%N c = [c].
Proof.
  unfold plain_char, repr_char, char_eqb. intros H.
  apply andb_prop in H as [H H4]. apply andb_prop in H as [H H3].
  apply andb_prop in H as [H1 H2].
  apply N.leb_le in H1. apply N.ltb_lt in H2.
  apply negb_true_iff in H3, H4. rewrite H3, H4. cbn [orb].
  replace (c =? 9)%N with false by (symmetry; apply N.eqb_neq; lia).
  replace (c =? 10)%N with false by (symmetry; apply N.eqb_neq; lia).
  replace (c =? 13)%N with false by (symmetry; apply N.eqb_neq; lia).
  replace (c <? 32)%N with false by (symmetry; apply N.ltb_ge; lia).
  replace (c =? 127)%N with false by (symmetry; apply N.eqb_neq; lia).
  reflexivity.
Qed.

Lemma repr_plain (i : pystr) :
  plain i = true -> repr_str i = 39%N :: i ++ [39%N].
Proof.
  intros H. unfold repr_str.
  assert (Q : existsb (char_eqb 39%N) i = false).
  { unfold plain in H. induction i as [| c i IH]; [reflexivity|].
    cbn [forallb existsb] in H |- *. apply andb_prop in H as [Hc H].
    rewrite (IH H).
    unfold plain_char in Hc. apply andb_prop in Hc as [Hc _].
    apply andb_prop in Hc as [_ Hc]. apply negb_true_iff in Hc.
    unfold char_eqb. rewrite N.eqb_sym. now rewrite Hc. }
  rewrite Q. cbn [andb]. f_equal. f_equal. clear Q.
  unfold plain in H. induction i as [| c i IH]; [reflexivity|].
  cbn [forallb flat_map] in H |- *. apply andb_prop in H as [Hc H].
  rewrite (repr_plain_char c Hc), (IH H). reflexivity.
Qed.

(** What makes a text a key that is found in [str(issues)] only inside an
    issue: it holds no single quote, and it is found neither in the
    brackets nor in the separator of the list. *)
Lemma key_in_quoted (k : pystr) (l : list pystr) :
  ~ In 39%N k -> k <> [] ->
  str_in k (py ", ") = false -> str_in k (py "]") = false ->
  Forall (fun i => plain i = true) l -> l <> [] ->
  exists W,
    join (py ", ") (map repr_str l) ++ py "]" = 39%N :: W /\
    str_in k W = existsb (str_in k) l.
Proof.
  intros Hq Hk Hsep Hclose Hl. induction Hl as [| i l Hi Hl IH]; [congruence|].
  intros _. rewrite map_cons.
  destruct l as [| j l].
  - cbn [map join]. rewrite (repr_plain i Hi).
    exists (i ++ 39%N :: py "]"). split.
    + repeat first [rewrite <- app_assoc | progress cbn [app]]. reflexivity.
    + transitivity (str_in k i || str_in k (py "]"));
        [exact (str_in_across 39%N k i (py "]") Hq Hk)|].
      rewrite Hclose. cbn [existsb]. reflexivity.
  - destruct IH as (W & HW & HI); [discriminate|].
    change (join (py ", ") (repr_str i :: map repr_str (j :: l)))
      with (repr_str i ++ py ", " ++ join (py ", ") (map repr_str (j :: l))).
    rewrite (repr_plain i Hi).
    exists (i ++ 39%N :: py ", " ++ 39%N :: W). split.
    + rewrite <- HW.
      repeat first [rewrite <- app_assoc | progress cbn [app]]. reflexivity.
    + transitivity (str_in k i || str_in k (py ", " ++ 39%N :: W));
        [exact (str_in_across 39%N k i (py ", " ++ 39%N :: W) Hq Hk)|].
      change (existsb (str_in k) (i :: j :: l))
        with (str_in k i || existsb (str_in k) (j :: l)).
      f_equal.
      transitivity (str_in k (py ", ") || str_in k W);
        [exact (str_in_across 39%N k (py ", ") W Hq Hk)|].
      rewrite Hsep, HI. reflexivity.
Qed.

Lemma key_in_str_of_list (k : pystr) (l : list pystr) :
  forallb (fun c => negb (c =? 39)%N) k = true -> k <> [] ->
  str_in k (py "[]") = false ->
  str_in k (py "[") = false -> str_in k (py ", ") = false ->
  str_in k (py "]") = false ->
  Forall (fun i => plain i = true) l ->
  str_in k (str_of_list l) = existsb (str_in k) l.
Proof.
  intros Hq Hk Hempty Hopen Hsep Hclose Hl.
  assert (Hq' : ~ In 39%N k).
  { intros I. rewrite forallb_forall in Hq. specialize (Hq _ I).
    discriminate Hq. }
  unfold str_of_list. destruct l as [| i l].
  - exact Hempty.
  - destruct (key_in_quoted k (i :: l) Hq' Hk Hsep Hclose Hl) as (W & HW & HI);
      [discriminate|].
    rewrite HW.
    transitivity (str_in k (py "[") || str_in k W);
      [exact (str_in_across 39%N k (py "[") W Hq' Hk)|].
    rewrite Hopen, HI. reflexivity.
Qed.

(** The six keys are such texts. *)
Lemma hint_keys_in_issues (l : list pystr) (k : pystr) :
  In k hint_keys -> Forall (fun i => plain i = true) l ->
  str_in k (str_of_list l) = existsb (str_in k) l.
Proof.
  intros I Hl.
  apply key_in_str_of_list; trivial;
    destruct I as [<- | [<- | [<- | [<- | [<- | [<- | []]]]]]];
    first [ vm_compute; reflexivity | vm_compute; discriminate ].
Qed.

Lemma suggest_fixes_by_blocks (issues : list pystr) :
  Forall (fun i => plain i = true) issues ->
  suggest_fixes issues =
    hint_block (py "Docker is not running")
      [ py "🔧 Start Docker Desktop or Docker daemon";
        py "   Windows: Start Docker Desktop application";
        py "   Linux: sudo systemctl start docker" ] issues ++
    hint_block (py "docker-compose.monitoring.yml not found")
      [ py "🔧 Make sure you're in the project root directory";
        py "   cd /path/to/mlops-housing-pipeline" ] issues ++
    hint_block (py "containers not running")
      [ py "🔧 Start the services:";
        py "   docker-compose -f docker-compose.monitoring.yml up -d" ] issues ++
    hint_block (py "port conflicts")
      [ py "🔧 Stop conflicting services or change ports";
        py "   Check what's using the ports: netstat -an | findstr :3000" ]
      issues ++
    hint_block (py "services not healthy")
      [ py "🔧 Wait a few minutes for services to start";
        py "🔧 Check logs: docker-compose -f docker-compose.monitoring.yml logs";
        py "🔧 Restart services: docker-compose -f docker-compose.monitoring.yml restart" ]
      issues ++
    hint_block (py "no metrics")
      [ py "🔧 Generate some data: python test_api_samples.py";
        py "🔧 Check Prometheus targets: http://localhost:9090/targets" ] issues.
Proof.
  intros Hl. unfold suggest_fixes, hint_block. cbv zeta.
  rewrite (hint_keys_in_issues issues (py "Docker is not running"))
    by (trivial; cbn; tauto).
  rewrite (hint_keys_in_issues issues (py "docker-compose.monitoring.yml not found"))
    by (trivial; cbn; tauto).
  rewrite (hint_keys_in_issues issues (py "containers not running"))
    by (trivial; cbn; tauto).
  rewrite (hint_keys_in_issues issues (py "port conflicts"))
    by (trivial; cbn; tauto).
  rewrite (hint_keys_in_issues issues (py "services not healthy"))
    by (trivial; cbn; tauto).
  rewrite (hint_keys_in_issues issues (py "no metrics"))
    by (trivial; cbn; tauto).
  destruct (existsb (str_in (py "Docker is not running")) issues),
    (existsb (str_in (py "docker-compose.monitoring.yml not found")) issues),
    (existsb (str_in (py "containers not running")) issues),
    (existsb (str_in (py "port conflicts")) issues),
    (existsb (str_in (py "services not healthy")) issues),
    (existsb (str_in (py "no metrics")) issues); reflexivity.
Qed.

(** X15.  For issues that [repr] shows as they are (printable ASCII
    without single quote and backslash), [suggest_fixes] gives the hints
    of a key exactly when one of the issues contains the key, and it gives
    the hints of the six keys in the order of the script: a key is never
    found across two issues or in the punctuation of [str(issues)]. *)
Theorem hints_follow_the_issues (issues : list pystr) :
  Forall (fun i => plain i = true) issues ->
  suggest_fixes issues =
    hint_block (py "Docker is not running")
      [ py "🔧 Start Docker Desktop or Docker daemon";
        py "   Windows: Start Docker Desktop application";
        py "   Linux: sudo systemctl start docker" ] issues ++
    hint_block (py "docker-compose.monitoring.yml not found")
      [ py "🔧 Make sure you're in the project root directory";
        py "   cd /path/to/mlops-housing-pipeline" ] issues ++
    hint_block (py "containers not running")
      [ py "🔧 Start the services:";
        py "   docker-compose -f docker-compose.monitoring.yml up -d" ] issues ++
    hint_block (py "port conflicts")
      [ py "🔧 Stop conflicting services or change ports";
        py "   Check what's using the ports: netstat -an | findstr :3000" ]
      issues ++
    hint_block (py "services not healthy")
      [ py "🔧 Wait a few minutes for services to start";
        py "🔧 Check logs: docker-compose -f docker-compose.monitoring.yml logs";
        py "🔧 Restart services: docker-compose -f docker-compose.monitoring.yml restart" ]
      issues ++
    hint_block (py "no metrics")
      [ py "🔧 Generate some data: python test_api_samples.py";
        py "🔧 Check Prometheus targets: http://localhost:9090/targets" ] issues.
Proof. apply suggest_fixes_by_blocks. Qed.

Lemma existsb_none {X} (p : X -> bool) (family l : list X) :
  forallb (fun x => negb (p x)) family = true ->
  Forall (fun x => In x family) l -> existsb p l = false.
Proof.
  intros F. rewrite forallb_forall in F.
  induction 1 as [| x l Hx _ IH]; [reflexivity|].
  simpl. rewrite IH. apply F in Hx. apply negb_true_iff in Hx.
  now rewrite Hx.
Qed.

(** X16.  [suggest_fixes] gives no hint for a list of issues made of the
    messages of a missing Docker ([Docker is not installed or not
    running]), of a missing or slow docker-compose, of the ports that are
    not accessible and of the services that are unhealthy, in any number
    and order: the text [Docker is not running] it looks for is not part
    of the message the Docker check produces. *)
Theorem known_failures_without_hint (issues : list pystr) :
  Forall (fun i => In i unhinted) issues -> suggest_fixes issues = [].
Proof.
  intros H.
  assert (P : Forall (fun i => plain i = true) issues).
  { assert (F : forallb plain unhinted = true) by (vm_compute; reflexivity).
    rewrite forallb_forall in F. revert H. apply Forall_impl. exact F. }
  rewrite (suggest_fixes_by_blocks issues P). unfold hint_block.
  rewrite (existsb_none (str_in (py "Docker is not running")) unhinted issues)
    by (trivial; vm_compute; reflexivity).
  rewrite (existsb_none (str_in (py "docker-compose.monitoring.yml not found"))
             unhinted issues) by (trivial; vm_compute; reflexivity).
  rewrite (existsb_none (str_in (py "containers not running")) unhinted issues)
    by (trivial; vm_compute; reflexivity).
  rewrite (existsb_none (str_in (py "port conflicts")) unhinted issues)
    by (trivial; vm_compute; reflexivity).
  rewrite (existsb_none (str_in (py "services not healthy")) unhinted issues)
    by (trivial; vm_compute; reflexivity).
  rewrite (existsb_none (str_in (py "no metrics")) unhinted issues)
    by (trivial; vm_compute; reflexivity).
  reflexivity.
Qed.

(** The containers could not be listed and a port is closed: the one hint
    is to start the services. *)
Lemma hints_follow_the_issues_witness :
  let issues := [py "containers not running"; py "Port 3000 not accessible"] in
  Forall (fun i => plain i = true) issues /\
  suggest_fixes issues =
    [ py "🔧 Start the services:";
      py "   docker-compose -f docker-compose.monitoring.yml up -d" ].
Proof.
  cbv zeta.
  assert (P : Forall (fun i => plain i = true)
                [py "containers not running"; py "Port 3000 not accessible"])
    by (repeat constructor).
  split; [exact P|].
  eapply eq_trans; [exact (hints_follow_the_issues _ P)|].
  vm_compute; reflexivity.
Defined.

(** Docker is missing and Grafana is down. *)
Lemma known_failures_without_hint_witness :
  let issues := [ py "Docker is not installed or not running";
                  py "Port 3000 not accessible";
                  py "Service grafana unhealthy" ] in
  Forall (fun i => In i unhinted) issues /\ suggest_fixes issues = [].
Proof.
  cbv zeta.
  assert (U : Forall (fun i => In i unhinted)
                [ py "Docker is not installed or not running";
                  py "Port 3000 not accessible";
                  py "Service grafana unhealthy" ]).
  { assert (F : forallb (fun i => existsb (str_eqb i) unhinted)
                  [ py "Docker is not installed or not running";
                    py "Port 3000 not accessible";
                    py "Service grafana unhealthy" ] = true)
      by (vm_compute; reflexivity).
    rewrite forallb_forall in F. apply Forall_forall. intros i Hi.
    apply F in Hi. apply existsb_exists in Hi as (x & Hx & Heq).
    apply str_eqb_eq in Heq. now subst x. }
  split; [exact U|]. exact (known_failures_without_hint _ U).
Defined.

End TroubleshooterHintFacts.
